(** * Payment gateway router: health tracker, weighted router, ledger

    A shallow embedding of the three cooperating services of the
    repository,

    - [GatewayHealthService]  (gateway-health.service.ts),
    - [GatewayService]        (gateway.service.ts),
    - [TransactionsService]   (transactions.service.ts),

    together with the properties that their specification states.

    Conventions of the embedding.

    - A [Date] is its epoch value in milliseconds, a [Z]; comparing two
      dates with [>] or [>=] compares these values.  The states of the
      embedding hold valid dates.  The one place where the code can
      build an Invalid Date, [disableGateway] called with a number of
      minutes that takes the Date out of its range, ends in an outcome
      of its own.
    - Every service method runs to completion synchronously; the wall
      clock readings it makes ([new Date()], [Date.now()]) are modelled
      by the single argument [now] of the method.
    - A JavaScript [Map<string, V>] is a [gmap string V]; the services
      are objects with private maps, here records threaded through the
      methods (explicit state passing).  A method that can throw returns
      the state it leaves behind together with a [Result].
    - A JavaScript [number] that holds a count is a [nat]; one that holds
      a weight, a ratio or a random draw is a rational [Q].  The
      breaker's test [successCount / totalRequests < 0.9] has the same
      outcome in IEEE doubles and in [Q] for every length a JavaScript
      array can have: the quotient of two integers below 2^32 is either
      equal to 9/10 (and then rounds to the same double as the literal)
      or further than 2^-36 away from it.  The router's sums are exact
      in doubles for integer weights such as the shipped ones.  The
      product [Math.random() * totalWeight] and the arithmetic of
      [disableGateway] on the operator's number of minutes are rounded
      as binary64 operations are; the rounding of the percentage
      printed in the rationale is not modelled.
    - [Math.random()] and [crypto.randomUUID()] are inputs of the methods
      that call them. *)

From Stdlib Require Import ZArith QArith Qabs Qround String Ascii List Bool Lia.
From Stdlib Require Import Sorted Lqa.
From stdpp Require Import gmap strings list fin_maps pretty.

Close Scope Q_scope.
Open Scope Z_scope.

(** ** JavaScript values used by the services *)

Module JS.

(** Truthiness of a string: every string but the empty one. *)
Definition truthy (s : string) : bool := negb (String.eqb s "").

(** [o || d] for an optional string [o]: [undefined] and [""] are falsy. *)
Definition or_else (o : option string) (d : string) : string :=
  match o with
  | Some s => if truthy s then s else d
  | None => d
  end.

(** [s.slice(-n)]: the last [n] characters, the whole string when it is
    shorter. *)
Definition slice_last (n : nat) (s : string) : string :=
  String.substring (String.length s - n) n s.

(** [xs.join(sep)] *)
Fixpoint join (sep : string) (xs : list string) : string :=
  match xs with
  | [] => ""
  | [x] => x
  | x :: rest => x +:+ sep +:+ join sep rest
  end.

(** Strict order on rationals, as a boolean. *)
Definition Qlt_bool (x y : Q) : bool := negb (Qle_bool y x).

(** [x.toFixed(1)] on an exact rational: the integer [n] closest to
    [|x| * 10], the larger one at a tie, printed with one decimal and
    the sign of [x]. *)
Definition toFixed1 (x : Q) : string :=
  let n := Qfloor (Qabs x * 10 + (1 # 2))%Q in
  (if Qlt_bool x 0 then "-" else "")
    +:+ pretty (n / 10) +:+ "." +:+ pretty (n mod 10).

(** [((a / b) * 100).toFixed(1)], with the IEEE results of a division
    by zero. *)
Definition percent (a b : Q) : string :=
  if Qeq_bool b 0 then
    if Qeq_bool a 0 then "NaN"
    else if Qlt_bool a 0 then "-Infinity" else "Infinity"
  else toFixed1 ((a / b) * 100)%Q.

(** [a / b] for two counts. *)
Definition ratio (a b : nat) : Q :=
  (inject_Z (Z.of_nat a) / inject_Z (Z.of_nat b))%Q.

(** *** Arithmetic on numbers

    A JavaScript [number] is an IEEE binary64 value.  A finite one is a
    rational; [NaN], [Infinity] and [-Infinity] are merged into
    [NotFinite]: the services only multiply and add such numbers and
    build a [Date] from the result, and there the three behave alike.
    The two zeros are not told apart either. *)
Inductive Number :=
| Finite (q : Q)
| NotFinite.

(** 2^e *)
Definition pow2 (e : Z) : Q :=
  if 0 <=? e then inject_Z (2 ^ e) else (/ inject_Z (2 ^ (- e)))%Q.

(** The integer nearest to [x], the even one at a tie. *)
Definition roundHalfEven (x : Q) : Z :=
  let f := Qfloor x in
  match Qcompare (x - inject_Z f) (1 # 2) with
  | Lt => f
  | Gt => f + 1
  | Eq => if Z.even f then f else f + 1
  end.

(** The integer part of the binary logarithm of [|x|], for [x] other
    than zero: the difference of the logarithms of numerator and
    denominator, or one less. *)
Definition ilog2 (x : Q) : Z :=
  let l := Z.log2 (Z.abs (Qnum x)) - Z.log2 (Z.pos (Qden x)) in
  if Qle_bool (pow2 l) (Qabs x) then l else l - 1.

(** The exponent of the unit in the last place of the binary64 values
    around [x]: 53 significant bits, and no exponent below that of the
    subnormal numbers. *)
Definition exponent64 (x : Q) : Z := Z.max (ilog2 x - 52) (- 1074).

(** Rounding to the nearest binary64 value, ties to even, before the
    test for overflow. *)
Definition round64 (x : Q) : Q :=
  if Qeq_bool x 0 then 0%Q
  else
    let e := exponent64 x in
    (inject_Z (roundHalfEven (x / pow2 e)) * pow2 e)%Q.

(** The result of an operation whose exact value is [x]: rounded, and
    infinite from 2^1024 on. *)
Definition rounded (x : Q) : Number :=
  let y := round64 x in
  if Qle_bool (pow2 1024) (Qabs y) then NotFinite else Finite y.

(** [a * b] *)
Definition mul (a b : Number) : Number :=
  match a, b with
  | Finite x, Finite y => rounded (x * y)
  | _, _ => NotFinite
  end.

(** [a + b] *)
Definition add (a b : Number) : Number :=
  match a, b with
  | Finite x, Finite y => rounded (x + y)
  | _, _ => NotFinite
  end.

(** The integer part of [x], rounding towards zero. *)
Definition truncate (x : Q) : Z := Z.quot (Qnum x) (Z.pos (Qden x)).

(** [new Date(value)] for a number: the time value, [None] for an
    Invalid Date, which is what a value that is not finite or lies more
    than 8.64e15 milliseconds from the epoch gives. *)
Definition newDate (value : Number) : option Z :=
  match value with
  | Finite x =>
      if Qle_bool (Qabs x) 8640000000000000 then Some (truncate x) else None
  | NotFinite => None
  end.

(** [xs.sort((a, b) => key(b) - key(a))]: a stable sort, largest key
    first. *)
Section Sort.
Context {A : Type} (key : A -> Z).

Fixpoint insert_desc (x : A) (xs : list A) : list A :=
  match xs with
  | [] => [x]
  | y :: rest =>
      if key y <? key x then x :: y :: rest
      else y :: insert_desc x rest
  end.

Definition sort_desc (xs : list A) : list A :=
  foldl (fun acc x => insert_desc x acc) [] xs.
End Sort.

End JS.

(** ** gateway/types/gateway.types.ts *)

Module GatewayConfig.
Record t := mk { name : string; weight : Q; enabled : bool }.
End GatewayConfig.

Module GatewayStats.
Record t := mk {
  totalRequests : nat;
  successCount : nat;
  failureCount : nat;
  lastFailureTime : option Z;
  windowStartTime : Z;
}.
End GatewayStats.

Module GatewayHealth.
Record t := mk {
  name : string;
  isHealthy : bool;
  successRate : Q;
  totalRequests : nat;
  successCount : nat;
  failureCount : nat;
  disabledUntil : option Z;
}.
End GatewayHealth.

Module GatewaySelectionResult.
Record t := mk { gateway : string; reason : string }.
End GatewaySelectionResult.

Definition GATEWAY_CONFIG : list GatewayConfig.t :=
  [ GatewayConfig.mk "razorpay" 50 true;
    GatewayConfig.mk "payu" 30 true;
    GatewayConfig.mk "cashfree" 20 true ].

Definition HEALTH_CHECK_WINDOW_MINUTES : Z := 15.
Definition UNHEALTHY_COOLDOWN_MINUTES : Z := 30.
Definition SUCCESS_RATE_THRESHOLD : Q := 9 # 10.
Definition MIN_REQUESTS_FOR_HEALTH_CHECK : nat := 5.

(** ** transactions/types/transaction.types.ts and the two DTOs *)

Module TransactionStatus.
Inductive t := PENDING | SUCCESS | FAILURE.

Definition eqb (a b : t) : bool :=
  match a, b with
  | PENDING, PENDING | SUCCESS, SUCCESS | FAILURE, FAILURE => true
  | _, _ => false
  end.
End TransactionStatus.

Module PaymentInstrumentType.
Inductive t := CARD | UPI | NETBANKING | WALLET.
End PaymentInstrumentType.

Module PaymentInstrument.
Record t := mk {
  type : PaymentInstrumentType.t;
  card_number : option string;
  expiry : option string;
  cvv : option string;
  upi_id : option string;
  bank_code : option string;
  wallet_provider : option string;
}.
End PaymentInstrument.

Module Transaction.
Record t := mk {
  id : string;
  order_id : string;
  amount : Q;
  currency : string;
  status : TransactionStatus.t;
  gateway : string;
  gateway_selection_reason : string;
  payment_instrument : PaymentInstrument.t;
  failure_reason : option string;
  created_at : Z;
  updated_at : Z;
}.
End Transaction.

Module InitiateTransactionDto.
Record t := mk {
  order_id : string;
  amount : Q;
  currency : option string;
  payment_instrument : PaymentInstrument.t;
}.
End InitiateTransactionDto.

Module CallbackStatus.
Inductive t := SUCCESS | FAILURE.

Definition eqb (a b : t) : bool :=
  match a, b with
  | SUCCESS, SUCCESS | FAILURE, FAILURE => true
  | _, _ => false
  end.
End CallbackStatus.

Module CallbackDto.
Record t := mk {
  order_id : string;
  status : CallbackStatus.t;
  gateway : string;
  reason : option string;
}.
End CallbackDto.

(** ** Exceptions and results *)

Inductive Exception :=
  | NoHealthyGateway
      (* Error('No healthy payment gateways available') *)
  | DuplicatePendingOrder (order_id : string)
      (* BadRequestException('Transaction already initiated for order ..') *)
  | OrderNotFound (order_id : string)
      (* NotFoundException('Transaction not found for order ..') *)
  | TransactionNotFound (id : string)
      (* NotFoundException('Transaction .. not found') *)
  | GatewayMismatch (expected received : string)
      (* BadRequestException('Gateway mismatch. Expected: .., Received: ..') *)
  | AlreadyProcessed (status : TransactionStatus.t)
      (* BadRequestException('Transaction already processed with status: ..') *).

Inductive Result (A : Type) :=
  | Ok (a : A)
  | Throw (e : Exception).
Arguments Ok {A} a.
Arguments Throw {A} e.

(** ** gateway/gateway-health.service.ts *)

Module TransactionRecord.
Record t := mk { timestamp : Z; success : bool }.
End TransactionRecord.

Module GatewayHealthService.

Record State := mkState {
  gatewayTransactions : gmap string (list TransactionRecord.t);
  disabledGateways : gmap string Z;
}.

Definition with_transactions (s : State)
    (m : gmap string (list TransactionRecord.t)) : State :=
  {| gatewayTransactions := m; disabledGateways := disabledGateways s |}.

Definition with_disabled (s : State) (m : gmap string Z) : State :=
  {| gatewayTransactions := gatewayTransactions s; disabledGateways := m |}.

Definition minutes_ms (minutes : Z) : Z := minutes * 60 * 1000.

(** The constructor: an empty history for every configured gateway. *)
Definition init (config : list GatewayConfig.t) : State :=
  {| gatewayTransactions :=
       foldl (fun m g => <[GatewayConfig.name g := []]> m) ∅ config;
     disabledGateways := ∅ |}.

Definition getGatewayStats (s : State) (gateway : string) (now : Z)
    : GatewayStats.t :=
  let transactions := default [] (gatewayTransactions s !! gateway) in
  let windowStart := now - minutes_ms HEALTH_CHECK_WINDOW_MINUTES in
  let windowTransactions :=
    List.filter (fun t => TransactionRecord.timestamp t >=? windowStart)
                transactions in
  let successCount :=
    length (List.filter TransactionRecord.success windowTransactions) in
  let failureCount :=
    length (List.filter (fun t => negb (TransactionRecord.success t))
                        windowTransactions) in
  let lastFailure :=
    head (JS.sort_desc TransactionRecord.timestamp
            (List.filter (fun t => negb (TransactionRecord.success t))
                         windowTransactions)) in
  {| GatewayStats.totalRequests := length windowTransactions;
     GatewayStats.successCount := successCount;
     GatewayStats.failureCount := failureCount;
     GatewayStats.lastFailureTime :=
       TransactionRecord.timestamp <$> lastFailure;
     GatewayStats.windowStartTime := windowStart |}.

Definition checkAndUpdateHealth (s : State) (gateway : string) (now : Z)
    : State :=
  let stats := getGatewayStats s gateway now in
  if (GatewayStats.totalRequests stats <? MIN_REQUESTS_FOR_HEALTH_CHECK)%nat
  then s
  else
    let successRate :=
      JS.ratio (GatewayStats.successCount stats)
               (GatewayStats.totalRequests stats) in
    if JS.Qlt_bool successRate SUCCESS_RATE_THRESHOLD then
      let disabledUntil := now + minutes_ms UNHEALTHY_COOLDOWN_MINUTES in
      with_disabled s (<[gateway := disabledUntil]> (disabledGateways s))
    else s.

Definition recordTransaction (s : State) (gateway : string)
    (success : bool) (now : Z) : State :=
  let transactions := default [] (gatewayTransactions s !! gateway) in
  let transactions :=
    transactions ++ [TransactionRecord.mk now success] in
  let s :=
    with_transactions s (<[gateway := transactions]> (gatewayTransactions s)) in
  if negb success then checkAndUpdateHealth s gateway now else s.

Definition isGatewayHealthy (s : State) (gateway : string) (now : Z)
    : State * bool :=
  match disabledGateways s !! gateway with
  | Some disabledUntil =>
      if now >? disabledUntil then
        (with_disabled s (delete gateway (disabledGateways s)), true)
      else (s, false)
  | None => (s, true)
  end.

(** [cs.filter(c => c.enabled && this.isGatewayHealthy(c.name))
    .map(c => c.name)]: the predicate runs once per descriptor, in
    order, and each run may clear an elapsed disable. *)
Fixpoint filterHealthy (cs : list GatewayConfig.t) (s : State) (now : Z)
    : State * list string :=
  match cs with
  | [] => (s, [])
  | c :: rest =>
      if GatewayConfig.enabled c then
        let '(s1, healthy) := isGatewayHealthy s (GatewayConfig.name c) now in
        let '(s2, names) := filterHealthy rest s1 now in
        (s2, if healthy then GatewayConfig.name c :: names else names)
      else filterHealthy rest s now
  end.

Definition getGatewayHealth (s : State) (gateway : string) (now : Z)
    : State * GatewayHealth.t :=
  let stats := getGatewayStats s gateway now in
  let disabledUntil := disabledGateways s !! gateway in
  let '(s1, isHealthy) := isGatewayHealthy s gateway now in
  (s1,
   {| GatewayHealth.name := gateway;
      GatewayHealth.isHealthy := isHealthy;
      GatewayHealth.successRate :=
        if (0 <? GatewayStats.totalRequests stats)%nat
        then JS.ratio (GatewayStats.successCount stats)
                      (GatewayStats.totalRequests stats)
        else 1%Q;
      GatewayHealth.totalRequests := GatewayStats.totalRequests stats;
      GatewayHealth.successCount := GatewayStats.successCount stats;
      GatewayHealth.failureCount := GatewayStats.failureCount stats;
      GatewayHealth.disabledUntil := disabledUntil |}).

(** [cs.map(c => this.getGatewayHealth(c.name))]: one report per
    descriptor, in order; each report is a read and may clear an elapsed
    disable. *)
Fixpoint mapHealth (cs : list GatewayConfig.t) (s : State) (now : Z)
    : State * list GatewayHealth.t :=
  match cs with
  | [] => (s, [])
  | c :: rest =>
      let '(s1, report) := getGatewayHealth s (GatewayConfig.name c) now in
      let '(s2, reports) := mapHealth rest s1 now in
      (s2, report :: reports)
  end.

Section Configured.
Context (config : list GatewayConfig.t).

Definition getHealthyGateways (s : State) (now : Z) : State * list string :=
  filterHealthy config s now.

Definition getAllGatewayHealth (s : State) (now : Z)
    : State * list GatewayHealth.t :=
  mapHealth config s now.

Definition resetAllStats (s : State) : State :=
  {| gatewayTransactions :=
       foldl (fun m g => <[GatewayConfig.name g := []]> m)
             (gatewayTransactions s) config;
     disabledGateways := ∅ |}.
End Configured.

Definition cleanupOldRecords (s : State) (now : Z) : State :=
  let cutoffTime := now - minutes_ms (HEALTH_CHECK_WINDOW_MINUTES * 2) in
  with_transactions s
    (List.filter (fun t => TransactionRecord.timestamp t >=? cutoffTime)
       <$> gatewayTransactions s).

(** [new Date(Date.now() + minutes * 60 * 1000)], the value that
    [disableGateway] stores: [None] is the Invalid Date. *)
Definition disabledUntilAfter (minutes : JS.Number) (now : Z) : option Z :=
  JS.newDate
    (JS.add (JS.Finite (inject_Z now))
            (JS.mul (JS.mul minutes (JS.Finite 60)) (JS.Finite 1000))).

(** What a call of [disableGateway] leaves behind.  With a valid Date
    the entry is stored and the call returns.  An Invalid Date is stored
    as well, after which [toISOString], called for the log entry, throws
    a RangeError; from then on [isGatewayHealthy] finds the entry and
    answers [false] at every instant, every comparison with the invalid
    date being false, until [enableGateway] or [resetAllStats] removes
    it.  The states of this embedding hold valid dates only, so that
    outcome is named and not followed further. *)
Inductive Disabling :=
| Stored (s : State)
| InvalidDate.

(** The argument [minutes] is used in one place, the product
    [minutes * 60 * 1000].  It is [None] when the caller passes
    [undefined] or nothing, and the default of the parameter applies;
    otherwise it is the number that the product converts the argument
    to: the argument itself when it is a number, [0] for [null],
    [NotFinite] for a string that is no numeral, and so on.  Arguments
    whose conversion throws (a BigInt, a Symbol) are left out. *)
Definition disableGateway (s : State) (gateway : string)
    (minutes : option JS.Number) (now : Z) : Disabling :=
  let minutes :=
    default (JS.Finite (inject_Z UNHEALTHY_COOLDOWN_MINUTES)) minutes in
  match disabledUntilAfter minutes now with
  | Some disabledUntil =>
      Stored
        (with_disabled s (<[gateway := disabledUntil]> (disabledGateways s)))
  | None => InvalidDate
  end.

Definition enableGateway (s : State) (gateway : string) : State :=
  with_disabled s (delete gateway (disabledGateways s)).

End GatewayHealthService.

(** ** gateway/gateway.service.ts *)

Module GatewayService.

(** The loop of [selectGateway]: accumulate the weights in order and
    stop at the first gateway with [random <= cumulativeWeight]. *)
Fixpoint walk (random cumulativeWeight : Q) (gateways : list GatewayConfig.t)
    : option GatewayConfig.t :=
  match gateways with
  | [] => None
  | gateway :: rest =>
      let cumulativeWeight :=
        (cumulativeWeight + GatewayConfig.weight gateway)%Q in
      if Qle_bool random cumulativeWeight then Some gateway
      else walk random cumulativeWeight rest
  end.

(** The loop followed by its fallback, on a non-empty list of healthy
    gateways [first :: rest]: the gateway at which the loop stopped,
    [healthyGateways[0]] when it stopped at none. *)
Definition selectAmong (random : Q) (first : GatewayConfig.t)
    (rest : list GatewayConfig.t) : GatewayConfig.t :=
  match walk random 0 (first :: rest) with
  | Some gateway => gateway
  | None => first
  end.

Section Configured.
Context (config : list GatewayConfig.t).

Definition getAllGateways : list GatewayConfig.t := config.

Definition getHealthyGatewayConfigs (h : GatewayHealthService.State)
    (now : Z) : GatewayHealthService.State * list GatewayConfig.t :=
  let '(h1, healthyNames) :=
    GatewayHealthService.getHealthyGateways config h now in
  (h1,
   List.filter
     (fun c => bool_decide (GatewayConfig.name c ∈ healthyNames)) config).

Definition buildSelectionReason (selected : GatewayConfig.t)
    (healthyGateways : list GatewayConfig.t) (totalWeight : Q) : string :=
  let allGateways := config in
  let unhealthyGateways :=
    List.filter
      (fun g =>
         negb (existsb
                 (fun hg => String.eqb (GatewayConfig.name hg)
                                       (GatewayConfig.name g))
                 healthyGateways))
      allGateways in
  let reason :=
    "Selected " +:+ GatewayConfig.name selected
      +:+ " via weighted routing ("
      +:+ JS.percent (GatewayConfig.weight selected) totalWeight
      +:+ "% effective probability)" in
  if (0 <? length unhealthyGateways)%nat then
    reason +:+ ". Excluded unhealthy gateways: "
      +:+ JS.join ", " (map GatewayConfig.name unhealthyGateways)
  else reason.

(** [rnd] is the value returned by [Math.random()], a number of
    [[0, 1)]; the product with the total weight is rounded as the
    multiplication of two numbers is, and cannot overflow. *)
Definition selectGateway (h : GatewayHealthService.State) (now : Z)
    (rnd : Q)
    : GatewayHealthService.State * Result GatewaySelectionResult.t :=
  let '(h1, healthyGateways) := getHealthyGatewayConfigs h now in
  match healthyGateways with
  | [] => (h1, Throw NoHealthyGateway)
  | first :: rest =>
      let totalWeight :=
        foldl (fun sum g => sum + GatewayConfig.weight g)%Q 0%Q
              healthyGateways in
      let random := JS.round64 (rnd * totalWeight) in
      let selectedGateway := selectAmong random first rest in
      let reason :=
        buildSelectionReason selectedGateway healthyGateways totalWeight in
      (h1,
       Ok {| GatewaySelectionResult.gateway :=
               GatewayConfig.name selectedGateway;
             GatewaySelectionResult.reason := reason |})
  end.

Definition isValidGateway (gatewayName : string) : bool :=
  existsb (fun g => String.eqb (GatewayConfig.name g) gatewayName) config.
End Configured.

Definition recordTransactionResult (h : GatewayHealthService.State)
    (gateway : string) (success : bool) (now : Z)
    : GatewayHealthService.State :=
  GatewayHealthService.recordTransaction h gateway success now.

End GatewayService.

(** ** transactions/transactions.service.ts *)

(** The objects [getStats] returns: the counts per gateway and the
    summary.  [byGateway] is a plain object used as a map from gateway
    names to counts; the names are taken not to be member names of
    [Object.prototype] (the shipped names are not). *)
Module GatewayCount.
Record t := mk { total : nat; success : nat; failure : nat }.
End GatewayCount.

Module TransactionStats.
Record t := mk {
  total : nat;
  pending : nat;
  success : nat;
  failure : nat;
  byGateway : gmap string GatewayCount.t;
}.
End TransactionStats.

Module TransactionsService.

Record State := mkState {
  transactions : gmap string Transaction.t;
  orderToTransaction : gmap string string;
  (** the state of the health service behind [this.gatewayService] *)
  gatewayService : GatewayHealthService.State;
}.

Definition init (config : list GatewayConfig.t) : State :=
  {| transactions := ∅;
     orderToTransaction := ∅;
     gatewayService := GatewayHealthService.init config |}.

Definition sanitizePaymentInstrument (instrument : PaymentInstrument.t)
    : PaymentInstrument.t :=
  let card_number :=
    match PaymentInstrument.card_number instrument with
    | Some n =>
        if JS.truthy n then Some ("****" +:+ JS.slice_last 4 n) else Some n
    | None => None
    end in
  {| PaymentInstrument.type := PaymentInstrument.type instrument;
     PaymentInstrument.card_number := card_number;
     PaymentInstrument.expiry := PaymentInstrument.expiry instrument;
     PaymentInstrument.cvv := None;
     PaymentInstrument.upi_id := PaymentInstrument.upi_id instrument;
     PaymentInstrument.bank_code := PaymentInstrument.bank_code instrument;
     PaymentInstrument.wallet_provider :=
       PaymentInstrument.wallet_provider instrument |}.

(** The guard of [initiateTransaction]: the order is indexed, the
    indexed transaction exists and is PENDING. *)
Definition hasPendingTransaction (s : State) (order_id : string) : bool :=
  match orderToTransaction s !! order_id with
  | Some existingTxnId =>
      match transactions s !! existingTxnId with
      | Some existingTxn =>
          TransactionStatus.eqb (Transaction.status existingTxn)
                                TransactionStatus.PENDING
      | None => false
      end
  | None => false
  end.

Section Configured.
Context (config : list GatewayConfig.t).

(** [rnd] is the draw of [Math.random()] inside [selectGateway],
    [uuid] the value of [crypto.randomUUID()]. *)
Definition initiateTransaction (s : State) (dto : InitiateTransactionDto.t)
    (now : Z) (rnd : Q) (uuid : string) : State * Result Transaction.t :=
  if hasPendingTransaction s (InitiateTransactionDto.order_id dto) then
    (s, Throw (DuplicatePendingOrder (InitiateTransactionDto.order_id dto)))
  else
    let '(h1, selection) :=
      GatewayService.selectGateway config (gatewayService s) now rnd in
    match selection with
    | Throw e =>
        ({| transactions := transactions s;
            orderToTransaction := orderToTransaction s;
            gatewayService := h1 |}, Throw e)
    | Ok gatewaySelection =>
        let transactionId := uuid in
        let transaction :=
          {| Transaction.id := transactionId;
             Transaction.order_id := InitiateTransactionDto.order_id dto;
             Transaction.amount := InitiateTransactionDto.amount dto;
             Transaction.currency :=
               JS.or_else (InitiateTransactionDto.currency dto) "INR";
             Transaction.status := TransactionStatus.PENDING;
             Transaction.gateway :=
               GatewaySelectionResult.gateway gatewaySelection;
             Transaction.gateway_selection_reason :=
               GatewaySelectionResult.reason gatewaySelection;
             Transaction.payment_instrument :=
               sanitizePaymentInstrument
                 (InitiateTransactionDto.payment_instrument dto);
             Transaction.failure_reason := None;
             Transaction.created_at := now;
             Transaction.updated_at := now |} in
        ({| transactions := <[transactionId := transaction]> (transactions s);
            orderToTransaction :=
              <[InitiateTransactionDto.order_id dto := transactionId]>
                (orderToTransaction s);
            gatewayService := h1 |},
         Ok transaction)
    end.
End Configured.

(** The stored transaction object is updated in place; the map entry
    under [transactionId] is that object. *)
Definition processCallback (s : State) (dto : CallbackDto.t) (now : Z)
    : State * Result Transaction.t :=
  match orderToTransaction s !! CallbackDto.order_id dto with
  | None => (s, Throw (OrderNotFound (CallbackDto.order_id dto)))
  | Some transactionId =>
      if negb (JS.truthy transactionId) then
        (s, Throw (OrderNotFound (CallbackDto.order_id dto)))
      else
        match transactions s !! transactionId with
        | None => (s, Throw (TransactionNotFound transactionId))
        | Some transaction =>
            if negb (String.eqb (Transaction.gateway transaction)
                                (CallbackDto.gateway dto)) then
              (s, Throw (GatewayMismatch (Transaction.gateway transaction)
                                         (CallbackDto.gateway dto)))
            else if negb (TransactionStatus.eqb
                            (Transaction.status transaction)
                            TransactionStatus.PENDING) then
              (s, Throw (AlreadyProcessed (Transaction.status transaction)))
            else
              let isSuccess :=
                CallbackStatus.eqb (CallbackDto.status dto)
                                   CallbackStatus.SUCCESS in
              let failure_reason :=
                match CallbackDto.reason dto with
                | Some r =>
                    if negb isSuccess && JS.truthy r then Some r
                    else Transaction.failure_reason transaction
                | None => Transaction.failure_reason transaction
                end in
              let transaction :=
                {| Transaction.id := Transaction.id transaction;
                   Transaction.order_id := Transaction.order_id transaction;
                   Transaction.amount := Transaction.amount transaction;
                   Transaction.currency := Transaction.currency transaction;
                   Transaction.status :=
                     if isSuccess then TransactionStatus.SUCCESS
                     else TransactionStatus.FAILURE;
                   Transaction.gateway := Transaction.gateway transaction;
                   Transaction.gateway_selection_reason :=
                     Transaction.gateway_selection_reason transaction;
                   Transaction.payment_instrument :=
                     Transaction.payment_instrument transaction;
                   Transaction.failure_reason := failure_reason;
                   Transaction.created_at := Transaction.created_at transaction;
                   Transaction.updated_at := now |} in
              let h1 :=
                GatewayService.recordTransactionResult
                  (gatewayService s) (CallbackDto.gateway dto) isSuccess now in
              ({| transactions :=
                    <[transactionId := transaction]> (transactions s);
                  orderToTransaction := orderToTransaction s;
                  gatewayService := h1 |},
               Ok transaction)
        end
  end.

Definition getTransaction (s : State) (transactionId : string)
    : Result Transaction.t :=
  match transactions s !! transactionId with
  | Some transaction => Ok transaction
  | None => Throw (TransactionNotFound transactionId)
  end.

Definition getTransactionByOrderId (s : State) (orderId : string)
    : Result Transaction.t :=
  match orderToTransaction s !! orderId with
  | Some transactionId =>
      if JS.truthy transactionId then getTransaction s transactionId
      else Throw (OrderNotFound orderId)
  | None => Throw (OrderNotFound orderId)
  end.

Definition clearTransactions (s : State) : State :=
  {| transactions := ∅;
     orderToTransaction := ∅;
     gatewayService := gatewayService s |}.

(** [Array.from(this.transactions.values()).sort(...)], most recent
    first.  The sort is stable; among transactions created at the same
    instant the source keeps the order of insertion into the [Map],
    which a [gmap] does not record: here such ties come in the order of
    [map_to_list]. *)
Definition getAllTransactions (s : State) : list Transaction.t :=
  JS.sort_desc Transaction.created_at
    (map snd (map_to_list (transactions s))).

(** One round of the [forEach] of [getStats]. *)
Definition countGateway (byGateway : gmap string GatewayCount.t)
    (t : Transaction.t) : gmap string GatewayCount.t :=
  let entry :=
    default (GatewayCount.mk 0 0 0) (byGateway !! Transaction.gateway t) in
  let entry :=
    {| GatewayCount.total := S (GatewayCount.total entry);
       GatewayCount.success :=
         if TransactionStatus.eqb (Transaction.status t)
                                  TransactionStatus.SUCCESS
         then S (GatewayCount.success entry)
         else GatewayCount.success entry;
       GatewayCount.failure :=
         if TransactionStatus.eqb (Transaction.status t)
                                  TransactionStatus.SUCCESS
         then GatewayCount.failure entry
         else if TransactionStatus.eqb (Transaction.status t)
                                       TransactionStatus.FAILURE
         then S (GatewayCount.failure entry)
         else GatewayCount.failure entry |} in
  <[Transaction.gateway t := entry]> byGateway.

Definition getStats (s : State) : TransactionStats.t :=
  let transactions := getAllTransactions s in
  let hasStatus (status : TransactionStatus.t) (t : Transaction.t) :=
    TransactionStatus.eqb (Transaction.status t) status in
  {| TransactionStats.total := length transactions;
     TransactionStats.pending :=
       length (List.filter (hasStatus TransactionStatus.PENDING) transactions);
     TransactionStats.success :=
       length (List.filter (hasStatus TransactionStatus.SUCCESS) transactions);
     TransactionStats.failure :=
       length (List.filter (hasStatus TransactionStatus.FAILURE) transactions);
     TransactionStats.byGateway := foldl countGateway ∅ transactions |}.

End TransactionsService.

(** ** gateway/gateway.controller.ts *)

Module GatewayController.

Module GatewayWithHealth.
Record t := mk { config : GatewayConfig.t; health : option GatewayHealth.t }.
End GatewayWithHealth.

Module HealthResponse.
Record t := mk { success : bool; message : string; health : GatewayHealth.t }.
End HealthResponse.

Module ResetResponse.
Record t := mk { success : bool; message : string }.
End ResetResponse.

Section Configured.
Context (config : list GatewayConfig.t).

(** [GET /gateways]: every descriptor with the first report that carries
    its name. *)
Definition getAllGateways (s : GatewayHealthService.State) (now : Z)
    : GatewayHealthService.State * list GatewayWithHealth.t :=
  let configs := GatewayService.getAllGateways config in
  let '(s1, health) :=
    GatewayHealthService.getAllGatewayHealth config s now in
  (s1,
   map (fun c =>
          {| GatewayWithHealth.config := c;
             GatewayWithHealth.health :=
               List.find
                 (fun h => String.eqb (GatewayHealth.name h)
                                      (GatewayConfig.name c))
                 health |})
       configs).

(** [POST /gateways/reset] *)
Definition resetStats (s : GatewayHealthService.State)
    : GatewayHealthService.State * ResetResponse.t :=
  (GatewayHealthService.resetAllStats config s,
   {| ResetResponse.success := true;
      ResetResponse.message := "All gateway stats have been reset" |}).
End Configured.

(** [GET /gateways/:name/health] *)
Definition getGatewayHealth (s : GatewayHealthService.State) (name : string)
    (now : Z) : GatewayHealthService.State * GatewayHealth.t :=
  GatewayHealthService.getGatewayHealth s name now.

(** The body of [POST /gateways/:name/disable] as the handler uses it:
    the member [minutes], which it hands to the service as it is, in
    the form in which the service takes its argument. *)
Module DisableBody.
Record t := mk { minutes : option JS.Number }.
End DisableBody.

(** How the handler of [POST /gateways/:name/disable] ends. *)
Inductive Disabling :=
| Answered (s : GatewayHealthService.State) (response : HealthResponse.t)
| Rejected      (* reading [body.minutes] throws a TypeError; nothing done *)
| InvalidDate.  (* the service call threw, see its [InvalidDate] *)

(** [body] is [None] when the handler receives [undefined] or [null]
    for it.  The service reads the clock at [now]; the report read
    after it reads the clock at [later]. *)
Definition disableGateway (s : GatewayHealthService.State) (name : string)
    (body : option DisableBody.t) (now later : Z) : Disabling :=
  match body with
  | None => Rejected
  | Some body =>
      match
        GatewayHealthService.disableGateway
          s name (DisableBody.minutes body) now
      with
      | GatewayHealthService.InvalidDate => InvalidDate
      | GatewayHealthService.Stored s1 =>
          let '(s2, health) :=
            GatewayHealthService.getGatewayHealth s1 name later in
          Answered s2
            {| HealthResponse.success := true;
               HealthResponse.message :=
                 "Gateway " +:+ name +:+ " has been disabled";
               HealthResponse.health := health |}
      end
  end.

(** [POST /gateways/:name/enable] *)
Definition enableGateway (s : GatewayHealthService.State) (name : string)
    (now : Z) : GatewayHealthService.State * HealthResponse.t :=
  let s1 := GatewayHealthService.enableGateway s name in
  let '(s2, health) := GatewayHealthService.getGatewayHealth s1 name now in
  (s2,
   {| HealthResponse.success := true;
      HealthResponse.message := "Gateway " +:+ name +:+ " has been enabled";
      HealthResponse.health := health |}).

End GatewayController.

(** ** transactions/dto/initiate-transaction.dto.ts *)

Module PaymentInstrumentDto.

(** A character of the class [[0-9]]. *)
Definition isDigit (c : ascii) : bool :=
  let n := nat_of_ascii c in ((48 <=? n) && (n <=? 57))%nat.

(** [@Matches(/^[0-9]{13,19}$/)] on [card_number]: between 13 and 19
    characters, all of them digits. *)
Definition card_number_matches (s : string) : bool :=
  forallb isDigit (list_ascii_of_string s)
  && ((13 <=? String.length s) && (String.length s <=? 19))%nat.

End PaymentInstrumentDto.

(** * Vocabulary of the specification *)

Module Spec.

(** The health window, the cooldown and twice the window, in
    milliseconds. *)
Definition window_ms : Z := 15 * 60 * 1000.
Definition cooldown_ms : Z := 30 * 60 * 1000.

(** Number of elements of a list that satisfy a test. *)
Fixpoint countIf {A : Type} (p : A -> bool) (l : list A) : nat :=
  match l with
  | [] => 0
  | x :: rest => if p x then S (countIf p rest) else countIf p rest
  end.

(** An outcome record lies in the trailing window that ends at [now]. *)
Definition inWindow (now : Z) (t : TransactionRecord.t) : bool :=
  now - window_ms <=? TransactionRecord.timestamp t.

(** The history the tracker holds for a gateway name. *)
Definition history (s : GatewayHealthService.State) (gateway : string)
    : list TransactionRecord.t :=
  default [] (GatewayHealthService.gatewayTransactions s !! gateway).

(** The healthy set: names of the configured, enabled gateways that the
    tracker reports healthy at [now]. *)
Definition healthySet (config : list GatewayConfig.t)
    (s : GatewayHealthService.State) (now : Z) : list string :=
  map GatewayConfig.name
    (List.filter
       (fun c => GatewayConfig.enabled c
                 && snd (GatewayHealthService.isGatewayHealthy
                           s (GatewayConfig.name c) now))
       config).

(** Sum of the weights of a list of gateways, as [selectGateway]
    accumulates it. *)
Definition totalWeight (gateways : list GatewayConfig.t) : Q :=
  foldl (fun sum g => sum + GatewayConfig.weight g)%Q 0%Q gateways.

(** Record a list of outcomes for one gateway, one call each. *)
Definition recordAll (s : GatewayHealthService.State) (gateway : string)
    (outcomes : list (bool * Z)) : GatewayHealthService.State :=
  foldl (fun s o =>
           GatewayHealthService.recordTransaction s gateway (fst o) (snd o))
        s outcomes.

End Spec.

(** * Sample data *)

Module Sample.

(** The card of the service's own tests, with a CVV added. *)
Definition card : PaymentInstrument.t :=
  {| PaymentInstrument.type := PaymentInstrumentType.CARD;
     PaymentInstrument.card_number := Some "4111111111111111";
     PaymentInstrument.expiry := Some "12/25";
     PaymentInstrument.cvv := Some "123";
     PaymentInstrument.upi_id := None;
     PaymentInstrument.bank_code := None;
     PaymentInstrument.wallet_provider := None |}.

(** The same instrument with an empty card number. *)
Definition blankCard : PaymentInstrument.t :=
  {| PaymentInstrument.type := PaymentInstrumentType.CARD;
     PaymentInstrument.card_number := Some "";
     PaymentInstrument.expiry := Some "12/25";
     PaymentInstrument.cvv := Some "123";
     PaymentInstrument.upi_id := None;
     PaymentInstrument.bank_code := None;
     PaymentInstrument.wallet_provider := None |}.

Definition order (instrument : PaymentInstrument.t)
    : InitiateTransactionDto.t :=
  {| InitiateTransactionDto.order_id := "ORD123";
     InitiateTransactionDto.amount := 499;
     InitiateTransactionDto.currency := None;
     InitiateTransactionDto.payment_instrument := instrument |}.

Definition callback (gateway : string) (status : CallbackStatus.t)
    : CallbackDto.t :=
  {| CallbackDto.order_id := "ORD123";
     CallbackDto.status := status;
     CallbackDto.gateway := gateway;
     CallbackDto.reason := None |}.

(** A fresh ledger; then order ORD123 created at time 0 with the draw
    1/2 (which selects razorpay) under the id "txn-1"; then its
    callback reporting success at time 1000. *)
Definition ledger0 : TransactionsService.State :=
  TransactionsService.init GATEWAY_CONFIG.

Definition ledger1 : TransactionsService.State :=
  fst (TransactionsService.initiateTransaction
         GATEWAY_CONFIG ledger0 (order card) 0 (1 # 2) "txn-1").

Definition ledger2 : TransactionsService.State :=
  fst (TransactionsService.processCallback
         ledger1 (callback "razorpay" CallbackStatus.SUCCESS) 1000).

(** [disableGateway(gateway, minutes)] for a whole number of minutes
    that leaves the Date in its range: the state with the entry
    stored. *)
Definition disable (s : GatewayHealthService.State) (gateway : string)
    (minutes now : Z) : GatewayHealthService.State :=
  match
    GatewayHealthService.disableGateway
      s gateway (Some (JS.Finite (inject_Z minutes))) now
  with
  | GatewayHealthService.Stored s1 => s1
  | GatewayHealthService.InvalidDate => s
  end.

(** Every configured gateway disabled by the operator for 30 minutes. *)
Definition disableAll (s : TransactionsService.State) (now : Z)
    : TransactionsService.State :=
  {| TransactionsService.transactions := TransactionsService.transactions s;
     TransactionsService.orderToTransaction :=
       TransactionsService.orderToTransaction s;
     TransactionsService.gatewayService :=
       foldl (fun h c => disable h (GatewayConfig.name c) 30 now)
             (TransactionsService.gatewayService s) GATEWAY_CONFIG |}.

Definition ledger3 : TransactionsService.State := disableAll ledger2 2000.

End Sample.

(** * Vocabulary of the further properties *)

Module Order.

(** Largest key first. *)
Definition descending {A : Type} (key : A -> Z) (a b : A) : Prop :=
  key b <= key a.

End Order.

Module Router.

(** What a read of the healthy set leaves of a stored disabled-until
    [d] for [gateway]: nothing when it has elapsed and some enabled
    descriptor carries the name, the timestamp itself otherwise. *)
Definition afterRead (config : list GatewayConfig.t) (now : Z)
    (gateway : string) (d : Z) : option Z :=
  if (d <? now)
     && existsb (fun c => GatewayConfig.enabled c
                          && String.eqb (GatewayConfig.name c) gateway)
                config
  then None else Some d.

End Router.

Module Ledger.

(** Every indexed order points, through a non-empty id, at a stored
    transaction of that order. *)
Definition indexed (s : TransactionsService.State) : Prop :=
  forall order id,
    TransactionsService.orderToTransaction s !! order = Some id ->
    JS.truthy id = true
    /\ exists tx,
         TransactionsService.transactions s !! id = Some tx
         /\ Transaction.order_id tx = order.

(** Every transaction is stored under its own id. *)
Definition keyed (s : TransactionsService.State) : Prop :=
  forall id tx,
    TransactionsService.transactions s !! id = Some tx ->
    Transaction.id tx = id.

(** A stored transaction that is PENDING is the one its order is
    indexed to. *)
Definition pendingIndexed (s : TransactionsService.State) : Prop :=
  forall id tx,
    TransactionsService.transactions s !! id = Some tx ->
    Transaction.status tx = TransactionStatus.PENDING ->
    TransactionsService.orderToTransaction s !! Transaction.order_id tx
    = Some id.

(** Every stored transaction is assigned to a configured gateway. *)
Definition routed (config : list GatewayConfig.t)
    (s : TransactionsService.State) : Prop :=
  forall id tx,
    TransactionsService.transactions s !! id = Some tx ->
    GatewayService.isValidGateway config (Transaction.gateway tx) = true.

Definition invariant (config : list GatewayConfig.t)
    (s : TransactionsService.State) : Prop :=
  indexed s /\ keyed s /\ pendingIndexed s /\ routed config s.

(** The ledger states that the service can be in: the state after
    construction, and the states that a call of [initiateTransaction]
    (with a generated id that is not empty and not in use),
    [processCallback] or [clearTransactions], or any activity of the
    health tracker, leads to from such a state. *)
Inductive reachable (config : list GatewayConfig.t)
    : TransactionsService.State -> Prop :=
  | reach_init : reachable config (TransactionsService.init config)
  | reach_initiate s dto now rnd uuid :
      reachable config s ->
      uuid <> "" ->
      TransactionsService.transactions s !! uuid = None ->
      reachable config
        (fst (TransactionsService.initiateTransaction
                config s dto now rnd uuid))
  | reach_callback s dto now :
      reachable config s ->
      reachable config (fst (TransactionsService.processCallback s dto now))
  | reach_clear s :
      reachable config s ->
      reachable config (TransactionsService.clearTransactions s)
  | reach_health s h :
      reachable config s ->
      reachable config
        {| TransactionsService.transactions :=
             TransactionsService.transactions s;
           TransactionsService.orderToTransaction :=
             TransactionsService.orderToTransaction s;
           TransactionsService.gatewayService := h |}.

End Ledger.

(** * Properties of the health tracker *)

Lemma Qlt_bool_iff (x y : Q) : JS.Qlt_bool x y = true <-> (x < y)%Q.
Proof.
  unfold JS.Qlt_bool. rewrite negb_true_iff. split.
  - intros H. apply Qnot_le_lt. intros Hle.
    apply Qle_bool_iff in Hle. congruence.
  - intros H. destruct (Qle_bool y x) eqn:E; [|reflexivity].
    apply Qle_bool_iff in E. exfalso. exact (Qlt_not_le _ _ H E).
Qed.

Lemma filter_filter_weaken {A : Type} (p q : A -> bool) (l : list A) :
  (forall x, p x = true -> q x = true) ->
  List.filter p (List.filter q l) = List.filter p l.
Proof.
  intros Hpq. induction l as [|x l IH]; simpl; [reflexivity|].
  destruct (q x) eqn:Eq; simpl.
  - destruct (p x); [f_equal|]; exact IH.
  - destruct (p x) eqn:Ep; [|exact IH].
    apply Hpq in Ep. congruence.
Qed.

Lemma length_filter_countIf {A : Type} (p : A -> bool) (l : list A) :
  length (List.filter p l) = Spec.countIf p l.
Proof.
  induction l as [|x l IH]; simpl; [reflexivity|].
  destruct (p x); simpl; congruence.
Qed.

Lemma countIf_ext {A : Type} (p q : A -> bool) (l : list A) :
  (forall x, p x = q x) -> Spec.countIf p l = Spec.countIf q l.
Proof.
  intros Hpq. induction l as [|x l IH]; simpl; [reflexivity|].
  rewrite Hpq, IH. reflexivity.
Qed.

Lemma filter_filter_and {A : Type} (p q : A -> bool) (l : list A) :
  List.filter p (List.filter q l) = List.filter (fun x => q x && p x) l.
Proof.
  induction l as [|x l IH]; simpl; [reflexivity|].
  destruct (q x); simpl; [destruct (p x); [f_equal|]|]; exact IH.
Qed.

Lemma window_test (now : Z) (t : TransactionRecord.t) :
  (TransactionRecord.timestamp t
     >=? now - GatewayHealthService.minutes_ms HEALTH_CHECK_WINDOW_MINUTES)
  = Spec.inWindow now t.
Proof.
  unfold Spec.inWindow, Spec.window_ms, GatewayHealthService.minutes_ms,
    HEALTH_CHECK_WINDOW_MINUTES.
  rewrite Z.geb_leb. reflexivity.
Qed.

(** The statistics depend on the state only through the history of the
    gateway they are asked for. *)
Lemma getGatewayStats_history (s s' : GatewayHealthService.State)
    (gateway : string) (now : Z) :
  Spec.history s gateway = Spec.history s' gateway ->
  GatewayHealthService.getGatewayStats s gateway now
  = GatewayHealthService.getGatewayStats s' gateway now.
Proof.
  unfold Spec.history, GatewayHealthService.getGatewayStats.
  intros ->. reflexivity.
Qed.

Lemma getGatewayStats_counts (s : GatewayHealthService.State)
    (gateway : string) (now : Z) :
  let stats := GatewayHealthService.getGatewayStats s gateway now in
  let h := Spec.history s gateway in
  GatewayStats.totalRequests stats = Spec.countIf (Spec.inWindow now) h
  /\ GatewayStats.successCount stats
     = Spec.countIf
         (fun t => Spec.inWindow now t && TransactionRecord.success t) h
  /\ GatewayStats.failureCount stats
     = Spec.countIf
         (fun t => Spec.inWindow now t && negb (TransactionRecord.success t)) h.
Proof.
  unfold GatewayHealthService.getGatewayStats, Spec.history. simpl.
  rewrite !filter_filter_and, !length_filter_countIf.
  repeat split; apply countIf_ext; intros t; rewrite window_test; reflexivity.
Qed.

(** C9. Windowed statistics.  The counts reported for a gateway are the
    numbers of its outcome records with timestamp at or after
    [now - 15 min] (all of them, the successful ones, the failed ones);
    the private statistics and the public health report agree on them;
    the success rate is [successCount / totalRequests] when there is at
    least one such record and exactly 1 when there is none. *)
Theorem windowed_stats (s : GatewayHealthService.State) (gateway : string)
    (now : Z) :
  let stats := GatewayHealthService.getGatewayStats s gateway now in
  let health := snd (GatewayHealthService.getGatewayHealth s gateway now) in
  let h := Spec.history s gateway in
  let total := Spec.countIf (Spec.inWindow now) h in
  let successes :=
    Spec.countIf
      (fun t => Spec.inWindow now t && TransactionRecord.success t) h in
  let failures :=
    Spec.countIf
      (fun t => Spec.inWindow now t && negb (TransactionRecord.success t)) h in
  (GatewayStats.totalRequests stats = total
   /\ GatewayStats.successCount stats = successes
   /\ GatewayStats.failureCount stats = failures
   /\ GatewayStats.windowStartTime stats = now - Spec.window_ms)
  /\ (GatewayHealth.totalRequests health = total
      /\ GatewayHealth.successCount health = successes
      /\ GatewayHealth.failureCount health = failures)
  /\ total = (successes + failures)%nat
  /\ GatewayHealth.successRate health
     = match total with
       | O => 1%Q
       | S _ => JS.ratio successes total
       end.
Proof.
  intros stats health h total successes failures.
  destruct (getGatewayStats_counts s gateway now) as (Ht & Hs & Hf).
  fold stats h total successes failures in Ht, Hs, Hf.
  assert (Hh : health =
    {| GatewayHealth.name := gateway;
       GatewayHealth.isHealthy :=
         snd (GatewayHealthService.isGatewayHealthy s gateway now);
       GatewayHealth.successRate :=
         if (0 <? GatewayStats.totalRequests stats)%nat
         then JS.ratio (GatewayStats.successCount stats)
                       (GatewayStats.totalRequests stats)
         else 1%Q;
       GatewayHealth.totalRequests := GatewayStats.totalRequests stats;
       GatewayHealth.successCount := GatewayStats.successCount stats;
       GatewayHealth.failureCount := GatewayStats.failureCount stats;
       GatewayHealth.disabledUntil :=
         GatewayHealthService.disabledGateways s !! gateway |}).
  { subst health stats. unfold GatewayHealthService.getGatewayHealth.
    destruct (GatewayHealthService.isGatewayHealthy s gateway now).
    reflexivity. }
  rewrite Ht, Hs, Hf in Hh.
  split; [|split; [|split]].
  - repeat split; assumption.
  - rewrite Hh. repeat split; reflexivity.
  - subst total successes failures. clear.
    induction h as [|t h IH]; simpl; [reflexivity|].
    destruct (Spec.inWindow now t), (TransactionRecord.success t); simpl; lia.
  - rewrite Hh. cbn [GatewayHealth.successRate].
    destruct total; reflexivity.
Qed.

(** Pruning composed with the window filter is the window filter. *)
Lemma cleanup_history (s : GatewayHealthService.State) (gateway : string)
    (t1 : Z) :
  Spec.history (GatewayHealthService.cleanupOldRecords s t1) gateway
  = List.filter
      (fun t => TransactionRecord.timestamp t
                >=? t1 - GatewayHealthService.minutes_ms
                           (HEALTH_CHECK_WINDOW_MINUTES * 2))
      (Spec.history s gateway).
Proof.
  unfold Spec.history, GatewayHealthService.cleanupOldRecords. simpl.
  rewrite lookup_fmap.
  destruct (GatewayHealthService.gatewayTransactions s !! gateway);
    reflexivity.
Qed.

Lemma cleanup_window (s : GatewayHealthService.State) (gateway : string)
    (t1 t2 : Z) :
  t1 - Spec.window_ms <= t2 ->
  List.filter
    (fun t => TransactionRecord.timestamp t
              >=? t2 - GatewayHealthService.minutes_ms
                         HEALTH_CHECK_WINDOW_MINUTES)
    (Spec.history (GatewayHealthService.cleanupOldRecords s t1) gateway)
  = List.filter
      (fun t => TransactionRecord.timestamp t
                >=? t2 - GatewayHealthService.minutes_ms
                           HEALTH_CHECK_WINDOW_MINUTES)
      (Spec.history s gateway).
Proof.
  intros Hle. rewrite cleanup_history. apply filter_filter_weaken.
  intros t. rewrite !Z.geb_leb, !Z.leb_le.
  unfold GatewayHealthService.minutes_ms, HEALTH_CHECK_WINDOW_MINUTES,
    Spec.window_ms in *.
  lia.
Qed.

Lemma cleanup_stats (s : GatewayHealthService.State) (gateway : string)
    (t1 t2 : Z) :
  t1 - Spec.window_ms <= t2 ->
  GatewayHealthService.getGatewayStats
    (GatewayHealthService.cleanupOldRecords s t1) gateway t2
  = GatewayHealthService.getGatewayStats s gateway t2.
Proof.
  intros Hle. pose proof (cleanup_window s gateway t1 t2 Hle) as Hw.
  unfold Spec.history in Hw.
  unfold GatewayHealthService.getGatewayStats. cbv zeta.
  rewrite Hw. reflexivity.
Qed.

(** C10. Pruning is invisible to readers.  When [cleanupOldRecords] runs
    at [t1] and a gateway is read at [t2 >= t1], its statistics, its
    health verdict and its health report are those of the unpruned
    state, and the state the read leaves is the pruned form of the state
    the unpruned read leaves. *)
Theorem cleanup_observation_invariant (s : GatewayHealthService.State)
    (gateway : string) (t1 t2 : Z) :
  t1 <= t2 ->
  let pruned := GatewayHealthService.cleanupOldRecords s t1 in
  GatewayHealthService.getGatewayStats pruned gateway t2
  = GatewayHealthService.getGatewayStats s gateway t2
  /\ snd (GatewayHealthService.isGatewayHealthy pruned gateway t2)
     = snd (GatewayHealthService.isGatewayHealthy s gateway t2)
  /\ snd (GatewayHealthService.getGatewayHealth pruned gateway t2)
     = snd (GatewayHealthService.getGatewayHealth s gateway t2)
  /\ fst (GatewayHealthService.getGatewayHealth pruned gateway t2)
     = GatewayHealthService.cleanupOldRecords
         (fst (GatewayHealthService.getGatewayHealth s gateway t2)) t1.
Proof.
  intros Hle pruned.
  assert (Hw : t1 - Spec.window_ms <= t2) by (unfold Spec.window_ms; lia).
  pose proof (cleanup_stats s gateway t1 t2 Hw) as Hstats.
  fold pruned in Hstats.
  assert (Hverdict :
    GatewayHealthService.isGatewayHealthy pruned gateway t2
    = (GatewayHealthService.cleanupOldRecords
         (fst (GatewayHealthService.isGatewayHealthy s gateway t2)) t1,
       snd (GatewayHealthService.isGatewayHealthy s gateway t2))).
  { subst pruned. unfold GatewayHealthService.isGatewayHealthy. simpl.
    destruct (GatewayHealthService.disabledGateways s !! gateway) as [d|];
      [destruct (t2 >? d)|]; reflexivity. }
  split; [exact Hstats|]. split; [rewrite Hverdict; reflexivity|].
  unfold GatewayHealthService.getGatewayHealth.
  rewrite Hstats, Hverdict.
  destruct (GatewayHealthService.isGatewayHealthy s gateway t2) as [s1 ok].
  simpl. split; reflexivity.
Qed.

(** After the tracker's constructor, two outcomes from 40 and 20 minutes
    ago are recorded; pruning at [t1] and reading at [t1 + 1 s]. *)
Lemma cleanup_observation_invariant_witness :
  let s :=
    Spec.recordAll (GatewayHealthService.init GATEWAY_CONFIG) "payu"
      [(false, 0); (true, 1200000)] in
  2400000 <= 2401000
  /\ GatewayHealthService.getGatewayStats
       (GatewayHealthService.cleanupOldRecords s 2400000) "payu" 2401000
     = GatewayHealthService.getGatewayStats s "payu" 2401000.
Proof.
  intros s. split; [lia|].
  apply (cleanup_observation_invariant s "payu" 2400000 2401000). lia.
Defined.

(** ** The circuit breaker *)

Lemma checkAndUpdateHealth_cases (s : GatewayHealthService.State)
    (gateway : string) (now : Z) :
  let stats := GatewayHealthService.getGatewayStats s gateway now in
  GatewayHealthService.checkAndUpdateHealth s gateway now
  = if (MIN_REQUESTS_FOR_HEALTH_CHECK <=? GatewayStats.totalRequests stats)%nat
       && JS.Qlt_bool
            (JS.ratio (GatewayStats.successCount stats)
                      (GatewayStats.totalRequests stats))
            SUCCESS_RATE_THRESHOLD
    then GatewayHealthService.with_disabled s
           (<[gateway := now + Spec.cooldown_ms]>
              (GatewayHealthService.disabledGateways s))
    else s.
Proof.
  intros stats. unfold GatewayHealthService.checkAndUpdateHealth.
  fold stats.
  destruct (Nat.ltb_spec (GatewayStats.totalRequests stats)
                         MIN_REQUESTS_FOR_HEALTH_CHECK) as [Hlt|Hge].
  - replace (MIN_REQUESTS_FOR_HEALTH_CHECK <=? _)%nat with false;
      [reflexivity|].
    symmetry. apply Nat.leb_gt. exact Hlt.
  - replace (MIN_REQUESTS_FOR_HEALTH_CHECK <=? _)%nat with true;
      [reflexivity|].
    symmetry. apply Nat.leb_le. exact Hge.
Qed.

Lemma checkAndUpdateHealth_transactions (s : GatewayHealthService.State)
    (gateway : string) (now : Z) :
  GatewayHealthService.gatewayTransactions
    (GatewayHealthService.checkAndUpdateHealth s gateway now)
  = GatewayHealthService.gatewayTransactions s.
Proof.
  rewrite checkAndUpdateHealth_cases. cbv zeta.
  destruct (_ && _); reflexivity.
Qed.

(** What [recordTransaction] stores: the outcome is appended to the
    history kept under the given name, whatever that name is. *)
Lemma recordTransaction_transactions (s : GatewayHealthService.State)
    (gateway : string) (success : bool) (now : Z) :
  GatewayHealthService.gatewayTransactions
    (GatewayHealthService.recordTransaction s gateway success now)
  = <[gateway := Spec.history s gateway ++ [TransactionRecord.mk now success]]>
      (GatewayHealthService.gatewayTransactions s).
Proof.
  unfold GatewayHealthService.recordTransaction.
  destruct success; simpl; [reflexivity|].
  rewrite checkAndUpdateHealth_transactions. reflexivity.
Qed.

Lemma recordTransaction_history (s : GatewayHealthService.State)
    (gateway : string) (success : bool) (now : Z) :
  Spec.history (GatewayHealthService.recordTransaction s gateway success now)
               gateway
  = Spec.history s gateway ++ [TransactionRecord.mk now success].
Proof.
  unfold Spec.history at 1. rewrite recordTransaction_transactions.
  rewrite lookup_insert_eq. reflexivity.
Qed.

Lemma recordTransaction_disabled (s : GatewayHealthService.State)
    (gateway : string) (success : bool) (now : Z) :
  let s1 := GatewayHealthService.recordTransaction s gateway success now in
  let stats := GatewayHealthService.getGatewayStats s1 gateway now in
  GatewayHealthService.disabledGateways s1
  = if negb success
       && (MIN_REQUESTS_FOR_HEALTH_CHECK <=? GatewayStats.totalRequests stats)%nat
       && JS.Qlt_bool
            (JS.ratio (GatewayStats.successCount stats)
                      (GatewayStats.totalRequests stats))
            SUCCESS_RATE_THRESHOLD
    then <[gateway := now + Spec.cooldown_ms]>
           (GatewayHealthService.disabledGateways s)
    else GatewayHealthService.disabledGateways s.
Proof.
  intros s1 stats.
  assert (Hstats : stats =
    GatewayHealthService.getGatewayStats
      (GatewayHealthService.with_transactions s
         (<[gateway :=
              Spec.history s gateway ++ [TransactionRecord.mk now success]]>
            (GatewayHealthService.gatewayTransactions s)))
      gateway now).
  { subst stats. apply getGatewayStats_history.
    subst s1. rewrite recordTransaction_history.
    unfold Spec.history. simpl. rewrite lookup_insert_eq. reflexivity. }
  subst s1. unfold GatewayHealthService.recordTransaction.
  destruct success; simpl; [reflexivity|].
  rewrite checkAndUpdateHealth_cases. cbv zeta.
  fold (Spec.history s gateway). rewrite <- Hstats.
  destruct (_ && _); reflexivity.
Qed.

Lemma isGatewayHealthy_cases (s : GatewayHealthService.State)
    (gateway : string) (now : Z) :
  GatewayHealthService.isGatewayHealthy s gateway now
  = match GatewayHealthService.disabledGateways s !! gateway with
    | Some disabledUntil =>
        if now <=? disabledUntil then (s, false)
        else (GatewayHealthService.enableGateway s gateway, true)
    | None => (s, true)
    end.
Proof.
  unfold GatewayHealthService.isGatewayHealthy,
    GatewayHealthService.enableGateway.
  destruct (GatewayHealthService.disabledGateways s !! gateway) as [d|];
    [|reflexivity].
  rewrite Z.gtb_ltb.
  destruct (Z.ltb_spec d now), (Z.leb_spec now d); try reflexivity; lia.
Qed.

(** C1 (as amended).  Recording a failure evaluates the breaker on the
    outcomes then lying in the window, the new one included: with at
    least [MIN_REQUESTS_FOR_HEALTH_CHECK] of them (so also with exactly
    that many) and a success rate below the threshold, disabled-until
    becomes [now] plus the cooldown and the gateway is reported
    unhealthy until then.  With fewer windowed outcomes nothing is
    disabled, whatever the rate; and recording a success never disables. *)
Theorem circuit_breaker_trip (s : GatewayHealthService.State)
    (gateway : string) (success : bool) (now : Z) :
  let s1 := GatewayHealthService.recordTransaction s gateway success now in
  let stats := GatewayHealthService.getGatewayStats s1 gateway now in
  (success = false ->
   (MIN_REQUESTS_FOR_HEALTH_CHECK <= GatewayStats.totalRequests stats)%nat ->
   (JS.ratio (GatewayStats.successCount stats)
             (GatewayStats.totalRequests stats)
      < SUCCESS_RATE_THRESHOLD)%Q ->
   GatewayHealthService.disabledGateways s1 !! gateway
   = Some (now + Spec.cooldown_ms)
   /\ forall later, later <= now + Spec.cooldown_ms ->
        GatewayHealthService.isGatewayHealthy s1 gateway later = (s1, false))
  /\ ((GatewayStats.totalRequests stats < MIN_REQUESTS_FOR_HEALTH_CHECK)%nat ->
      GatewayHealthService.disabledGateways s1
      = GatewayHealthService.disabledGateways s)
  /\ (success = true ->
      GatewayHealthService.disabledGateways s1
      = GatewayHealthService.disabledGateways s).
Proof.
  intros s1 stats.
  pose proof (recordTransaction_disabled s gateway success now) as Hd.
  cbv zeta in Hd. fold s1 in Hd. fold stats in Hd.
  split; [|split].
  - intros -> Hmin Hrate.
    apply Nat.leb_le in Hmin. apply Qlt_bool_iff in Hrate.
    rewrite Hmin, Hrate in Hd. simpl in Hd.
    assert (Hl : GatewayHealthService.disabledGateways s1 !! gateway
                 = Some (now + Spec.cooldown_ms)).
    { rewrite Hd. apply lookup_insert_eq. }
    split; [exact Hl|].
    intros later Hlater. rewrite isGatewayHealthy_cases, Hl.
    apply Z.leb_le in Hlater. rewrite Hlater. reflexivity.
  - intros Hlt. apply Nat.leb_gt in Hlt.
    rewrite Hlt, andb_false_r in Hd. exact Hd.
  - intros ->. exact Hd.
Qed.

(** One success then four failures, a second apart: the fifth outcome
    trips the breaker. *)
Lemma circuit_breaker_trip_witness :
  let s :=
    Spec.recordAll (GatewayHealthService.init GATEWAY_CONFIG) "razorpay"
      [(true, 0); (false, 1000); (false, 2000); (false, 3000)] in
  let s1 := GatewayHealthService.recordTransaction s "razorpay" false 4000 in
  GatewayStats.totalRequests
    (GatewayHealthService.getGatewayStats s1 "razorpay" 4000) = 5%nat
  /\ GatewayHealthService.disabledGateways s1 !! "razorpay" = Some 1804000
  /\ GatewayHealthService.isGatewayHealthy s1 "razorpay" 4000 = (s1, false).
Proof.
  intros s s1.
  destruct (circuit_breaker_trip s "razorpay" false 4000) as [Htrip _].
  destruct Htrip as [Hd Hh].
  - reflexivity.
  - vm_compute. lia.
  - apply Qlt_bool_iff. vm_compute. reflexivity.
  - split; [vm_compute; reflexivity|]. split; [exact Hd|].
    apply Hh. vm_compute. discriminate.
Defined.

(** C1, as stated, fails: four failures and then a success put five
    outcomes with a success rate of 1/5 in the window, yet the gateway
    has no disabled-until and is reported healthy. *)
Lemma circuit_breaker_trip_counterexample :
  let s :=
    Spec.recordAll (GatewayHealthService.init GATEWAY_CONFIG) "razorpay"
      [(false, 0); (false, 1000); (false, 2000); (false, 3000)] in
  let s1 := GatewayHealthService.recordTransaction s "razorpay" true 4000 in
  let stats := GatewayHealthService.getGatewayStats s1 "razorpay" 4000 in
  GatewayStats.totalRequests stats = MIN_REQUESTS_FOR_HEALTH_CHECK
  /\ (JS.ratio (GatewayStats.successCount stats)
               (GatewayStats.totalRequests stats)
        < SUCCESS_RATE_THRESHOLD)%Q
  /\ GatewayHealthService.disabledGateways s1 !! "razorpay" = None
  /\ snd (GatewayHealthService.isGatewayHealthy s1 "razorpay" 4000) = true.
Proof.
  intros s s1 stats. split; [vm_compute; reflexivity|].
  split; [apply Qlt_bool_iff; vm_compute; reflexivity|].
  split; vm_compute; reflexivity.
Qed.

(** ** Lazy expiry *)

(** C4 (as amended).  A gateway is reported unhealthy exactly when a
    disabled-until is stored for it and [now] has not passed it
    ([now <= disabled-until]); the read then changes nothing.  When the
    stored disabled-until lies strictly in the past, the read removes it
    and reports the gateway healthy; with nothing stored the gateway is
    healthy and the read changes nothing. *)
Theorem lazy_expiry (s : GatewayHealthService.State) (gateway : string)
    (now : Z) :
  let r := GatewayHealthService.isGatewayHealthy s gateway now in
  (snd r = false <->
   exists disabledUntil,
     GatewayHealthService.disabledGateways s !! gateway = Some disabledUntil
     /\ now <= disabledUntil)
  /\ (snd r = false -> fst r = s)
  /\ (forall disabledUntil,
        GatewayHealthService.disabledGateways s !! gateway = Some disabledUntil ->
        disabledUntil < now ->
        snd r = true
        /\ GatewayHealthService.disabledGateways (fst r) !! gateway = None
        /\ fst r = GatewayHealthService.enableGateway s gateway)
  /\ (GatewayHealthService.disabledGateways s !! gateway = None ->
      r = (s, true)).
Proof.
  intros r. subst r. rewrite isGatewayHealthy_cases.
  destruct (GatewayHealthService.disabledGateways s !! gateway) as [d|] eqn:E.
  - destruct (Z.leb_spec now d) as [Hle|Hgt]; simpl.
    + split; [split; [intros _; exists d; auto | reflexivity]|].
      split; [reflexivity|]. split; [|discriminate].
      intros d' [= <-] Hlt. lia.
    + split; [split; [discriminate | intros (d' & [= <-] & Hle); lia]|].
      split; [discriminate|]. split; [|discriminate].
      intros d' _ _. split; [reflexivity|]. split; [|reflexivity].
      apply lookup_delete_eq.
  - simpl. split; [split; [discriminate | intros (d' & [=] & _)]|].
    split; [discriminate|]. split; [discriminate | reflexivity].
Qed.

(** A gateway disabled at time 0 for 30 minutes, read one millisecond
    after the 30 minutes: the read reports it healthy and removes the
    stored disabled-until. *)
Lemma lazy_expiry_witness :
  let s :=
    Sample.disable
      (GatewayHealthService.init GATEWAY_CONFIG) "razorpay" 30 0 in
  let r := GatewayHealthService.isGatewayHealthy s "razorpay" 1800001 in
  GatewayHealthService.disabledGateways s !! "razorpay" = Some 1800000
  /\ snd r = true
  /\ GatewayHealthService.disabledGateways (fst r) !! "razorpay" = None.
Proof.
  intros s r.
  assert (Hd : GatewayHealthService.disabledGateways s !! "razorpay"
               = Some 1800000) by (vm_compute; reflexivity).
  split; [exact Hd|].
  destruct (lazy_expiry s "razorpay" 1800001) as (_ & _ & Hclear & _).
  destruct (Hclear 1800000 Hd) as (Hv & Hnone & _); [lia | auto].
Defined.

(** C4, as stated, fails at the instant [now = disabled-until]: the
    gateway is still reported unhealthy although its disabled-until is
    not strictly in the future. *)
Lemma lazy_expiry_counterexample :
  let s :=
    Sample.disable
      (GatewayHealthService.init GATEWAY_CONFIG) "razorpay" 30 0 in
  GatewayHealthService.disabledGateways s !! "razorpay" = Some 1800000
  /\ snd (GatewayHealthService.isGatewayHealthy s "razorpay" 1800000) = false
  /\ ~ (snd (GatewayHealthService.isGatewayHealthy s "razorpay" 1800000) = false
        <-> exists disabledUntil,
              GatewayHealthService.disabledGateways s !! "razorpay"
              = Some disabledUntil
              /\ 1800000 < disabledUntil).
Proof.
  intros s.
  assert (Hd : GatewayHealthService.disabledGateways s !! "razorpay"
               = Some 1800000) by (vm_compute; reflexivity).
  assert (Hv : snd (GatewayHealthService.isGatewayHealthy s "razorpay" 1800000)
               = false) by (vm_compute; reflexivity).
  split; [exact Hd|]. split; [exact Hv|].
  intros [Hclaim _]. destruct (Hclaim Hv) as (d & Hd' & Hlt).
  rewrite Hd in Hd'. injection Hd' as <-. lia.
Qed.

(** ** Outcomes recorded under a name *)

Lemma recordTransaction_other (s : GatewayHealthService.State)
    (gateway other : string) (success : bool) (now : Z) :
  other <> gateway ->
  let s1 := GatewayHealthService.recordTransaction s gateway success now in
  GatewayHealthService.gatewayTransactions s1 !! other
  = GatewayHealthService.gatewayTransactions s !! other
  /\ GatewayHealthService.disabledGateways s1 !! other
     = GatewayHealthService.disabledGateways s !! other.
Proof.
  intros Hne s1. subst s1. split.
  - rewrite recordTransaction_transactions.
    apply lookup_insert_ne. congruence.
  - rewrite recordTransaction_disabled. cbv zeta.
    destruct (_ && _); [|reflexivity].
    apply lookup_insert_ne. congruence.
Qed.

Lemma isGatewayHealthy_verdict_ext (s s' : GatewayHealthService.State)
    (gateway : string) (now : Z) :
  GatewayHealthService.disabledGateways s' !! gateway
  = GatewayHealthService.disabledGateways s !! gateway ->
  snd (GatewayHealthService.isGatewayHealthy s' gateway now)
  = snd (GatewayHealthService.isGatewayHealthy s gateway now).
Proof.
  intros H. unfold GatewayHealthService.isGatewayHealthy. rewrite H.
  destruct (GatewayHealthService.disabledGateways s !! gateway) as [d|];
    [destruct (now >? d)|]; reflexivity.
Qed.

Lemma healthySet_ext (config : list GatewayConfig.t)
    (s s' : GatewayHealthService.State) (now : Z) :
  (forall c, c ∈ config ->
     GatewayHealthService.disabledGateways s' !! GatewayConfig.name c
     = GatewayHealthService.disabledGateways s !! GatewayConfig.name c) ->
  Spec.healthySet config s' now = Spec.healthySet config s now.
Proof.
  intros H. unfold Spec.healthySet. f_equal.
  induction config as [|c config IH]; [reflexivity|]. simpl.
  rewrite (isGatewayHealthy_verdict_ext s s' (GatewayConfig.name c) now)
    by (apply H; left).
  rewrite IH by (intros c' Hc'; apply H; right; exact Hc').
  reflexivity.
Qed.

(** C5 (as amended).  Recording an outcome under a name that no
    configured descriptor carries leaves every configured gateway as it
    was: same history, same disabled-until, same statistics, same health
    verdict, and the same healthy set.  The outcome itself is kept: it is
    appended to a history stored under the unknown name. *)
Theorem record_unknown_gateway (config : list GatewayConfig.t)
    (s : GatewayHealthService.State) (gateway : string) (success : bool)
    (now : Z) :
  gateway ∉ map GatewayConfig.name config ->
  let s1 := GatewayHealthService.recordTransaction s gateway success now in
  (forall c, c ∈ config ->
     GatewayHealthService.gatewayTransactions s1 !! GatewayConfig.name c
     = GatewayHealthService.gatewayTransactions s !! GatewayConfig.name c
     /\ GatewayHealthService.disabledGateways s1 !! GatewayConfig.name c
        = GatewayHealthService.disabledGateways s !! GatewayConfig.name c
     /\ forall t,
          GatewayHealthService.getGatewayStats s1 (GatewayConfig.name c) t
          = GatewayHealthService.getGatewayStats s (GatewayConfig.name c) t
          /\ snd (GatewayHealthService.isGatewayHealthy
                    s1 (GatewayConfig.name c) t)
             = snd (GatewayHealthService.isGatewayHealthy
                      s (GatewayConfig.name c) t))
  /\ (forall t, Spec.healthySet config s1 t = Spec.healthySet config s t)
  /\ GatewayHealthService.gatewayTransactions s1 !! gateway
     = Some (Spec.history s gateway ++ [TransactionRecord.mk now success]).
Proof.
  intros Hunknown s1.
  assert (Hother : forall c, c ∈ config -> GatewayConfig.name c <> gateway).
  { intros c Hc Heq. apply Hunknown. rewrite <- Heq.
    apply list_elem_of_In, in_map, list_elem_of_In. exact Hc. }
  assert (Hframe : forall c, c ∈ config ->
    GatewayHealthService.gatewayTransactions s1 !! GatewayConfig.name c
    = GatewayHealthService.gatewayTransactions s !! GatewayConfig.name c
    /\ GatewayHealthService.disabledGateways s1 !! GatewayConfig.name c
       = GatewayHealthService.disabledGateways s !! GatewayConfig.name c).
  { intros c Hc. apply recordTransaction_other. apply Hother. exact Hc. }
  split; [|split].
  - intros c Hc. destruct (Hframe c Hc) as [Ht Hd].
    split; [exact Ht|]. split; [exact Hd|]. intros t. split.
    + apply getGatewayStats_history. unfold Spec.history. rewrite Ht.
      reflexivity.
    + apply isGatewayHealthy_verdict_ext. exact Hd.
  - intros t. apply healthySet_ext. intros c Hc. apply (Hframe c Hc).
  - subst s1. rewrite recordTransaction_transactions.
    apply lookup_insert_eq.
Qed.

Lemma record_unknown_gateway_witness :
  let s := GatewayHealthService.init GATEWAY_CONFIG in
  let s1 := GatewayHealthService.recordTransaction s "stripe" false 0 in
  ("stripe" ∉ map GatewayConfig.name GATEWAY_CONFIG)
  /\ Spec.healthySet GATEWAY_CONFIG s1 0 = Spec.healthySet GATEWAY_CONFIG s 0
  /\ GatewayHealthService.gatewayTransactions s1 !! "stripe"
     = Some [TransactionRecord.mk 0 false].
Proof.
  intros s s1.
  assert (Hunknown : "stripe" ∉ map GatewayConfig.name GATEWAY_CONFIG).
  { intros Hin. vm_compute in Hin.
    repeat (apply elem_of_cons in Hin as [Hin|Hin]; [discriminate|]).
    inversion Hin. }
  split; [exact Hunknown|].
  destruct (record_unknown_gateway GATEWAY_CONFIG s "stripe" false 0 Hunknown)
    as (_ & Hset & Hkept).
  split; [apply Hset | exact Hkept].
Defined.

(** C5, as stated, fails: an outcome recorded under an unknown name
    changes the tracker.  A history appears under that name, the health
    report for the name counts the outcome, and five failures set a
    disabled-until for it. *)
Lemma record_unknown_gateway_counterexample :
  let s := GatewayHealthService.init GATEWAY_CONFIG in
  let s1 := GatewayHealthService.recordTransaction s "stripe" false 0 in
  let s5 :=
    Spec.recordAll s "stripe"
      [(false, 0); (false, 1); (false, 2); (false, 3); (false, 4)] in
  ("stripe" ∉ map GatewayConfig.name GATEWAY_CONFIG)
  /\ GatewayHealthService.gatewayTransactions s !! "stripe" = None
  /\ GatewayHealthService.gatewayTransactions s1 !! "stripe"
     = Some [TransactionRecord.mk 0 false]
  /\ s1 <> s
  /\ GatewayHealth.totalRequests
       (snd (GatewayHealthService.getGatewayHealth s "stripe" 0)) = 0%nat
  /\ GatewayHealth.totalRequests
       (snd (GatewayHealthService.getGatewayHealth s1 "stripe" 0)) = 1%nat
  /\ GatewayHealthService.disabledGateways s !! "stripe" = None
  /\ GatewayHealthService.disabledGateways s5 !! "stripe" = Some 1800004.
Proof.
  intros s s1 s5.
  assert (H0 : GatewayHealthService.gatewayTransactions s !! "stripe" = None)
    by (vm_compute; reflexivity).
  assert (H1 : GatewayHealthService.gatewayTransactions s1 !! "stripe"
               = Some [TransactionRecord.mk 0 false])
    by (vm_compute; reflexivity).
  split.
  { intros Hin. vm_compute in Hin.
    repeat (apply elem_of_cons in Hin as [Hin|Hin]; [discriminate|]).
    inversion Hin. }
  split; [exact H0|]. split; [exact H1|].
  split; [intros Heq; rewrite Heq, H0 in H1; discriminate|].
  repeat split; vm_compute; reflexivity.
Qed.

(** * Properties of the router *)

(** A lazy clear made while one gateway is read does not change the
    verdict on any gateway at the same instant. *)
Lemma isGatewayHealthy_stable (s : GatewayHealthService.State)
    (read gateway : string) (now : Z) :
  snd (GatewayHealthService.isGatewayHealthy
         (fst (GatewayHealthService.isGatewayHealthy s read now)) gateway now)
  = snd (GatewayHealthService.isGatewayHealthy s gateway now).
Proof.
  rewrite (isGatewayHealthy_cases s read).
  destruct (GatewayHealthService.disabledGateways s !! read) as [d|] eqn:E;
    [|reflexivity].
  destruct (Z.leb_spec now d) as [Hle|Hgt]; [reflexivity|]. simpl.
  rewrite !isGatewayHealthy_cases. simpl.
  destruct (decide (read = gateway)) as [<-|Hne].
  - rewrite lookup_delete_eq, E.
    destruct (Z.leb_spec now d); [lia | reflexivity].
  - rewrite lookup_delete_ne by exact Hne.
    destruct (GatewayHealthService.disabledGateways s !! gateway) as [d'|];
      [destruct (now <=? d')|]; reflexivity.
Qed.

Lemma filterHealthy_spec (cs : list GatewayConfig.t)
    (s : GatewayHealthService.State) (now : Z) :
  snd (GatewayHealthService.filterHealthy cs s now) = Spec.healthySet cs s now
  /\ forall gateway,
       snd (GatewayHealthService.isGatewayHealthy
              (fst (GatewayHealthService.filterHealthy cs s now)) gateway now)
       = snd (GatewayHealthService.isGatewayHealthy s gateway now).
Proof.
  revert s. induction cs as [|c cs IH]; intros s; [split; reflexivity|].
  unfold Spec.healthySet. simpl.
  destruct (GatewayConfig.enabled c); simpl; [|apply IH].
  pose proof (fun gateway =>
                isGatewayHealthy_stable s (GatewayConfig.name c) gateway now)
    as Hstable.
  destruct (GatewayHealthService.isGatewayHealthy s (GatewayConfig.name c) now)
    as [s1 healthy] eqn:E1.
  simpl in Hstable.
  destruct (IH s1) as [Hnames Hverdict].
  destruct (GatewayHealthService.filterHealthy cs s1 now) as [s2 names].
  simpl in *.
  assert (Hset : names = Spec.healthySet cs s now).
  { rewrite Hnames. unfold Spec.healthySet. f_equal.
    apply List.filter_ext. intros c'. rewrite Hstable. reflexivity. }
  split.
  - rewrite Hset. destruct healthy; reflexivity.
  - intros gateway. rewrite Hverdict. apply Hstable.
Qed.

Lemma getHealthyGateways_spec (config : list GatewayConfig.t)
    (s : GatewayHealthService.State) (now : Z) :
  snd (GatewayHealthService.getHealthyGateways config s now)
  = Spec.healthySet config s now.
Proof. apply filterHealthy_spec. Qed.

Lemma getHealthyGatewayConfigs_spec (config : list GatewayConfig.t)
    (s : GatewayHealthService.State) (now : Z) :
  snd (GatewayService.getHealthyGatewayConfigs config s now)
  = List.filter
      (fun c => bool_decide (GatewayConfig.name c ∈ Spec.healthySet config s now))
      config.
Proof.
  unfold GatewayService.getHealthyGatewayConfigs.
  rewrite <- getHealthyGateways_spec.
  destruct (GatewayHealthService.getHealthyGateways config s now).
  reflexivity.
Qed.

Lemma healthySet_elem (config : list GatewayConfig.t)
    (s : GatewayHealthService.State) (now : Z) (n : string) :
  n ∈ Spec.healthySet config s now <->
  exists c, c ∈ config /\ GatewayConfig.name c = n
            /\ GatewayConfig.enabled c = true
            /\ snd (GatewayHealthService.isGatewayHealthy s n now) = true.
Proof.
  unfold Spec.healthySet. rewrite list_elem_of_In, in_map_iff. split.
  - intros (c & <- & Hc). apply filter_In in Hc as [Hin Hok].
    apply andb_true_iff in Hok as [He Hh].
    exists c. rewrite list_elem_of_In. auto.
  - intros (c & Hin & <- & He & Hh). exists c. split; [reflexivity|].
    apply filter_In. rewrite <- list_elem_of_In, He, Hh. auto.
Qed.

(** The verdict read off the stored disabled-until timestamps. *)
Lemma isGatewayHealthy_true_iff (s : GatewayHealthService.State)
    (gateway : string) (now : Z) :
  snd (GatewayHealthService.isGatewayHealthy s gateway now) = true <->
  forall disabledUntil,
    GatewayHealthService.disabledGateways s !! gateway = Some disabledUntil ->
    disabledUntil < now.
Proof.
  rewrite isGatewayHealthy_cases.
  destruct (GatewayHealthService.disabledGateways s !! gateway) as [d|].
  - destruct (Z.leb_spec now d) as [Hle|Hgt]; simpl; split.
    + discriminate.
    + intros H. specialize (H d eq_refl). lia.
    + intros _ d' [= <-]. exact Hgt.
    + reflexivity.
  - simpl. split; [intros _ d' [=] | reflexivity].
Qed.

Lemma healthySet_circuit (config : list GatewayConfig.t)
    (s : GatewayHealthService.State) (now : Z) (n : string) :
  n ∈ Spec.healthySet config s now <->
  exists c, c ∈ config /\ GatewayConfig.name c = n
            /\ GatewayConfig.enabled c = true
            /\ forall disabledUntil,
                 GatewayHealthService.disabledGateways s !! n
                 = Some disabledUntil ->
                 disabledUntil < now.
Proof.
  rewrite healthySet_elem. split.
  - intros (c & Hc & Hn & He & Hh). exists c.
    pose proof (proj1 (isGatewayHealthy_true_iff s n now) Hh). auto.
  - intros (c & Hc & Hn & He & Hh). exists c.
    pose proof (proj2 (isGatewayHealthy_true_iff s n now) Hh). auto.
Qed.

Lemma healthy_configs_elem (config : list GatewayConfig.t)
    (s : GatewayHealthService.State) (now : Z) (c : GatewayConfig.t) :
  c ∈ snd (GatewayService.getHealthyGatewayConfigs config s now) <->
  c ∈ config /\ GatewayConfig.name c ∈ Spec.healthySet config s now.
Proof.
  rewrite getHealthyGatewayConfigs_spec, (list_elem_of_In _ c), filter_In,
    bool_decide_eq_true, <- list_elem_of_In.
  reflexivity.
Qed.

Lemma healthy_configs_nil (config : list GatewayConfig.t)
    (s : GatewayHealthService.State) (now : Z) :
  snd (GatewayService.getHealthyGatewayConfigs config s now) = [] <->
  Spec.healthySet config s now = [].
Proof.
  split; intros Hnil.
  - destruct (Spec.healthySet config s now) as [|n names] eqn:E;
      [reflexivity|].
    assert (Hn : n ∈ Spec.healthySet config s now) by (rewrite E; left).
    pose proof Hn as Hn'. apply healthySet_elem in Hn' as (c & Hc & <- & _).
    assert (Hin : c ∈ snd (GatewayService.getHealthyGatewayConfigs config s now))
      by (apply healthy_configs_elem; auto).
    rewrite Hnil in Hin. inversion Hin.
  - destruct (snd (GatewayService.getHealthyGatewayConfigs config s now))
      as [|c cs] eqn:E; [reflexivity|].
    assert (Hin : c ∈ snd (GatewayService.getHealthyGatewayConfigs config s now))
      by (rewrite E; left).
    apply healthy_configs_elem in Hin as [_ Hin].
    rewrite Hnil in Hin. inversion Hin.
Qed.

Lemma walk_elem (random cumulativeWeight : Q) (gateways : list GatewayConfig.t)
    (g : GatewayConfig.t) :
  GatewayService.walk random cumulativeWeight gateways = Some g ->
  g ∈ gateways.
Proof.
  revert cumulativeWeight.
  induction gateways as [|g' gateways IH]; intros c; simpl; [discriminate|].
  destruct (Qle_bool random (c + GatewayConfig.weight g')).
  - intros [= ->]. left.
  - intros H. right. exact (IH _ H).
Qed.

(** What [selectGateway] returns, in terms of the healthy descriptors. *)
Lemma selectGateway_cases (config : list GatewayConfig.t)
    (h : GatewayHealthService.State) (now : Z) (rnd : Q) :
  let healthy := snd (GatewayService.getHealthyGatewayConfigs config h now) in
  let total := Spec.totalWeight healthy in
  snd (GatewayService.selectGateway config h now rnd)
  = match healthy with
    | [] => Throw NoHealthyGateway
    | first :: rest =>
        let selected :=
          GatewayService.selectAmong (JS.round64 (rnd * total)) first rest in
        Ok {| GatewaySelectionResult.gateway := GatewayConfig.name selected;
              GatewaySelectionResult.reason :=
                GatewayService.buildSelectionReason config selected healthy
                                                    total |}
    end
  /\ fst (GatewayService.selectGateway config h now rnd)
     = fst (GatewayService.getHealthyGatewayConfigs config h now).
Proof.
  unfold GatewayService.selectGateway, Spec.totalWeight.
  destruct (GatewayService.getHealthyGatewayConfigs config h now)
    as [h1 healthy].
  simpl. destruct healthy as [|first rest]; split; reflexivity.
Qed.

Lemma selectAmong_elem (random : Q) (first : GatewayConfig.t)
    (rest : list GatewayConfig.t) :
  GatewayService.selectAmong random first rest ∈ first :: rest.
Proof.
  unfold GatewayService.selectAmong.
  destruct (GatewayService.walk random 0 (first :: rest)) as [g|] eqn:Ew.
  - apply walk_elem in Ew. exact Ew.
  - left.
Qed.

(** The result of [selectGateway] against the healthy set. *)
Lemma selectGateway_result (config : list GatewayConfig.t)
    (h : GatewayHealthService.State) (now : Z) (rnd : Q) :
  let healthy := snd (GatewayService.getHealthyGatewayConfigs config h now) in
  match snd (GatewayService.selectGateway config h now rnd) with
  | Throw e => e = NoHealthyGateway /\ Spec.healthySet config h now = []
  | Ok selection =>
      GatewaySelectionResult.gateway selection ∈ Spec.healthySet config h now
      /\ exists c,
           c ∈ config
           /\ GatewayConfig.name c = GatewaySelectionResult.gateway selection
           /\ GatewaySelectionResult.reason selection
              = GatewayService.buildSelectionReason
                  config c healthy (Spec.totalWeight healthy)
  end.
Proof.
  intros healthy.
  destruct (selectGateway_cases config h now rnd) as [Hres _].
  cbv zeta in Hres. fold healthy in Hres. rewrite Hres. clear Hres.
  pose proof (healthy_configs_nil config h now) as Hnil.
  pose proof (healthy_configs_elem config h now) as Helem.
  fold healthy in Hnil, Helem. clearbody healthy.
  destruct healthy as [|first rest].
  - split; [reflexivity | apply Hnil; reflexivity].
  - pose proof (selectAmong_elem
                  (JS.round64 (rnd * Spec.totalWeight (first :: rest)))
                  first rest)
      as Hsel.
    apply Helem in Hsel as [Hcfg Hin].
    simpl. split; [exact Hin|]. eexists. eauto.
Qed.

(** C3.  [selectGateway] throws the "no healthy gateway" error exactly
    when the healthy set is empty, and it throws nothing else; otherwise
    it returns the name of a gateway of the healthy set, with the
    rationale built for the descriptor it selected.  The healthy set
    holds the names of the configured, enabled gateways that the tracker
    reports healthy: those with no disabled-until stored or with one
    that has passed. *)
Theorem select_error_iff_no_healthy (config : list GatewayConfig.t)
    (h : GatewayHealthService.State) (now : Z) (rnd : Q) :
  let result := snd (GatewayService.selectGateway config h now rnd) in
  let healthy := snd (GatewayService.getHealthyGatewayConfigs config h now) in
  (result = Throw NoHealthyGateway <-> Spec.healthySet config h now = [])
  /\ (forall n,
        n ∈ Spec.healthySet config h now <->
        exists c,
          c ∈ config /\ GatewayConfig.name c = n
          /\ GatewayConfig.enabled c = true
          /\ forall disabledUntil,
               GatewayHealthService.disabledGateways h !! n
               = Some disabledUntil ->
               disabledUntil < now)
  /\ match result with
     | Throw e => e = NoHealthyGateway
     | Ok selection =>
         GatewaySelectionResult.gateway selection
           ∈ Spec.healthySet config h now
         /\ exists c,
              c ∈ config
              /\ GatewayConfig.name c = GatewaySelectionResult.gateway selection
              /\ GatewaySelectionResult.reason selection
                 = GatewayService.buildSelectionReason
                     config c healthy (Spec.totalWeight healthy)
     end.
Proof.
  intros result healthy.
  pose proof (selectGateway_result config h now rnd) as Hres.
  cbv zeta in Hres. fold result healthy in Hres. clearbody result.
  destruct result as [selection|e].
  - destruct Hres as [Hin Hreason].
    split; [|split; [apply healthySet_circuit | auto]].
    split; [discriminate|]. intros Hempty.
    rewrite Hempty in Hin. inversion Hin.
  - destruct Hres as [-> Hempty].
    split; [|split; [apply healthySet_circuit | reflexivity]].
    split; intros _; [exact Hempty | reflexivity].
Qed.

(** With every gateway enabled and none disabled, the draw 6/10 selects
    payu; with every gateway disabled by the operator the call throws. *)
Lemma select_error_iff_no_healthy_witness :
  let h := GatewayHealthService.init GATEWAY_CONFIG in
  (exists reason,
     snd (GatewayService.selectGateway GATEWAY_CONFIG h 0 (6 # 10))
     = Ok (GatewaySelectionResult.mk "payu" reason))
  /\ snd (GatewayService.selectGateway
            GATEWAY_CONFIG
            (TransactionsService.gatewayService Sample.ledger3) 3000 (6 # 10))
     = Throw NoHealthyGateway.
Proof.
  intros h. split.
  - eexists. vm_compute. reflexivity.
  - apply (select_error_iff_no_healthy GATEWAY_CONFIG _ 3000 (6 # 10)).
    vm_compute. reflexivity.
Defined.

(** ** The walk and its fallback *)

(** When the walk stops at no gateway, the draw exceeds the whole
    accumulated weight. *)
Lemma walk_None_sum (random cumulativeWeight : Q)
    (gateways : list GatewayConfig.t) :
  gateways <> [] ->
  GatewayService.walk random cumulativeWeight gateways = None ->
  (foldl (fun sum g => sum + GatewayConfig.weight g)%Q cumulativeWeight gateways
     < random)%Q.
Proof.
  revert cumulativeWeight.
  induction gateways as [|g gateways IH]; intros c Hne; [congruence|].
  simpl. destruct (Qle_bool random (c + GatewayConfig.weight g)) eqn:E;
    [discriminate|].
  intros Hrest. destruct gateways as [|g' gateways].
  - simpl. apply Qnot_le_lt. intros Hle.
    apply Qle_bool_iff in Hle. congruence.
  - apply IH; [discriminate | exact Hrest].
Qed.

(** A draw that does not exceed the total weight stops the walk at a
    gateway: the weights accumulated up to the last gateway are the
    total weight. *)
Lemma walk_finds (random : Q) (gateways : list GatewayConfig.t) :
  (random <= Spec.totalWeight gateways)%Q -> gateways <> [] ->
  GatewayService.walk random 0 gateways <> None.
Proof.
  intros Hle Hne Hnone.
  apply walk_None_sum in Hnone; [|exact Hne].
  fold (Spec.totalWeight gateways) in Hnone.
  exact (Qlt_not_le _ _ Hnone Hle).
Qed.



(** * Properties of the ledger *)

Lemma status_eqb_eq (a b : TransactionStatus.t) :
  TransactionStatus.eqb a b = true <-> a = b.
Proof. destruct a, b; simpl; split; congruence. Qed.

Lemma hasPendingTransaction_iff (s : TransactionsService.State)
    (order_id : string) :
  TransactionsService.hasPendingTransaction s order_id = true <->
  exists id tx,
    TransactionsService.orderToTransaction s !! order_id = Some id
    /\ TransactionsService.transactions s !! id = Some tx
    /\ Transaction.status tx = TransactionStatus.PENDING.
Proof.
  unfold TransactionsService.hasPendingTransaction. split.
  - destruct (TransactionsService.orderToTransaction s !! order_id) as [id|];
      [|discriminate].
    destruct (TransactionsService.transactions s !! id) as [tx|] eqn:Etx;
      [|discriminate].
    intros H. apply status_eqb_eq in H. eauto.
  - intros (id & tx & -> & -> & ->). reflexivity.
Qed.

(** The three ways [initiateTransaction] can end. *)
Lemma initiateTransaction_cases (config : list GatewayConfig.t)
    (s : TransactionsService.State) (dto : InitiateTransactionDto.t)
    (now : Z) (rnd : Q) (uuid : string) :
  let order := InitiateTransactionDto.order_id dto in
  let r := TransactionsService.initiateTransaction config s dto now rnd uuid in
  let select :=
    GatewayService.selectGateway config
      (TransactionsService.gatewayService s) now rnd in
  (TransactionsService.hasPendingTransaction s order = true
   /\ r = (s, Throw (DuplicatePendingOrder order)))
  \/ (TransactionsService.hasPendingTransaction s order = false
      /\ exists e,
           snd select = Throw e
           /\ snd r = Throw e
           /\ TransactionsService.transactions (fst r)
              = TransactionsService.transactions s
           /\ TransactionsService.orderToTransaction (fst r)
              = TransactionsService.orderToTransaction s)
  \/ (TransactionsService.hasPendingTransaction s order = false
      /\ exists selection tx,
           snd select = Ok selection
           /\ snd r = Ok tx
           /\ Transaction.id tx = uuid
           /\ Transaction.order_id tx = order
           /\ Transaction.status tx = TransactionStatus.PENDING
           /\ Transaction.gateway tx = GatewaySelectionResult.gateway selection
           /\ Transaction.payment_instrument tx
              = TransactionsService.sanitizePaymentInstrument
                  (InitiateTransactionDto.payment_instrument dto)
           /\ TransactionsService.transactions (fst r)
              = <[uuid := tx]> (TransactionsService.transactions s)
           /\ TransactionsService.orderToTransaction (fst r)
              = <[order := uuid]> (TransactionsService.orderToTransaction s)).
Proof.
  intros order r select. subst r select order.
  unfold TransactionsService.initiateTransaction.
  destruct (TransactionsService.hasPendingTransaction s _) eqn:Ep;
    [left; auto|].
  right.
  destruct (GatewayService.selectGateway config _ now rnd) as [h1 [sel|e]].
  - right. split; [reflexivity|]. simpl. eexists sel, _.
    repeat split; reflexivity.
  - left. split; [reflexivity|]. exists e. simpl. auto.
Qed.

(** C6 (as amended).  [initiateTransaction] throws the duplicate-order
    error exactly when the order id is indexed to a stored transaction
    whose status is PENDING, and then it changes nothing.  When the
    indexed transaction is terminal the call is not rejected as a
    duplicate: if no gateway is healthy the router's error is passed on
    and the two maps stay as they were; otherwise the call returns a
    PENDING transaction under the generated id, stored under that id,
    and the order index is overwritten to point at it.  When the
    generated id is not yet in use it differs from the id of the earlier
    transaction, which stays stored. *)
Theorem create_duplicate_rule (config : list GatewayConfig.t)
    (s : TransactionsService.State) (dto : InitiateTransactionDto.t)
    (now : Z) (rnd : Q) (uuid : string) :
  let order := InitiateTransactionDto.order_id dto in
  let r := TransactionsService.initiateTransaction config s dto now rnd uuid in
  let healthy :=
    Spec.healthySet config (TransactionsService.gatewayService s) now in
  ((exists o, snd r = Throw (DuplicatePendingOrder o)) <->
   exists id tx,
     TransactionsService.orderToTransaction s !! order = Some id
     /\ TransactionsService.transactions s !! id = Some tx
     /\ Transaction.status tx = TransactionStatus.PENDING)
  /\ (forall o, snd r = Throw (DuplicatePendingOrder o) -> o = order /\ fst r = s)
  /\ (forall id tx,
        TransactionsService.orderToTransaction s !! order = Some id ->
        TransactionsService.transactions s !! id = Some tx ->
        Transaction.status tx <> TransactionStatus.PENDING ->
        (healthy = []
         /\ snd r = Throw NoHealthyGateway
         /\ TransactionsService.transactions (fst r)
            = TransactionsService.transactions s
         /\ TransactionsService.orderToTransaction (fst r)
            = TransactionsService.orderToTransaction s)
        \/ (healthy <> []
            /\ exists tx',
                 snd r = Ok tx'
                 /\ Transaction.id tx' = uuid
                 /\ Transaction.status tx' = TransactionStatus.PENDING
                 /\ Transaction.gateway tx' ∈ healthy
                 /\ TransactionsService.transactions (fst r) !! uuid = Some tx'
                 /\ TransactionsService.orderToTransaction (fst r) !! order
                    = Some uuid
                 /\ (TransactionsService.transactions s !! uuid = None ->
                     uuid <> id
                     /\ TransactionsService.transactions (fst r) !! id
                        = Some tx))).
Proof.
  intros order r healthy.
  pose proof (initiateTransaction_cases config s dto now rnd uuid) as Hcases.
  cbv zeta in Hcases. fold order r in Hcases.
  pose proof (selectGateway_result config
                (TransactionsService.gatewayService s) now rnd) as Hres.
  cbv zeta in Hres. fold healthy in Hres.
  pose proof (hasPendingTransaction_iff s order) as Hpending.
  clearbody r.
  destruct Hcases as [[Hp Hr] | [[Hp (e & He & Hr & Ht & Ho)]
                               | [Hp (sel & tx' & Hs & Hr & Hid & Hord & Hst
                                      & Hgw & Hpi & Ht & Ho)]]].
  - subst r. simpl. split; [|split].
    + split; [intros _; apply Hpending; exact Hp | eauto].
    + intros o [= <-]. auto.
    + intros id tx Hi Htx Hne. exfalso.
      apply Hpending in Hp as (id' & tx'' & Hi' & Htx' & Hst).
      rewrite Hi in Hi'. injection Hi' as <-.
      rewrite Htx in Htx'. injection Htx' as <-. contradiction.
  - rewrite He in Hres. destruct Hres as [-> Hempty]. split; [|split].
    + rewrite Hr. split; [intros [o [=]]|].
      intros Hex. apply Hpending in Hex. congruence.
    + rewrite Hr. discriminate.
    + intros id tx Hi Htx Hne. left. auto.
  - rewrite Hs in Hres. destruct Hres as [Hin _]. split; [|split].
    + rewrite Hr. split; [intros [o [=]]|].
      intros Hex. apply Hpending in Hex. congruence.
    + rewrite Hr. discriminate.
    + intros id tx Hi Htx Hne. right. split.
      { intros Hempty. rewrite Hempty in Hin. inversion Hin. }
      exists tx'. rewrite Ht, Ho, Hgw.
      repeat split; try assumption.
      * apply lookup_insert_eq.
      * apply lookup_insert_eq.
      * intros ->. congruence.
      * rewrite lookup_insert_ne; [exact Htx|]. intros ->. congruence.
Qed.

(** After ORD123 has completed with success, the order is created again
    at time 3000: the call succeeds under the new id and the index
    points at it. *)
Lemma create_duplicate_rule_witness :
  let r :=
    TransactionsService.initiateTransaction
      GATEWAY_CONFIG Sample.ledger2 (Sample.order Sample.card) 3000 (1 # 2)
      "txn-2" in
  TransactionsService.orderToTransaction Sample.ledger2 !! "ORD123"
  = Some "txn-1"
  /\ Transaction.status
       <$> TransactionsService.transactions Sample.ledger2 !! "txn-1"
     = Some TransactionStatus.SUCCESS
  /\ exists tx',
       snd r = Ok tx'
       /\ Transaction.id tx' = "txn-2"
       /\ TransactionsService.orderToTransaction (fst r) !! "ORD123"
          = Some "txn-2".
Proof.
  intros r.
  assert (Hindex :
    TransactionsService.orderToTransaction Sample.ledger2 !! "ORD123"
    = Some "txn-1") by (vm_compute; reflexivity).
  destruct (TransactionsService.transactions Sample.ledger2 !! "txn-1")
    as [tx|] eqn:Etx; [|vm_compute in Etx; discriminate].
  assert (Hstatus : Transaction.status tx = TransactionStatus.SUCCESS).
  { vm_compute in Etx. injection Etx as <-. reflexivity. }
  split; [exact Hindex|]. split; [simpl; rewrite Hstatus; reflexivity|].
  destruct (create_duplicate_rule GATEWAY_CONFIG Sample.ledger2
              (Sample.order Sample.card) 3000 (1 # 2) "txn-2")
    as (_ & _ & Hterminal).
  destruct (Hterminal "txn-1" tx Hindex Etx) as [Hnone | Hsome].
  - rewrite Hstatus. discriminate.
  - destruct Hnone as [Hempty _]. vm_compute in Hempty. discriminate.
  - destruct Hsome as (_ & tx' & Hr & Hid & _ & _ & _ & Ho & _).
    exists tx'. auto.
Defined.

(** C6, as stated, fails when no gateway is healthy: ORD123 is indexed
    to a transaction that completed with success, every gateway has been
    disabled, and creating the order again does not succeed; the
    router's error comes out and the index keeps the old transaction. *)
Lemma create_duplicate_rule_counterexample :
  let r :=
    TransactionsService.initiateTransaction
      GATEWAY_CONFIG Sample.ledger3 (Sample.order Sample.card) 3000 (1 # 2)
      "txn-2" in
  TransactionsService.orderToTransaction Sample.ledger3 !! "ORD123"
  = Some "txn-1"
  /\ Transaction.status
       <$> TransactionsService.transactions Sample.ledger3 !! "txn-1"
     = Some TransactionStatus.SUCCESS
  /\ snd r = Throw NoHealthyGateway
  /\ TransactionsService.orderToTransaction (fst r) !! "ORD123" = Some "txn-1"
  /\ TransactionsService.transactions (fst r) !! "txn-2" = None.
Proof.
  intros r. repeat split; vm_compute; reflexivity.
Qed.

(** ** Completion *)

Lemma callback_status_terminal (b : bool) :
  (if b then TransactionStatus.SUCCESS else TransactionStatus.FAILURE)
  <> TransactionStatus.PENDING.
Proof. destruct b; discriminate. Qed.

(** The ways [processCallback] can end, by the state it finds. *)
Lemma processCallback_cases (s : TransactionsService.State)
    (dto : CallbackDto.t) (now : Z) :
  let r := TransactionsService.processCallback s dto now in
  let order := CallbackDto.order_id dto in
  (r = (s, Throw (OrderNotFound order))
   /\ forall id,
        TransactionsService.orderToTransaction s !! order = Some id ->
        JS.truthy id = false)
  \/ exists id,
       TransactionsService.orderToTransaction s !! order = Some id
       /\ JS.truthy id = true
       /\ ((TransactionsService.transactions s !! id = None
            /\ r = (s, Throw (TransactionNotFound id)))
           \/ exists tx,
                TransactionsService.transactions s !! id = Some tx
                /\ ((Transaction.gateway tx <> CallbackDto.gateway dto
                     /\ r = (s, Throw (GatewayMismatch
                                         (Transaction.gateway tx)
                                         (CallbackDto.gateway dto))))
                    \/ (Transaction.gateway tx = CallbackDto.gateway dto
                        /\ Transaction.status tx <> TransactionStatus.PENDING
                        /\ r = (s, Throw (AlreadyProcessed
                                            (Transaction.status tx))))
                    \/ (Transaction.gateway tx = CallbackDto.gateway dto
                        /\ Transaction.status tx = TransactionStatus.PENDING
                        /\ exists tx',
                             snd r = Ok tx'
                             /\ Transaction.id tx' = Transaction.id tx
                             /\ Transaction.gateway tx' = Transaction.gateway tx
                             /\ Transaction.status tx'
                                = (if CallbackStatus.eqb
                                        (CallbackDto.status dto)
                                        CallbackStatus.SUCCESS
                                   then TransactionStatus.SUCCESS
                                   else TransactionStatus.FAILURE)
                             /\ TransactionsService.transactions (fst r)
                                = <[id := tx']>
                                    (TransactionsService.transactions s)
                             /\ TransactionsService.orderToTransaction (fst r)
                                = TransactionsService.orderToTransaction s
                             /\ TransactionsService.gatewayService (fst r)
                                = GatewayHealthService.recordTransaction
                                    (TransactionsService.gatewayService s)
                                    (CallbackDto.gateway dto)
                                    (CallbackStatus.eqb
                                       (CallbackDto.status dto)
                                       CallbackStatus.SUCCESS)
                                    now))).
Proof.
  intros r order. subst r order.
  unfold TransactionsService.processCallback.
  destruct (TransactionsService.orderToTransaction s !! _) as [id|] eqn:Ei.
  2: { left. split; [reflexivity | discriminate]. }
  destruct (JS.truthy id) eqn:Et; simpl.
  2: { left. split; [reflexivity|]. intros id' [= <-]. exact Et. }
  right. exists id. split; [reflexivity|]. split; [exact Et|].
  destruct (TransactionsService.transactions s !! id) as [tx|] eqn:Etx.
  2: { left. auto. }
  right. exists tx. split; [reflexivity|].
  destruct (String.eqb_spec (Transaction.gateway tx) (CallbackDto.gateway dto))
    as [Hgw|Hgw]; simpl.
  2: { left. auto. }
  right.
  destruct (TransactionStatus.eqb (Transaction.status tx)
                                  TransactionStatus.PENDING) eqn:Est; simpl.
  - right. apply status_eqb_eq in Est.
    split; [exact Hgw|]. split; [exact Est|].
    eexists. simpl. repeat split; reflexivity.
  - left. split; [exact Hgw|]. split; [|reflexivity].
    intros Hp. apply status_eqb_eq in Hp. congruence.
Qed.

(** C7.  Whenever [processCallback] throws, it leaves the whole state as
    it found it: in particular the stored transaction keeps its status
    and the health tracker records no outcome.  It throws the gateway
    mismatch when the reported gateway differs from the stored one
    (whatever the status), and "already processed" when the gateway
    matches and the stored status is not PENDING. *)
Theorem complete_error_atomic (s : TransactionsService.State)
    (dto : CallbackDto.t) (now : Z) :
  let r := TransactionsService.processCallback s dto now in
  let order := CallbackDto.order_id dto in
  (forall e, snd r = Throw e ->
     fst r = s
     /\ TransactionsService.transactions (fst r)
        = TransactionsService.transactions s
     /\ TransactionsService.gatewayService (fst r)
        = TransactionsService.gatewayService s)
  /\ (forall expected received,
        snd r = Throw (GatewayMismatch expected received) <->
        exists id tx,
          TransactionsService.orderToTransaction s !! order = Some id
          /\ JS.truthy id = true
          /\ TransactionsService.transactions s !! id = Some tx
          /\ expected = Transaction.gateway tx
          /\ received = CallbackDto.gateway dto
          /\ expected <> received)
  /\ (forall status,
        snd r = Throw (AlreadyProcessed status) <->
        exists id tx,
          TransactionsService.orderToTransaction s !! order = Some id
          /\ JS.truthy id = true
          /\ TransactionsService.transactions s !! id = Some tx
          /\ Transaction.gateway tx = CallbackDto.gateway dto
          /\ status = Transaction.status tx
          /\ status <> TransactionStatus.PENDING).
Proof.
  intros r order.
  pose proof (processCallback_cases s dto now) as Hcases.
  cbv zeta in Hcases. fold r order in Hcases. clearbody r.
  destruct Hcases as [[-> Hfalsy] | (id & Hi & Ht & Hcases)].
  { simpl. split; [auto|]. split.
    - intros expected received. split; [discriminate|].
      intros (id & tx & Hi & Ht & _). rewrite (Hfalsy id Hi) in Ht.
      discriminate.
    - intros status. split; [discriminate|].
      intros (id & tx & Hi & Ht & _). rewrite (Hfalsy id Hi) in Ht.
      discriminate. }
  destruct Hcases as [[Hnone ->] | (tx & Htx & Hcases)].
  { simpl. split; [auto|]. split.
    - intros expected received. split; [discriminate|].
      intros (id' & tx & Hi' & _ & Htx & _). congruence.
    - intros status. split; [discriminate|].
      intros (id' & tx & Hi' & _ & Htx & _). congruence. }
  assert (Hsame : forall id' tx',
    TransactionsService.orderToTransaction s !! order = Some id' ->
    TransactionsService.transactions s !! id' = Some tx' -> tx' = tx).
  { intros id' tx' Hi' Htx'. congruence. }
  destruct Hcases as [[Hgw ->] | [(Hgw & Hst & ->)
                                 | (Hgw & Hst & tx' & Hr & _)]].
  - simpl. split; [auto|]. split.
    + intros expected received. split.
      * intros [= <- <-]. exists id, tx. auto 10.
      * intros (id' & tx' & Hi' & _ & Htx' & -> & -> & _).
        rewrite (Hsame id' tx' Hi' Htx'). reflexivity.
    + intros status. split; [discriminate|].
      intros (id' & tx' & Hi' & _ & Htx' & Hgw' & _).
      rewrite (Hsame id' tx' Hi' Htx') in Hgw'. contradiction.
  - simpl. split; [auto|]. split.
    + intros expected received. split; [discriminate|].
      intros (id' & tx' & Hi' & _ & Htx' & -> & -> & Hne).
      rewrite (Hsame id' tx' Hi' Htx') in Hne. contradiction.
    + intros status. split.
      * intros [= <-]. exists id, tx. auto 10.
      * intros (id' & tx' & Hi' & _ & Htx' & _ & -> & _).
        rewrite (Hsame id' tx' Hi' Htx'). reflexivity.
  - rewrite Hr. split; [discriminate|]. split.
    + intros expected received. split; [discriminate|].
      intros (id' & tx'' & Hi' & _ & Htx' & -> & -> & Hne).
      rewrite (Hsame id' tx'' Hi' Htx') in Hne. contradiction.
    + intros status. split; [discriminate|].
      intros (id' & tx'' & Hi' & _ & Htx' & _ & -> & Hne).
      rewrite (Hsame id' tx'' Hi' Htx') in Hne. contradiction.
Qed.

(** A PENDING transaction assigned to razorpay: a callback naming payu
    is rejected and nothing changes; once the transaction has completed
    with success, a second callback is rejected and nothing changes. *)
Lemma complete_error_atomic_witness :
  let mismatch :=
    TransactionsService.processCallback
      Sample.ledger1 (Sample.callback "payu" CallbackStatus.SUCCESS) 1000 in
  let again :=
    TransactionsService.processCallback
      Sample.ledger2 (Sample.callback "razorpay" CallbackStatus.FAILURE) 2000 in
  (snd mismatch = Throw (GatewayMismatch "razorpay" "payu")
   /\ fst mismatch = Sample.ledger1)
  /\ (snd again = Throw (AlreadyProcessed TransactionStatus.SUCCESS)
      /\ fst again = Sample.ledger2).
Proof.
  intros mismatch again. split.
  - assert (H : snd mismatch = Throw (GatewayMismatch "razorpay" "payu"))
      by (vm_compute; reflexivity).
    split; [exact H|].
    destruct (complete_error_atomic Sample.ledger1
                (Sample.callback "payu" CallbackStatus.SUCCESS) 1000)
      as [Hatomic _].
    apply (Hatomic _ H).
  - assert (H : snd again = Throw (AlreadyProcessed TransactionStatus.SUCCESS))
      by (vm_compute; reflexivity).
    split; [exact H|].
    destruct (complete_error_atomic Sample.ledger2
                (Sample.callback "razorpay" CallbackStatus.FAILURE) 2000)
      as [Hatomic _].
    apply (Hatomic _ H).
Defined.

(** A callback that succeeded makes every later callback for the same
    order and gateway fail with "already processed", reporting the
    status the first one set, and leave the state alone. *)
Lemma complete_twice (s : TransactionsService.State) (dto dto2 : CallbackDto.t)
    (now now2 : Z) (tx1 : Transaction.t) :
  snd (TransactionsService.processCallback s dto now) = Ok tx1 ->
  CallbackDto.order_id dto2 = CallbackDto.order_id dto ->
  CallbackDto.gateway dto2 = CallbackDto.gateway dto ->
  let s1 := fst (TransactionsService.processCallback s dto now) in
  Transaction.status tx1 <> TransactionStatus.PENDING
  /\ TransactionsService.processCallback s1 dto2 now2
     = (s1, Throw (AlreadyProcessed (Transaction.status tx1))).
Proof.
  intros Hok Horder Hgw s1.
  pose proof (processCallback_cases s dto now) as H1. cbv zeta in H1.
  fold s1 in H1.
  destruct H1 as [[Hr _] | (id & Hi & Ht & [[_ Hr] | (tx & Htx & H1)])];
    try (rewrite Hr in Hok; discriminate).
  destruct H1 as [[_ Hr] | [(_ & _ & Hr) | (Hg & Hst & tx' & Hr & _ & Hg'
                                             & Hst' & Htxs & Hord & _)]];
    try (rewrite Hr in Hok; discriminate).
  rewrite Hok in Hr. injection Hr as <-.
  assert (Hterminal : Transaction.status tx1 <> TransactionStatus.PENDING).
  { rewrite Hst'. apply callback_status_terminal. }
  split; [exact Hterminal|].
  pose proof (processCallback_cases s1 dto2 now2) as H2. cbv zeta in H2.
  rewrite Horder, Hord, Hi, Htxs in H2.
  destruct H2 as [[_ Hfalsy] | (id' & [= <-] & _ & H2)].
  { rewrite (Hfalsy id eq_refl) in Ht. discriminate. }
  rewrite lookup_insert_eq in H2.
  destruct H2 as [[[=] _] | (tx2 & [= <-] & H2)].
  rewrite Hgw in H2.
  destruct H2 as [[Hne _] | [(_ & _ & Hr) | (_ & Hp & _)]];
    [congruence | exact Hr | contradiction].
Qed.

(** ** Sanitization *)

Lemma substring_whole (s : string) (m : nat) :
  (String.length s <= m)%nat -> String.substring 0 m s = s.
Proof.
  revert m. induction s as [|c s IH]; intros m Hm.
  - destruct m; reflexivity.
  - destruct m; simpl in *; [lia|]. rewrite IH by lia. reflexivity.
Qed.

Lemma substring_suffix (n : nat) (s : string) (m : nat) :
  (n <= String.length s)%nat -> (String.length s <= n + m)%nat ->
  exists pre, s = pre +:+ String.substring n m s /\ String.length pre = n.
Proof.
  revert s. induction n as [|n IH]; intros s Hn Hm.
  - exists "". rewrite substring_whole by exact Hm. split; reflexivity.
  - destruct s as [|c s]; simpl in *; [lia|].
    destruct (IH s) as (pre & Hs & Hpre); [lia | lia |].
    exists (String c pre). split; simpl; [|f_equal; exact Hpre].
    change (String c s = String c (pre +:+ String.substring n m s)).
    f_equal. exact Hs.
Qed.

(** [slice(-n)] keeps the end of the string: what precedes it has all
    the characters but the last [n]. *)
Lemma slice_last_suffix (n : nat) (s : string) :
  exists masked,
    s = masked +:+ JS.slice_last n s
    /\ String.length masked = (String.length s - n)%nat.
Proof. unfold JS.slice_last. apply substring_suffix; lia. Qed.

Lemma truthy_iff (s : string) : JS.truthy s = true <-> s <> "".
Proof.
  unfold JS.truthy. destruct (String.eqb_spec s ""); simpl; split;
    congruence.
Qed.

(** C8 (as amended).  After a successful [initiateTransaction], looking
    the returned id up gives the returned record back; the record has no
    CVV; a card number that is present and not empty is stored as "****"
    followed by its last four characters, everything before them being
    dropped; an absent card number stays absent and an empty one stays
    empty. *)
Theorem sanitize_round_trip (config : list GatewayConfig.t)
    (s s1 : TransactionsService.State) (dto : InitiateTransactionDto.t)
    (now : Z) (rnd : Q) (uuid : string) (tx : Transaction.t) :
  TransactionsService.initiateTransaction config s dto now rnd uuid
  = (s1, Ok tx) ->
  let input := InitiateTransactionDto.payment_instrument dto in
  let stored := Transaction.payment_instrument tx in
  TransactionsService.getTransaction s1 (Transaction.id tx) = Ok tx
  /\ PaymentInstrument.cvv stored = None
  /\ (forall n,
        PaymentInstrument.card_number input = Some n -> n <> "" ->
        PaymentInstrument.card_number stored
        = Some ("****" +:+ JS.slice_last 4 n)
        /\ exists masked,
             n = masked +:+ JS.slice_last 4 n
             /\ String.length masked = (String.length n - 4)%nat)
  /\ (PaymentInstrument.card_number input = None ->
      PaymentInstrument.card_number stored = None)
  /\ (PaymentInstrument.card_number input = Some "" ->
      PaymentInstrument.card_number stored = Some "").
Proof.
  intros Hcreate input stored.
  pose proof (initiateTransaction_cases config s dto now rnd uuid) as Hcases.
  cbv zeta in Hcases. rewrite Hcreate in Hcases. simpl in Hcases.
  destruct Hcases as [[_ [=]] | [[_ (e & _ & [=] & _)]
                                | [_ (sel & tx' & _ & [= <-] & Hid & _ & _ & _
                                      & Hpi & Ht & _)]]].
  subst stored. rewrite Hpi. fold input.
  split; [|split; [reflexivity|]].
  { unfold TransactionsService.getTransaction.
    rewrite Ht, Hid, lookup_insert_eq. reflexivity. }
  unfold TransactionsService.sanitizePaymentInstrument. simpl.
  split; [|split].
  - intros n -> Hn. apply truthy_iff in Hn. rewrite Hn.
    split; [reflexivity | apply slice_last_suffix].
  - intros ->. reflexivity.
  - intros ->. reflexivity.
Qed.

(** The card of the service's tests, with a CVV: stored as "****1111",
    without the CVV. *)
Lemma sanitize_round_trip_witness :
  exists s1 tx,
    TransactionsService.initiateTransaction
      GATEWAY_CONFIG Sample.ledger0 (Sample.order Sample.card) 0 (1 # 2)
      "txn-1" = (s1, Ok tx)
    /\ PaymentInstrument.cvv Sample.card = Some "123"
    /\ TransactionsService.getTransaction s1 "txn-1" = Ok tx
    /\ PaymentInstrument.cvv (Transaction.payment_instrument tx) = None
    /\ PaymentInstrument.card_number (Transaction.payment_instrument tx)
       = Some "****1111".
Proof.
  destruct (TransactionsService.initiateTransaction
              GATEWAY_CONFIG Sample.ledger0 (Sample.order Sample.card) 0
              (1 # 2) "txn-1") as [s1 [tx|e]] eqn:E;
    [|vm_compute in E; discriminate].
  exists s1, tx. split; [reflexivity|]. split; [reflexivity|].
  assert (Hid : Transaction.id tx = "txn-1").
  { vm_compute in E. injection E as _ <-. reflexivity. }
  destruct (sanitize_round_trip _ _ _ _ _ _ _ _ E)
    as (Hget & Hcvv & Hcard & _).
  rewrite Hid in Hget. split; [exact Hget|]. split; [exact Hcvv|].
  destruct (Hcard "4111111111111111") as [Hmasked _];
    [reflexivity | discriminate | exact Hmasked].
Defined.

(** C8, as stated, fails on a card number that is present but empty: it
    is stored as it came, not as the mask prefix followed by its last
    digits. *)
Lemma sanitize_round_trip_counterexample :
  exists s1 tx,
    TransactionsService.initiateTransaction
      GATEWAY_CONFIG Sample.ledger0 (Sample.order Sample.blankCard) 0 (1 # 2)
      "txn-1" = (s1, Ok tx)
    /\ PaymentInstrument.card_number Sample.blankCard = Some ""
    /\ TransactionsService.getTransaction s1 "txn-1" = Ok tx
    /\ PaymentInstrument.card_number (Transaction.payment_instrument tx)
       = Some ""
    /\ Some "" <> Some ("****" +:+ JS.slice_last 4 "").
Proof.
  eexists _, _. split; [vm_compute; reflexivity|].
  split; [reflexivity|]. split; [vm_compute; reflexivity|].
  split; [reflexivity | discriminate].
Qed.

(** * Further properties of the health tracker *)

(** ** Arithmetic of numbers *)

Lemma pow2_nonpos (e : Z) :
  e <= 0 -> (JS.pow2 e == / inject_Z (2 ^ (- e)))%Q.
Proof.
  intros He. unfold JS.pow2. destruct (Z.leb_spec 0 e) as [H0|H0].
  - assert (e = 0) as -> by lia. reflexivity.
  - reflexivity.
Qed.

Lemma inject_Z_pow_pos (k : Z) : 0 <= k -> (0 < inject_Z (2 ^ k))%Q.
Proof.
  intros Hk. change 0%Q with (inject_Z 0). rewrite <- Zlt_Qlt.
  apply Z.pow_pos_nonneg; lia.
Qed.

(** An integer is the integer nearest to itself, and the nearest
    integer lies on the same side of every integer as the number. *)
Lemma roundHalfEven_le (y : Q) (M : Z) :
  (y <= inject_Z M)%Q -> JS.roundHalfEven y <= M.
Proof.
  intros Hle. unfold JS.roundHalfEven.
  assert (Hf : Qfloor y <= M).
  { rewrite <- (Qfloor_Z M). apply Qfloor_resp_le. exact Hle. }
  pose proof (Qfloor_le y) as Hfy.
  destruct (Z.eq_dec (Qfloor y) M) as [Heq|Hne].
  - assert (Hc : ((y - inject_Z (Qfloor y)) ?= (1 # 2))%Q = Lt).
    { apply (proj1 (Qlt_alt _ _)). rewrite Heq in Hfy |- *.
      revert Hfy Hle. generalize (inject_Z M). intros m Hfy Hle. lra. }
    rewrite Hc. lia.
  - destruct (Qcompare _ _); [destruct (Z.even _)| |]; lia.
Qed.

Lemma roundHalfEven_ge (y : Q) (M : Z) :
  (inject_Z M <= y)%Q -> M <= JS.roundHalfEven y.
Proof.
  intros Hle. unfold JS.roundHalfEven.
  assert (Hf : M <= Qfloor y).
  { rewrite <- (Qfloor_Z M). apply Qfloor_resp_le. exact Hle. }
  destruct (Qcompare _ _); [destruct (Z.even _)| |]; lia.
Qed.

(** Below 2^53 in magnitude the unit in the last place is at most 1. *)
Lemma ilog2_small (x : Q) :
  (Qabs x < inject_Z (2 ^ 53))%Q -> JS.ilog2 x <= 52.
Proof.
  intros Hlt. unfold JS.ilog2.
  set (l := Z.log2 (Z.abs (Qnum x)) - Z.log2 (Z.pos (Qden x))).
  destruct (Qle_bool (JS.pow2 l) (Qabs x)) eqn:E.
  - apply Qle_bool_iff in E.
    destruct (Z.le_gt_cases l 52) as [?|Hbig]; [assumption|exfalso].
    assert (Hp : (inject_Z (2 ^ 53) <= JS.pow2 l)%Q).
    { unfold JS.pow2. destruct (Z.leb_spec 0 l); [|lia].
      rewrite <- Zle_Qle. apply Z.pow_le_mono_r; lia. }
    lra.
  - assert (Hn : Z.abs (Qnum x) < 2 ^ 53 * Z.pos (Qden x)).
    { destruct x as [n d]. unfold Qlt in Hlt. simpl in *. lia. }
    assert (Hl : Z.log2 (Z.abs (Qnum x)) <= 53 + Z.log2 (Z.pos (Qden x))).
    { rewrite <- Z.log2_mul_pow2 by lia.
      apply Z.log2_le_mono. lia. }
    lia.
Qed.

Lemma exponent64_small (x : Q) :
  (Qabs x < inject_Z (2 ^ 53))%Q -> JS.exponent64 x <= 0.
Proof.
  intros Hlt. apply ilog2_small in Hlt. unfold JS.exponent64. lia.
Qed.

Lemma scaled_le (x : Q) (N k : Z) :
  0 <= k -> (x <= inject_Z N)%Q ->
  (x / / inject_Z (2 ^ k) <= inject_Z (N * 2 ^ k))%Q.
Proof.
  intros Hk Hle. pose proof (inject_Z_pow_pos k Hk) as Hpos.
  unfold Qdiv. rewrite Qinv_involutive, inject_Z_mult.
  apply Qmult_le_compat_r; [exact Hle | apply Qlt_le_weak; exact Hpos].
Qed.

Lemma scaled_ge (x : Q) (N k : Z) :
  0 <= k -> (inject_Z N <= x)%Q ->
  (inject_Z (N * 2 ^ k) <= x / / inject_Z (2 ^ k))%Q.
Proof.
  intros Hk Hle. pose proof (inject_Z_pow_pos k Hk) as Hpos.
  unfold Qdiv. rewrite Qinv_involutive, inject_Z_mult.
  apply Qmult_le_compat_r; [exact Hle | apply Qlt_le_weak; exact Hpos].
Qed.

Lemma unscaled (M k : Z) :
  0 <= k -> (inject_Z (M * 2 ^ k) * / inject_Z (2 ^ k) == inject_Z M)%Q.
Proof.
  intros Hk. pose proof (inject_Z_pow_pos k Hk) as Hpos.
  rewrite inject_Z_mult. field. lra.
Qed.

(** Rounding does not cross an integer: below 2^53 in magnitude every
    integer is a binary64 value. *)
Lemma round64_le (x : Q) (N : Z) :
  (Qabs x < inject_Z (2 ^ 53))%Q -> (x <= inject_Z N)%Q ->
  (JS.round64 x <= inject_Z N)%Q.
Proof.
  intros Hsmall Hle. unfold JS.round64.
  destruct (Qeq_bool x 0) eqn:E0.
  - apply Qeq_bool_iff in E0. lra.
  - pose proof (exponent64_small x Hsmall) as He.
    set (e := JS.exponent64 x) in *.
    pose proof (pow2_nonpos e He) as Hp.
    assert (Hk : 0 <= - e) by lia.
    pose proof (inject_Z_pow_pos (- e) Hk) as Hpos.
    assert (Hr : JS.roundHalfEven (x / JS.pow2 e) <= N * 2 ^ (- e)).
    { apply roundHalfEven_le. rewrite Hp. apply scaled_le; assumption. }
    set (m := JS.roundHalfEven (x / JS.pow2 e)) in *. clearbody m.
    rewrite Hp. rewrite <- (unscaled N (- e) Hk).
    apply Qmult_le_compat_r.
    + rewrite <- Zle_Qle. exact Hr.
    + apply Qlt_le_weak, Qinv_lt_0_compat. exact Hpos.
Qed.

Lemma round64_ge (x : Q) (N : Z) :
  (Qabs x < inject_Z (2 ^ 53))%Q -> (inject_Z N <= x)%Q ->
  (inject_Z N <= JS.round64 x)%Q.
Proof.
  intros Hsmall Hle. unfold JS.round64.
  destruct (Qeq_bool x 0) eqn:E0.
  - apply Qeq_bool_iff in E0. lra.
  - pose proof (exponent64_small x Hsmall) as He.
    set (e := JS.exponent64 x) in *.
    pose proof (pow2_nonpos e He) as Hp.
    assert (Hk : 0 <= - e) by lia.
    pose proof (inject_Z_pow_pos (- e) Hk) as Hpos.
    assert (Hr : N * 2 ^ (- e) <= JS.roundHalfEven (x / JS.pow2 e)).
    { apply roundHalfEven_ge. rewrite Hp. apply scaled_ge; assumption. }
    set (m := JS.roundHalfEven (x / JS.pow2 e)) in *. clearbody m.
    rewrite Hp. rewrite <- (unscaled N (- e) Hk).
    apply Qmult_le_compat_r.
    + rewrite <- Zle_Qle. exact Hr.
    + apply Qlt_le_weak, Qinv_lt_0_compat. exact Hpos.
Qed.





(** ** Operator overrides *)

Lemma with_disabled_id (s : GatewayHealthService.State) :
  GatewayHealthService.with_disabled s (GatewayHealthService.disabledGateways s)
  = s.
Proof. destruct s; reflexivity. Qed.



(** X2.  [enableGateway] makes the gateway healthy at every instant,
    whatever was stored for it, and is idempotent; after a
    [disableGateway] that stored a valid Date it leaves the state that
    it leaves without the disable, and this state is the earlier one
    exactly when the gateway had no disabled-until before. *)
Theorem enable_clears (s : GatewayHealthService.State) (gateway : string)
    (minutes : option JS.Number) (now later : Z) :
  let s1 := GatewayHealthService.enableGateway s gateway in
  GatewayHealthService.isGatewayHealthy s1 gateway later = (s1, true)
  /\ GatewayHealthService.enableGateway s1 gateway = s1
  /\ (forall s2,
        GatewayHealthService.disableGateway s gateway minutes now
        = GatewayHealthService.Stored s2 ->
        GatewayHealthService.enableGateway s2 gateway = s1)
  /\ (s1 = s <->
      GatewayHealthService.disabledGateways s !! gateway = None).
Proof.
  intros s1. subst s1. split; [|split; [|split]].
  - rewrite isGatewayHealthy_cases. simpl. rewrite lookup_delete_eq.
    reflexivity.
  - unfold GatewayHealthService.enableGateway,
      GatewayHealthService.with_disabled. simpl.
    rewrite delete_delete_eq. reflexivity.
  - intros s2. unfold GatewayHealthService.disableGateway. cbv zeta.
    destruct (GatewayHealthService.disabledUntilAfter _ now)
      as [d|]; [|discriminate].
    intros [= <-].
    unfold GatewayHealthService.enableGateway,
      GatewayHealthService.with_disabled. simpl.
    rewrite delete_insert_eq. reflexivity.
  - split.
    + intros Heq.
      assert (Hd : GatewayHealthService.disabledGateways
                     (GatewayHealthService.enableGateway s gateway)
                   !! gateway = None) by apply lookup_delete_eq.
      rewrite Heq in Hd. exact Hd.
    + intros Hnone. unfold GatewayHealthService.enableGateway.
      rewrite delete_id by exact Hnone. apply with_disabled_id.
Qed.

(** ** Construction and reset *)

Lemma empty_histories_lookup (cs : list GatewayConfig.t)
    (m : gmap string (list TransactionRecord.t)) (gateway : string) :
  foldl (fun m g => <[GatewayConfig.name g := []]> m) m cs !! gateway
  = if decide (gateway ∈ map GatewayConfig.name cs) then Some []
    else m !! gateway.
Proof.
  revert m. induction cs as [|c cs IH]; intros m; simpl.
  - reflexivity.
  - rewrite IH.
    destruct (decide (gateway ∈ map GatewayConfig.name cs)) as [Hin|Hnin].
    + rewrite decide_True by (right; exact Hin). reflexivity.
    + destruct (decide (gateway = GatewayConfig.name c)) as [->|Hne].
      * rewrite decide_True by left. apply lookup_insert_eq.
      * rewrite decide_False.
        { apply lookup_insert_ne. congruence. }
        intros Hin. apply elem_of_cons in Hin as [?|?]; contradiction.
Qed.

Lemma healthySet_none_disabled (config : list GatewayConfig.t)
    (s : GatewayHealthService.State) (now : Z) :
  GatewayHealthService.disabledGateways s = ∅ ->
  Spec.healthySet config s now
  = map GatewayConfig.name (List.filter GatewayConfig.enabled config).
Proof.
  intros Hempty. unfold Spec.healthySet. f_equal.
  apply List.filter_ext. intros c.
  unfold GatewayHealthService.isGatewayHealthy.
  rewrite Hempty, lookup_empty. simpl. apply andb_true_r.
Qed.

(** X3.  [resetAllStats] empties the history of every configured gateway
    and forgets every disabled-until, of configured and of unknown names
    alike, so that the healthy set is the list of enabled descriptors;
    it keeps the histories recorded under names that are not configured. *)
Theorem reset_all_stats (config : list GatewayConfig.t)
    (s : GatewayHealthService.State) (now : Z) :
  let s1 := GatewayHealthService.resetAllStats config s in
  GatewayHealthService.disabledGateways s1 = ∅
  /\ (forall c, c ∈ config ->
        GatewayHealthService.gatewayTransactions s1 !! GatewayConfig.name c
        = Some []
        /\ GatewayStats.totalRequests
             (GatewayHealthService.getGatewayStats s1 (GatewayConfig.name c) now)
           = 0%nat)
  /\ (forall gateway,
        gateway ∉ map GatewayConfig.name config ->
        GatewayHealthService.gatewayTransactions s1 !! gateway
        = GatewayHealthService.gatewayTransactions s !! gateway)
  /\ snd (GatewayHealthService.getHealthyGateways config s1 now)
     = map GatewayConfig.name (List.filter GatewayConfig.enabled config).
Proof.
  intros s1. split; [reflexivity|]. split; [|split].
  - intros c Hc.
    assert (Hl : GatewayHealthService.gatewayTransactions s1
                 !! GatewayConfig.name c = Some []).
    { subst s1. simpl. rewrite empty_histories_lookup.
      apply decide_True.
      apply list_elem_of_In, in_map, list_elem_of_In. exact Hc. }
    split; [exact Hl|].
    unfold GatewayHealthService.getGatewayStats. rewrite Hl. reflexivity.
  - intros gateway Hnin. subst s1. simpl. rewrite empty_histories_lookup.
    apply decide_False. exact Hnin.
  - rewrite getHealthyGateways_spec.
    apply healthySet_none_disabled. reflexivity.
Qed.

(** X4.  The constructor: every configured gateway starts with an empty
    history, no other name has one, nothing is disabled, and the healthy
    set is the list of enabled descriptors; so [selectGateway] on a
    fresh tracker throws only when no descriptor is enabled. *)
Theorem fresh_tracker (config : list GatewayConfig.t) (now : Z) (rnd : Q) :
  let s := GatewayHealthService.init config in
  (forall gateway,
     GatewayHealthService.gatewayTransactions s !! gateway
     = if decide (gateway ∈ map GatewayConfig.name config) then Some []
       else None)
  /\ GatewayHealthService.disabledGateways s = ∅
  /\ snd (GatewayHealthService.getHealthyGateways config s now)
     = map GatewayConfig.name (List.filter GatewayConfig.enabled config)
  /\ (snd (GatewayService.selectGateway config s now rnd)
      = Throw NoHealthyGateway
      <-> forall c, c ∈ config -> GatewayConfig.enabled c = false).
Proof.
  intros s.
  assert (Hset : Spec.healthySet config s now
                 = map GatewayConfig.name
                       (List.filter GatewayConfig.enabled config))
    by (apply healthySet_none_disabled; reflexivity).
  split; [|split; [reflexivity|split]].
  - intros gateway. subst s. simpl. rewrite empty_histories_lookup.
    rewrite lookup_empty. reflexivity.
  - rewrite getHealthyGateways_spec. exact Hset.
  - pose proof (selectGateway_result config s now rnd) as Hres.
    cbv zeta in Hres. rewrite Hset in Hres. split.
    + intros Hthrow c Hc. rewrite Hthrow in Hres. destruct Hres as [_ Hnil].
      destruct (GatewayConfig.enabled c) eqn:He; [|reflexivity].
      assert (Hin : In c (List.filter GatewayConfig.enabled config)).
      { apply filter_In. split; [apply list_elem_of_In; exact Hc | exact He]. }
      destruct (List.filter GatewayConfig.enabled config); [inversion Hin|].
      discriminate.
    + intros Hoff.
      assert (Hnil : List.filter GatewayConfig.enabled config = []).
      { destruct (List.filter GatewayConfig.enabled config) as [|c l] eqn:E;
          [reflexivity|].
        assert (Hin : In c (List.filter GatewayConfig.enabled config))
          by (rewrite E; left; reflexivity).
        apply filter_In in Hin as [Hin He].
        rewrite (Hoff c) in He by (apply list_elem_of_In; exact Hin).
        discriminate. }
      rewrite Hnil in Hres. simpl in Hres.
      destruct (snd (GatewayService.selectGateway config s now rnd))
        as [sel|e].
      * destruct Hres as [Hin _]. inversion Hin.
      * destruct Hres as [-> _]. reflexivity.
Qed.

(** ** The stable sort *)

Section SortFacts.
Context {A : Type} (key : A -> Z).

Lemma insert_desc_perm (x : A) (l : list A) :
  JS.insert_desc key x l ≡ₚ x :: l.
Proof.
  induction l as [|y l IH]; simpl; [reflexivity|].
  destruct (key y <? key x); [reflexivity|].
  rewrite IH. apply Permutation_swap.
Qed.

Lemma insert_desc_sorted (x : A) (l : list A) :
  StronglySorted (Order.descending key) l ->
  StronglySorted (Order.descending key) (JS.insert_desc key x l).
Proof.
  induction 1 as [|y l Hs IH Hall]; simpl.
  - repeat constructor.
  - destruct (Z.ltb_spec (key y) (key x)) as [Hlt|Hge].
    + constructor; [constructor; assumption|].
      constructor; [unfold Order.descending; lia|].
      eapply Forall_impl; [exact Hall|].
      unfold Order.descending. intros z Hz. simpl in Hz. lia.
    + constructor; [exact IH|].
      rewrite insert_desc_perm. constructor; [exact Hge | exact Hall].
Qed.

Lemma sort_desc_acc (xs acc : list A) :
  StronglySorted (Order.descending key) acc ->
  let r := foldl (fun acc x => JS.insert_desc key x acc) acc xs in
  StronglySorted (Order.descending key) r /\ r ≡ₚ acc ++ xs.
Proof.
  revert acc. induction xs as [|x xs IH]; intros acc Hacc; simpl.
  - rewrite app_nil_r. auto.
  - destruct (IH (JS.insert_desc key x acc)) as [Hs Hp].
    { apply insert_desc_sorted. exact Hacc. }
    split; [exact Hs|].
    rewrite Hp, insert_desc_perm. apply Permutation_middle.
Qed.

Lemma sort_desc_sorted (l : list A) :
  StronglySorted (Order.descending key) (JS.sort_desc key l).
Proof. apply (sort_desc_acc l []). constructor. Qed.

Lemma sort_desc_perm (l : list A) : JS.sort_desc key l ≡ₚ l.
Proof. apply (sort_desc_acc l []). constructor. Qed.

(** The first element after the sort has the largest key. *)
Lemma sort_desc_head (l : list A) :
  match head (JS.sort_desc key l) with
  | None => l = []
  | Some x => x ∈ l /\ forall y, y ∈ l -> key y <= key x
  end.
Proof.
  pose proof (sort_desc_sorted l) as Hs. pose proof (sort_desc_perm l) as Hp.
  destruct (JS.sort_desc key l) as [|x r]; simpl.
  - symmetry in Hp. apply Permutation_nil_r in Hp. exact Hp.
  - split; [rewrite <- Hp; left|].
    intros y Hy. rewrite <- Hp in Hy.
    apply StronglySorted_inv in Hs as [_ Hall].
    apply elem_of_cons in Hy as [->|Hy]; [lia|].
    rewrite Forall_forall in Hall. apply Hall. exact Hy.
Qed.

End SortFacts.

(** ** Reports *)

(** X5.  [lastFailureTime] is absent exactly when no failure lies in the
    window; otherwise it is the timestamp of a failed outcome of the
    window, and no failed outcome of the window is later. *)
Theorem last_failure_time (s : GatewayHealthService.State)
    (gateway : string) (now : Z) :
  let stats := GatewayHealthService.getGatewayStats s gateway now in
  let failed t := Spec.inWindow now t && negb (TransactionRecord.success t) in
  (GatewayStats.lastFailureTime stats = None
   <-> GatewayStats.failureCount stats = 0%nat)
  /\ forall last,
       GatewayStats.lastFailureTime stats = Some last ->
       (exists t, t ∈ Spec.history s gateway /\ failed t = true
                  /\ TransactionRecord.timestamp t = last)
       /\ forall t, t ∈ Spec.history s gateway -> failed t = true ->
                    TransactionRecord.timestamp t <= last.
Proof.
  intros stats failed. subst stats.
  unfold GatewayHealthService.getGatewayStats. cbv zeta.
  fold (Spec.history s gateway).
  cbn [GatewayStats.lastFailureTime GatewayStats.failureCount].
  rewrite filter_filter_and.
  assert (Hfailed : forall t,
    t ∈ List.filter
          (fun x =>
             (TransactionRecord.timestamp x
                >=? now - GatewayHealthService.minutes_ms
                            HEALTH_CHECK_WINDOW_MINUTES)
             && negb (TransactionRecord.success x))
          (Spec.history s gateway)
    <-> t ∈ Spec.history s gateway /\ failed t = true).
  { intros t. rewrite list_elem_of_In, filter_In, <- list_elem_of_In.
    subst failed. simpl. rewrite window_test. reflexivity. }
  pose proof (sort_desc_head TransactionRecord.timestamp
                (List.filter
                   (fun x =>
                      (TransactionRecord.timestamp x
                         >=? now - GatewayHealthService.minutes_ms
                                     HEALTH_CHECK_WINDOW_MINUTES)
                      && negb (TransactionRecord.success x))
                   (Spec.history s gateway))) as Hhead.
  destruct (head _) as [x|]; simpl.
  - destruct Hhead as [Hin Hmax]. split.
    + split; [discriminate|]. intros Hzero.
      apply length_zero_iff_nil in Hzero. rewrite Hzero in Hin. inversion Hin.
    + intros last [= <-]. split.
      * exists x. apply Hfailed in Hin. tauto.
      * intros t Ht Hf. apply Hmax. apply Hfailed. auto.
  - rewrite Hhead. split; [split; reflexivity | discriminate].
Qed.

Lemma getGatewayHealth_state (s : GatewayHealthService.State)
    (gateway : string) (now : Z) :
  fst (GatewayHealthService.getGatewayHealth s gateway now)
  = fst (GatewayHealthService.isGatewayHealthy s gateway now).
Proof.
  unfold GatewayHealthService.getGatewayHealth.
  destruct (GatewayHealthService.isGatewayHealthy s gateway now).
  reflexivity.
Qed.

Lemma getGatewayHealth_ext (s s' : GatewayHealthService.State)
    (gateway : string) (now : Z) :
  GatewayHealthService.gatewayTransactions s' !! gateway
  = GatewayHealthService.gatewayTransactions s !! gateway ->
  GatewayHealthService.disabledGateways s' !! gateway
  = GatewayHealthService.disabledGateways s !! gateway ->
  snd (GatewayHealthService.getGatewayHealth s' gateway now)
  = snd (GatewayHealthService.getGatewayHealth s gateway now).
Proof.
  intros Ht Hd.
  unfold GatewayHealthService.getGatewayHealth,
    GatewayHealthService.getGatewayStats,
    GatewayHealthService.isGatewayHealthy.
  rewrite Ht, Hd.
  destruct (GatewayHealthService.disabledGateways s !! gateway) as [d|];
    [destruct (now >? d)|]; reflexivity.
Qed.

(** A read of one gateway changes nothing that a read of another one
    looks at. *)
Lemma isGatewayHealthy_frame (s : GatewayHealthService.State)
    (read other : string) (now : Z) :
  let s1 := fst (GatewayHealthService.isGatewayHealthy s read now) in
  GatewayHealthService.gatewayTransactions s1
  = GatewayHealthService.gatewayTransactions s
  /\ (other <> read ->
      GatewayHealthService.disabledGateways s1 !! other
      = GatewayHealthService.disabledGateways s !! other).
Proof.
  intros s1. subst s1. rewrite isGatewayHealthy_cases.
  destruct (GatewayHealthService.disabledGateways s !! read) as [d|];
    [destruct (now <=? d)|]; simpl; split; try reflexivity.
  intros Hne. apply lookup_delete_ne. congruence.
Qed.

Lemma mapHealth_spec (cs : list GatewayConfig.t)
    (s s0 : GatewayHealthService.State) (now : Z) :
  NoDup (map GatewayConfig.name cs) ->
  GatewayHealthService.gatewayTransactions s
  = GatewayHealthService.gatewayTransactions s0 ->
  (forall c, c ∈ cs ->
     GatewayHealthService.disabledGateways s !! GatewayConfig.name c
     = GatewayHealthService.disabledGateways s0 !! GatewayConfig.name c) ->
  snd (GatewayHealthService.mapHealth cs s now)
  = map (fun c =>
           snd (GatewayHealthService.getGatewayHealth
                  s0 (GatewayConfig.name c) now))
        cs.
Proof.
  revert s. induction cs as [|c cs IH]; intros s Hnodup Ht Hd;
    [reflexivity|].
  simpl in Hnodup. apply NoDup_cons in Hnodup as [Hfresh Hnodup].
  simpl.
  pose proof (getGatewayHealth_state s (GatewayConfig.name c) now) as Hstate.
  pose proof (getGatewayHealth_ext s0 s (GatewayConfig.name c) now) as Hrep.
  destruct (GatewayHealthService.getGatewayHealth s (GatewayConfig.name c) now)
    as [s1 report].
  simpl in Hstate, Hrep.
  specialize (IH s1 Hnodup).
  destruct (GatewayHealthService.mapHealth cs s1 now) as [s2 reports].
  simpl in *. f_equal.
  - apply Hrep; [rewrite Ht; reflexivity | apply Hd; left].
  - apply IH.
    + rewrite Hstate, <- Ht. apply isGatewayHealthy_frame. exact "".
    + intros c' Hc'. rewrite Hstate, <- Hd by (right; exact Hc').
      apply isGatewayHealthy_frame. intros Heq. apply Hfresh.
      rewrite <- Heq. apply list_elem_of_In, in_map, list_elem_of_In.
      exact Hc'.
Qed.

Lemma mapHealth_names (cs : list GatewayConfig.t)
    (s : GatewayHealthService.State) (now : Z) :
  map GatewayHealth.name (snd (GatewayHealthService.mapHealth cs s now))
  = map GatewayConfig.name cs.
Proof.
  revert s. induction cs as [|c cs IH]; intros s; [reflexivity|]. simpl.
  unfold GatewayHealthService.getGatewayHealth.
  destruct (GatewayHealthService.isGatewayHealthy s (GatewayConfig.name c) now)
    as [s1 ok].
  specialize (IH s1).
  destruct (GatewayHealthService.mapHealth cs s1 now) as [s2 reports].
  simpl in *. f_equal. exact IH.
Qed.

(** X6.  [getAllGatewayHealth] returns one report per descriptor, in the
    configured order and under the descriptors' names.  When the names
    are pairwise different, each report is the one [getGatewayHealth]
    gives for that gateway on the state before the call. *)
Theorem all_gateway_health (config : list GatewayConfig.t)
    (s : GatewayHealthService.State) (now : Z) :
  let reports := snd (GatewayHealthService.getAllGatewayHealth config s now) in
  map GatewayHealth.name reports = map GatewayConfig.name config
  /\ (NoDup (map GatewayConfig.name config) ->
      reports
      = map (fun c =>
               snd (GatewayHealthService.getGatewayHealth
                      s (GatewayConfig.name c) now))
            config).
Proof.
  intros reports. subst reports.
  unfold GatewayHealthService.getAllGatewayHealth. split.
  - apply mapHealth_names.
  - intros Hnodup. apply mapHealth_spec; auto.
Qed.

(** The shipped descriptors, after a failure recorded for payu and with
    razorpay disabled: the three reports are the three single reads. *)
Lemma all_gateway_health_witness :
  let s :=
    Sample.disable
      (GatewayHealthService.recordTransaction
         (GatewayHealthService.init GATEWAY_CONFIG) "payu" false 0)
      "razorpay" 30 0 in
  NoDup (map GatewayConfig.name GATEWAY_CONFIG)
  /\ snd (GatewayHealthService.getAllGatewayHealth GATEWAY_CONFIG s 1000)
     = map (fun c =>
              snd (GatewayHealthService.getGatewayHealth
                     s (GatewayConfig.name c) 1000))
           GATEWAY_CONFIG.
Proof.
  intros s.
  assert (Hnodup : NoDup (map GatewayConfig.name GATEWAY_CONFIG)).
  { apply (bool_decide_unpack _). vm_compute. exact I. }
  split; [exact Hnodup|].
  apply (all_gateway_health GATEWAY_CONFIG s 1000). exact Hnodup.
Defined.

(** ** Counting and pruning *)

Lemma now_inWindow (now : Z) (success : bool) :
  Spec.inWindow now (TransactionRecord.mk now success) = true.
Proof. unfold Spec.inWindow, Spec.window_ms. simpl. apply Z.leb_le. lia. Qed.

Lemma countIf_app {A : Type} (p : A -> bool) (l1 l2 : list A) :
  Spec.countIf p (l1 ++ l2) = (Spec.countIf p l1 + Spec.countIf p l2)%nat.
Proof.
  induction l1 as [|x l1 IH]; simpl; [reflexivity|].
  destruct (p x); simpl; rewrite IH; reflexivity.
Qed.

(** X7.  A recorded outcome is counted at once: read at the instant of
    the recording, the statistics of the gateway show one request more,
    and one success more or one failure more according to the flag. *)
Theorem record_counts (s : GatewayHealthService.State) (gateway : string)
    (success : bool) (now : Z) :
  let before := GatewayHealthService.getGatewayStats s gateway now in
  let after :=
    GatewayHealthService.getGatewayStats
      (GatewayHealthService.recordTransaction s gateway success now)
      gateway now in
  GatewayStats.totalRequests after = S (GatewayStats.totalRequests before)
  /\ GatewayStats.successCount after
     = (GatewayStats.successCount before + if success then 1 else 0)%nat
  /\ GatewayStats.failureCount after
     = (GatewayStats.failureCount before + if success then 0 else 1)%nat.
Proof.
  intros before after.
  destruct (getGatewayStats_counts s gateway now) as (Ht & Hs & Hf).
  destruct (getGatewayStats_counts
              (GatewayHealthService.recordTransaction s gateway success now)
              gateway now) as (Ht' & Hs' & Hf').
  subst before after. cbv zeta in Ht, Hs, Hf, Ht', Hs', Hf'.
  rewrite Ht', Hs', Hf', Ht, Hs, Hf.
  rewrite recordTransaction_history, !countIf_app. simpl.
  rewrite now_inWindow. destruct success; simpl; lia.
Qed.

(** The breaker's test on two counts, in whole numbers. *)
Lemma threshold_test (successes total : nat) :
  (0 < total)%nat ->
  JS.Qlt_bool (JS.ratio successes total) SUCCESS_RATE_THRESHOLD
  = (10 * successes <? 9 * total)%nat.
Proof.
  intros Hpos.
  destruct (Nat.ltb_spec (10 * successes) (9 * total)) as [Hlt|Hge].
  - apply Qlt_bool_iff. unfold JS.ratio, SUCCESS_RATE_THRESHOLD.
    apply Qlt_shift_div_r.
    + change 0%Q with (inject_Z 0). rewrite <- Zlt_Qlt. lia.
    + unfold Qlt, Qmult, inject_Z. simpl. lia.
  - destruct (JS.Qlt_bool _ _) eqn:E; [|reflexivity].
    apply Qlt_bool_iff in E. exfalso.
    unfold JS.ratio, SUCCESS_RATE_THRESHOLD in E.
    apply (Qlt_not_le _ _ E). apply Qle_shift_div_l.
    + change 0%Q with (inject_Z 0). rewrite <- Zlt_Qlt. lia.
    + unfold Qle, Qmult, inject_Z. simpl. lia.
Qed.

(** X8.  The breaker in whole numbers.  [recordTransaction] sets the
    gateway's disabled-until, to [now] plus 30 minutes, exactly when the
    outcome is a failure and the window, the new outcome included, holds
    at least 5 outcomes of which fewer than nine in ten succeeded; in
    every other case, a success rate of 90% or more among them, it
    leaves all disabled-until timestamps as they were. *)
Theorem breaker_in_counts (s : GatewayHealthService.State)
    (gateway : string) (success : bool) (now : Z) :
  let s1 := GatewayHealthService.recordTransaction s gateway success now in
  let stats := GatewayHealthService.getGatewayStats s1 gateway now in
  let total := GatewayStats.totalRequests stats in
  let successes := GatewayStats.successCount stats in
  GatewayHealthService.disabledGateways s1
  = if negb success && (5 <=? total)%nat
       && (10 * successes <? 9 * total)%nat
    then <[gateway := now + 1800000]>
           (GatewayHealthService.disabledGateways s)
    else GatewayHealthService.disabledGateways s.
Proof.
  intros s1 stats total successes.
  pose proof (recordTransaction_disabled s gateway success now) as Hd.
  cbv zeta in Hd. fold s1 in Hd. fold stats in Hd.
  fold total successes in Hd. rewrite Hd.
  change MIN_REQUESTS_FOR_HEALTH_CHECK with 5%nat.
  change (now + Spec.cooldown_ms) with (now + 1800000).
  destruct success; cbn [negb andb]; [reflexivity|].
  destruct (Nat.leb_spec 5 total) as [Hmin|Hfew]; cbn [andb]; [|reflexivity].
  rewrite threshold_test by lia. reflexivity.
Qed.

(** X9.  A gateway tripped by a recorded failure is not selected: from
    the recording up to and including [now] plus 30 minutes,
    [selectGateway] returns another gateway or throws. *)
Theorem tripped_gateway_not_selected (config : list GatewayConfig.t)
    (s : GatewayHealthService.State) (gateway : string) (now later : Z)
    (rnd : Q) :
  let s1 := GatewayHealthService.recordTransaction s gateway false now in
  let stats := GatewayHealthService.getGatewayStats s1 gateway now in
  (5 <= GatewayStats.totalRequests stats)%nat ->
  (10 * GatewayStats.successCount stats
   < 9 * GatewayStats.totalRequests stats)%nat ->
  later <= now + 1800000 ->
  (gateway ∉ snd (GatewayHealthService.getHealthyGateways config s1 later))
  /\ forall selection,
       snd (GatewayService.selectGateway config s1 later rnd) = Ok selection ->
       GatewaySelectionResult.gateway selection <> gateway.
Proof.
  intros s1 stats Hmin Hrate Hlater.
  assert (Hd : GatewayHealthService.disabledGateways s1 !! gateway
               = Some (now + 1800000)).
  { pose proof (recordTransaction_disabled s gateway false now) as Hb.
    cbv zeta in Hb. fold s1 in Hb. fold stats in Hb.
    change MIN_REQUESTS_FOR_HEALTH_CHECK with 5%nat in Hb.
    rewrite threshold_test in Hb by lia.
    apply Nat.leb_le in Hmin. apply Nat.ltb_lt in Hrate.
    rewrite Hmin, Hrate in Hb. cbn [negb andb] in Hb.
    rewrite Hb. apply lookup_insert_eq. }
  assert (Hout : gateway ∉ Spec.healthySet config s1 later).
  { intros Hin. apply healthySet_circuit in Hin as (c & _ & _ & _ & Hpast).
    specialize (Hpast _ Hd). lia. }
  split; [rewrite getHealthyGateways_spec; exact Hout|].
  intros selection Hsel Heq.
  pose proof (selectGateway_result config s1 later rnd) as Hres.
  cbv zeta in Hres. rewrite Hsel in Hres. destruct Hres as [Hin _].
  rewrite Heq in Hin. contradiction.
Qed.

(** One success and four failures trip razorpay at time 4000; ten
    minutes later the draw 1/10, which selects razorpay on a fresh
    tracker, selects payu. *)
Lemma tripped_gateway_not_selected_witness :
  let s :=
    Spec.recordAll (GatewayHealthService.init GATEWAY_CONFIG) "razorpay"
      [(true, 0); (false, 1000); (false, 2000); (false, 3000)] in
  let s1 := GatewayHealthService.recordTransaction s "razorpay" false 4000 in
  (exists reason,
     snd (GatewayService.selectGateway GATEWAY_CONFIG s1 604000 (1 # 10))
     = Ok (GatewaySelectionResult.mk "payu" reason))
  /\ forall selection,
       snd (GatewayService.selectGateway GATEWAY_CONFIG s1 604000 (1 # 10))
       = Ok selection ->
       GatewaySelectionResult.gateway selection <> "razorpay".
Proof.
  intros s s1. split; [eexists; vm_compute; reflexivity|].
  apply (tripped_gateway_not_selected GATEWAY_CONFIG s "razorpay" 4000 604000
           (1 # 10)).
  - vm_compute. lia.
  - vm_compute. lia.
  - lia.
Defined.

Lemma filter_filter_geb (c1 c2 : Z) (l : list TransactionRecord.t) :
  List.filter (fun t => TransactionRecord.timestamp t >=? c2)
    (List.filter (fun t => TransactionRecord.timestamp t >=? c1) l)
  = List.filter (fun t => TransactionRecord.timestamp t >=? Z.max c1 c2) l.
Proof.
  rewrite filter_filter_and. apply List.filter_ext. intros t.
  rewrite !Z.geb_leb.
  destruct (Z.leb_spec c1 (TransactionRecord.timestamp t)),
    (Z.leb_spec c2 (TransactionRecord.timestamp t)),
    (Z.leb_spec (Z.max c1 c2) (TransactionRecord.timestamp t));
    simpl; try reflexivity; lia.
Qed.

(** X10.  Pruning: two prunings amount to one at the later of the two
    instants (so pruning twice at one instant is pruning once); no
    disabled-until changes; no history appears or disappears; what is
    kept of a history are, in their order, its records not older than
    30 minutes. *)
Theorem cleanup_composes (s : GatewayHealthService.State) (t1 t2 : Z) :
  GatewayHealthService.cleanupOldRecords
    (GatewayHealthService.cleanupOldRecords s t1) t2
  = GatewayHealthService.cleanupOldRecords s (Z.max t1 t2)
  /\ GatewayHealthService.disabledGateways
       (GatewayHealthService.cleanupOldRecords s t1)
     = GatewayHealthService.disabledGateways s
  /\ forall gateway,
       GatewayHealthService.gatewayTransactions
         (GatewayHealthService.cleanupOldRecords s t1) !! gateway
       = List.filter
           (fun t => t1 - 1800000 <=? TransactionRecord.timestamp t)
         <$> GatewayHealthService.gatewayTransactions s !! gateway.
Proof.
  split; [|split; [reflexivity|]].
  - unfold GatewayHealthService.cleanupOldRecords,
      GatewayHealthService.with_transactions. simpl. f_equal.
    rewrite <- map_fmap_compose. apply map_fmap_ext.
    intros gateway l _. simpl. rewrite filter_filter_geb.
    replace (Z.max
               (t1 - GatewayHealthService.minutes_ms
                       (HEALTH_CHECK_WINDOW_MINUTES * 2))
               (t2 - GatewayHealthService.minutes_ms
                       (HEALTH_CHECK_WINDOW_MINUTES * 2)))
      with (Z.max t1 t2
            - GatewayHealthService.minutes_ms (HEALTH_CHECK_WINDOW_MINUTES * 2))
      by lia.
    reflexivity.
  - intros gateway. unfold GatewayHealthService.cleanupOldRecords. simpl.
    rewrite lookup_fmap.
    destruct (GatewayHealthService.gatewayTransactions s !! gateway);
      [|reflexivity].
    simpl. f_equal. apply List.filter_ext. intros t.
    rewrite Z.geb_leb. reflexivity.
Qed.

(** * Further properties of the router *)

Lemma isValidGateway_iff (config : list GatewayConfig.t) (n : string) :
  GatewayService.isValidGateway config n = true
  <-> n ∈ map GatewayConfig.name config.
Proof.
  unfold GatewayService.isValidGateway.
  rewrite existsb_exists, list_elem_of_In, in_map_iff.
  split; intros (c & H1 & H2); exists c.
  - apply String.eqb_eq in H2. auto.
  - split; [exact H2 | apply String.eqb_eq; exact H1].
Qed.

(** X11.  [isValidGateway] answers true exactly for the names of the
    configured descriptors, and every gateway that [selectGateway]
    returns passes it. *)
Theorem valid_gateway (config : list GatewayConfig.t)
    (h : GatewayHealthService.State) (now : Z) (rnd : Q) (n : string) :
  (GatewayService.isValidGateway config n = true
   <-> exists c, c ∈ config /\ GatewayConfig.name c = n)
  /\ forall selection,
       snd (GatewayService.selectGateway config h now rnd) = Ok selection ->
       GatewayService.isValidGateway
         config (GatewaySelectionResult.gateway selection) = true.
Proof.
  split.
  - rewrite isValidGateway_iff, list_elem_of_In, in_map_iff.
    split; intros (c & H1 & H2); exists c;
      [rewrite list_elem_of_In | rewrite <- list_elem_of_In]; auto.
  - intros selection Hsel.
    pose proof (selectGateway_result config h now rnd) as Hres.
    cbv zeta in Hres. rewrite Hsel in Hres.
    destruct Hres as [_ (c & Hc & Hn & _)].
    apply isValidGateway_iff. rewrite <- Hn.
    apply list_elem_of_In, in_map, list_elem_of_In. exact Hc.
Qed.

Lemma afterRead_cons (c : GatewayConfig.t) (cs : list GatewayConfig.t)
    (now : Z) (gateway : string) (d : Z) :
  Router.afterRead (c :: cs) now gateway d
  = if (d <? now) && GatewayConfig.enabled c
       && String.eqb (GatewayConfig.name c) gateway
    then None else Router.afterRead cs now gateway d.
Proof.
  unfold Router.afterRead. simpl.
  destruct (d <? now), (GatewayConfig.enabled c),
    (String.eqb (GatewayConfig.name c) gateway); reflexivity.
Qed.

Lemma filterHealthy_state (cs : list GatewayConfig.t)
    (s : GatewayHealthService.State) (now : Z) :
  let s1 := fst (GatewayHealthService.filterHealthy cs s now) in
  GatewayHealthService.gatewayTransactions s1
  = GatewayHealthService.gatewayTransactions s
  /\ forall gateway,
       GatewayHealthService.disabledGateways s1 !! gateway
       = GatewayHealthService.disabledGateways s !! gateway
           ≫= Router.afterRead cs now gateway.
Proof.
  revert s. induction cs as [|c cs IH]; intros s; simpl.
  - split; [reflexivity|]. intros gateway.
    destruct (GatewayHealthService.disabledGateways s !! gateway) as [d|];
      [|reflexivity].
    simpl. unfold Router.afterRead. simpl. rewrite andb_false_r. reflexivity.
  - destruct (GatewayConfig.enabled c) eqn:He.
    2: { destruct (IH s) as [Ht Hd]. split; [exact Ht|].
         intros gateway. rewrite Hd.
         destruct (GatewayHealthService.disabledGateways s !! gateway) as [d|];
           [|reflexivity].
         simpl. rewrite afterRead_cons, He, andb_false_r. reflexivity. }
    pose proof (isGatewayHealthy_cases s (GatewayConfig.name c) now) as Hc.
    destruct (GatewayHealthService.isGatewayHealthy s (GatewayConfig.name c) now)
      as [s1 ok].
    destruct (IH s1) as [Ht Hd].
    destruct (GatewayHealthService.filterHealthy cs s1 now) as [s2 names].
    simpl in *.
    assert (Hs1 :
      GatewayHealthService.gatewayTransactions s1
      = GatewayHealthService.gatewayTransactions s
      /\ forall gateway,
           GatewayHealthService.disabledGateways s1 !! gateway
           = GatewayHealthService.disabledGateways s !! gateway
               ≫= fun d =>
                    if (d <? now) && String.eqb (GatewayConfig.name c) gateway
                    then None else Some d).
    { destruct (GatewayHealthService.disabledGateways s
                !! GatewayConfig.name c) as [d0|] eqn:E0.
      - destruct (Z.leb_spec now d0) as [Hle|Hgt]; injection Hc as -> _.
        + split; [reflexivity|]. intros gateway.
          destruct (GatewayHealthService.disabledGateways s !! gateway)
            as [d|] eqn:E; [|reflexivity].
          simpl. destruct (String.eqb_spec (GatewayConfig.name c) gateway)
            as [Heq|Hne]; [|rewrite andb_false_r; reflexivity].
          rewrite Heq, E in E0. injection E0 as ->.
          destruct (Z.ltb_spec d0 now); [lia | reflexivity].
        + split; [reflexivity|]. intros gateway. simpl.
          destruct (String.eqb_spec (GatewayConfig.name c) gateway)
            as [Heq|Hne].
          * rewrite <- Heq, lookup_delete_eq, E0. simpl.
            destruct (Z.ltb_spec d0 now); [reflexivity | lia].
          * rewrite lookup_delete_ne by exact Hne.
            destruct (GatewayHealthService.disabledGateways s !! gateway);
              [|reflexivity].
            simpl. rewrite andb_false_r. reflexivity.
      - injection Hc as -> _. split; [reflexivity|]. intros gateway.
        destruct (GatewayHealthService.disabledGateways s !! gateway)
          as [d|] eqn:E; [|reflexivity].
        simpl. destruct (String.eqb_spec (GatewayConfig.name c) gateway)
          as [Heq|Hne]; [|rewrite andb_false_r; reflexivity].
        rewrite Heq in E0. congruence. }
    destruct Hs1 as [Ht1 Hd1].
    split; [congruence|]. intros gateway. rewrite Hd, Hd1.
    destruct (GatewayHealthService.disabledGateways s !! gateway) as [d|];
      [|reflexivity].
    simpl. rewrite afterRead_cons, He, andb_true_r.
    destruct ((d <? now) && String.eqb (GatewayConfig.name c) gateway);
      reflexivity.
Qed.

Lemma State_eq (s s' : GatewayHealthService.State) :
  GatewayHealthService.gatewayTransactions s
  = GatewayHealthService.gatewayTransactions s' ->
  GatewayHealthService.disabledGateways s
  = GatewayHealthService.disabledGateways s' ->
  s = s'.
Proof. destruct s, s'; simpl; intros -> ->; reflexivity. Qed.

(** X12.  What [selectGateway] does to the tracker: it touches no
    history; of the stored disabled-until timestamps it removes exactly
    those that have elapsed and belong to an enabled descriptor, which
    changes nobody's verdict at that instant; and when it throws it
    leaves the tracker as it found it. *)
Theorem select_state_effect (config : list GatewayConfig.t)
    (h : GatewayHealthService.State) (now : Z) (rnd : Q) :
  let r := GatewayService.selectGateway config h now rnd in
  GatewayHealthService.gatewayTransactions (fst r)
  = GatewayHealthService.gatewayTransactions h
  /\ (forall gateway,
        GatewayHealthService.disabledGateways (fst r) !! gateway
        = GatewayHealthService.disabledGateways h !! gateway
            ≫= Router.afterRead config now gateway)
  /\ (forall gateway,
        snd (GatewayHealthService.isGatewayHealthy (fst r) gateway now)
        = snd (GatewayHealthService.isGatewayHealthy h gateway now))
  /\ (forall e, snd r = Throw e -> fst r = h).
Proof.
  intros r.
  assert (Hfst : fst r = fst (GatewayHealthService.filterHealthy config h now)).
  { subst r. destruct (selectGateway_cases config h now rnd) as [_ ->].
    unfold GatewayService.getHealthyGatewayConfigs,
      GatewayHealthService.getHealthyGateways.
    destruct (GatewayHealthService.filterHealthy config h now). reflexivity. }
  destruct (filterHealthy_state config h now) as [Ht Hd].
  cbv zeta in Ht, Hd. rewrite <- Hfst in Ht, Hd.
  split; [exact Ht|]. split; [exact Hd|]. split.
  - intros gateway. rewrite Hfst. apply filterHealthy_spec.
  - intros e He. apply State_eq; [exact Ht|].
    pose proof (selectGateway_result config h now rnd) as Hres.
    cbv zeta in Hres. fold r in Hres. rewrite He in Hres.
    destruct Hres as [_ Hempty].
    apply map_eq. intros gateway. rewrite Hd.
    destruct (GatewayHealthService.disabledGateways h !! gateway)
      as [d|] eqn:E; [|reflexivity].
    simpl. unfold Router.afterRead.
    destruct (Z.ltb_spec d now) as [Hlt|Hge]; [|reflexivity]. simpl.
    destruct (existsb _ config) eqn:Ex; [|reflexivity].
    exfalso. apply existsb_exists in Ex as (c & Hc & Hok).
    apply andb_true_iff in Hok as [Hen Hname].
    apply String.eqb_eq in Hname.
    assert (Hin : gateway ∈ Spec.healthySet config h now).
    { apply healthySet_circuit. exists c.
      rewrite list_elem_of_In. repeat split; try assumption.
      intros d' Hd'. rewrite E in Hd'. injection Hd' as <-. exact Hlt. }
    rewrite Hempty in Hin. inversion Hin.
Qed.

(** ** Intervals of the walk *)

Lemma foldl_weight_le (l : list GatewayConfig.t) (c : Q) :
  Forall (fun g => (0 <= GatewayConfig.weight g)%Q) l ->
  (c <= foldl (fun sum g => sum + GatewayConfig.weight g)%Q c l)%Q.
Proof.
  revert c. induction l as [|g l IH]; intros c Hall; simpl; [lra|].
  apply Forall_cons in Hall as [Hg Hall].
  specialize (IH (c + GatewayConfig.weight g)%Q Hall). lra.
Qed.

Lemma walk_stops (random c : Q) (pre post : list GatewayConfig.t)
    (g : GatewayConfig.t) :
  Forall (fun p => (0 <= GatewayConfig.weight p)%Q) pre ->
  (pre <> [] ->
   (foldl (fun sum p => sum + GatewayConfig.weight p)%Q c pre < random)%Q) ->
  (random
   <= foldl (fun sum p => sum + GatewayConfig.weight p)%Q c pre
      + GatewayConfig.weight g)%Q ->
  GatewayService.walk random c (pre ++ g :: post) = Some g.
Proof.
  revert c. induction pre as [|p pre IH]; intros c Hall Hlow Hhigh; simpl.
  - simpl in Hhigh. apply Qle_bool_iff in Hhigh. rewrite Hhigh. reflexivity.
  - apply Forall_cons in Hall as [Hp Hall]. simpl in Hlow, Hhigh.
    specialize (Hlow ltac:(discriminate)).
    pose proof (foldl_weight_le pre (c + GatewayConfig.weight p)%Q Hall) as Hle.
    destruct (Qle_bool random (c + GatewayConfig.weight p)) eqn:E.
    + apply Qle_bool_iff in E. lra.
    + apply IH; [exact Hall | intros _; exact Hlow | exact Hhigh].
Qed.

Lemma walk_stopped (random c : Q) (gateways : list GatewayConfig.t)
    (g : GatewayConfig.t) :
  GatewayService.walk random c gateways = Some g ->
  exists pre post,
    gateways = pre ++ g :: post
    /\ (pre <> [] ->
        (foldl (fun sum p => sum + GatewayConfig.weight p)%Q c pre < random)%Q)
    /\ (random
        <= foldl (fun sum p => sum + GatewayConfig.weight p)%Q c pre
           + GatewayConfig.weight g)%Q.
Proof.
  revert c. induction gateways as [|p gateways IH]; intros c; simpl;
    [discriminate|].
  destruct (Qle_bool random (c + GatewayConfig.weight p)) eqn:E.
  - intros [= ->]. exists [], gateways. split; [reflexivity|].
    split; [congruence|]. simpl. apply Qle_bool_iff. exact E.
  - intros Hw. destruct (IH _ Hw) as (pre & post & -> & Hlow & Hhigh).
    exists (p :: pre), post. split; [reflexivity|]. simpl.
    split; [|exact Hhigh].
    intros _. destruct pre as [|q pre]; [|apply Hlow; discriminate].
    simpl. apply Qnot_le_lt. intros Hle. apply Qle_bool_iff in Hle.
    congruence.
Qed.

(** X13.  The interval rule.  With healthy gateways [pre ++ g :: post]
    in configured order, weights in [pre] not negative, and [random]
    the product [Math.random() * totalWeight] as the multiplication
    rounds it: if [random] is above the
    sum of the weights before [g] (a condition that falls away when [g]
    comes first) and at most that sum plus the weight of [g], then
    [selectGateway] returns [g].  Conversely, whenever the walk stops at
    a gateway, [random] lies in such an interval of that gateway. *)
Theorem walk_interval (config : list GatewayConfig.t)
    (h : GatewayHealthService.State) (now : Z) (rnd : Q)
    (pre post : list GatewayConfig.t) (g : GatewayConfig.t) :
  let healthy := snd (GatewayService.getHealthyGatewayConfigs config h now) in
  let random := JS.round64 (rnd * Spec.totalWeight healthy) in
  healthy = pre ++ g :: post ->
  (Forall (fun p => (0 <= GatewayConfig.weight p)%Q) pre ->
   (pre <> [] -> (Spec.totalWeight pre < random)%Q) ->
   (random <= Spec.totalWeight pre + GatewayConfig.weight g)%Q ->
   exists reason,
     snd (GatewayService.selectGateway config h now rnd)
     = Ok (GatewaySelectionResult.mk (GatewayConfig.name g) reason))
  /\ (forall g',
        GatewayService.walk random 0 healthy = Some g' ->
        exists pre' post',
          healthy = pre' ++ g' :: post'
          /\ (pre' <> [] -> (Spec.totalWeight pre' < random)%Q)
          /\ (random <= Spec.totalWeight pre' + GatewayConfig.weight g')%Q).
Proof.
  intros healthy random Hsplit. split.
  - intros Hall Hlow Hhigh.
    assert (Hwalk : GatewayService.walk random 0 healthy = Some g).
    { rewrite Hsplit. apply walk_stops; assumption. }
    destruct (selectGateway_cases config h now rnd) as [Hres _].
    cbv zeta in Hres. fold healthy in Hres. fold random in Hres.
    rewrite Hres. clear Hres.
    destruct healthy as [|first rest]; [destruct pre; discriminate|].
    unfold GatewayService.selectAmong. rewrite Hwalk. eauto.
  - intros g' Hwalk. apply walk_stopped in Hwalk. exact Hwalk.
Qed.

(** The shipped weights 50, 30, 20, all healthy, and the draw 0.8, the
    number 3602879701896397 / 2^52: the exact product lies above 80
    and rounds to [random = 80], which is above 50 and at most 80, and
    payu is selected. *)
Lemma walk_interval_witness :
  let h := GatewayHealthService.init GATEWAY_CONFIG in
  let razorpay := GatewayConfig.mk "razorpay" 50 true in
  let payu := GatewayConfig.mk "payu" 30 true in
  let cashfree := GatewayConfig.mk "cashfree" 20 true in
  let rnd := (3602879701896397 # 4503599627370496)%Q in
  (80 < rnd * Spec.totalWeight GATEWAY_CONFIG)%Q
  /\ (JS.round64 (rnd * Spec.totalWeight GATEWAY_CONFIG) == 80)%Q
  /\ exists reason,
       snd (GatewayService.selectGateway GATEWAY_CONFIG h 0 rnd)
       = Ok (GatewaySelectionResult.mk "payu" reason).
Proof.
  intros h razorpay payu cashfree rnd.
  split; [vm_compute; reflexivity|]. split; [vm_compute; reflexivity|].
  destruct (walk_interval GATEWAY_CONFIG h 0 rnd
              [razorpay] [cashfree] payu) as [Hsel _].
  - vm_compute. reflexivity.
  - apply Hsel.
    + repeat constructor. vm_compute. discriminate.
    + intros _. vm_compute. reflexivity.
    + vm_compute. discriminate.
Defined.

(** X29.  The draw stays within the total weight.  When the total
    healthy weight [W] is a whole number below 2^53, as for every
    subset of the shipped weights, and [Math.random()] lies in
    [[0, 1)], the rounded product [random] lies in [[0, W]]: the walk
    stops at a healthy gateway, which is the one returned, and the
    branch that takes [healthyGateways[0]] is not reached. *)
Theorem draw_within_total (config : list GatewayConfig.t)
    (h : GatewayHealthService.State) (now : Z) (rnd : Q) (w : Z) :
  let healthy := snd (GatewayService.getHealthyGatewayConfigs config h now) in
  let random := JS.round64 (rnd * Spec.totalWeight healthy) in
  healthy <> [] ->
  (Spec.totalWeight healthy == inject_Z w)%Q -> 0 <= w < 2 ^ 53 ->
  (0 <= rnd < 1)%Q ->
  (0 <= random <= Spec.totalWeight healthy)%Q
  /\ exists g reason,
       GatewayService.walk random 0 healthy = Some g
       /\ g ∈ healthy
       /\ snd (GatewayService.selectGateway config h now rnd)
          = Ok (GatewaySelectionResult.mk (GatewayConfig.name g) reason).
Proof.
  intros healthy random Hne HW Hw [Hrnd0 Hrnd1].
  assert (HW0 : (0 <= inject_Z w)%Q).
  { change 0%Q with (inject_Z 0). rewrite <- Zle_Qle. lia. }
  assert (Hprod : (0 <= rnd * Spec.totalWeight healthy <= inject_Z w)%Q).
  { rewrite HW. split.
    - apply Qmult_le_0_compat; assumption.
    - rewrite <- (Qmult_1_l (inject_Z w)) at 2.
      apply Qmult_le_compat_r; [apply Qlt_le_weak|]; assumption. }
  assert (Hsmall :
    (Qabs (rnd * Spec.totalWeight healthy) < inject_Z (2 ^ 53))%Q).
  { rewrite Qabs_pos by apply Hprod.
    apply Qle_lt_trans with (inject_Z w); [apply Hprod|].
    rewrite <- Zlt_Qlt. lia. }
  assert (Hrange : (0 <= random <= Spec.totalWeight healthy)%Q).
  { subst random. split.
    - apply (round64_ge _ 0 Hsmall). apply Hprod.
    - rewrite HW at 2. apply (round64_le _ w Hsmall). apply Hprod. }
  split; [exact Hrange|].
  pose proof (walk_finds random healthy (proj2 Hrange) Hne) as Hstops.
  destruct (selectGateway_cases config h now rnd) as [Hres _].
  cbv zeta in Hres. fold healthy in Hres. fold random in Hres.
  rewrite Hres. clear Hres.
  destruct healthy as [|first rest]; [congruence|].
  unfold GatewayService.selectAmong.
  destruct (GatewayService.walk random 0 (first :: rest)) as [g|] eqn:Ew;
    [|congruence].
  exists g. eexists. split; [reflexivity|].
  split; [exact (walk_elem _ _ _ _ Ew) | reflexivity].
Qed.

(** The shipped descriptors, all healthy, and the largest number below
    1, 1 - 2^-53: the product rounds to 100 - 2^-46, within the last
    interval, and cashfree is selected. *)
Lemma draw_within_total_witness :
  let h := GatewayHealthService.init GATEWAY_CONFIG in
  let rnd := (9007199254740991 # 9007199254740992)%Q in
  (JS.round64 (rnd * Spec.totalWeight GATEWAY_CONFIG)
   == 100 - (1 # 70368744177664))%Q
  /\ exists reason,
       snd (GatewayService.selectGateway GATEWAY_CONFIG h 0 rnd)
       = Ok (GatewaySelectionResult.mk "cashfree" reason).
Proof.
  intros h rnd. split; [vm_compute; reflexivity|].
  destruct (draw_within_total GATEWAY_CONFIG h 0 rnd 100)
    as [_ (g & reason & Hwalk & _ & Hres)].
  - vm_compute. discriminate.
  - vm_compute. reflexivity.
  - split; [lia | vm_compute; reflexivity].
  - split; [vm_compute; discriminate | vm_compute; reflexivity].
  - vm_compute in Hwalk. injection Hwalk as <-.
    exists reason. exact Hres.
Defined.

(** X14.  Failover to the last gateway standing: when exactly one
    descriptor is healthy, [selectGateway] returns it for every draw. *)
Theorem sole_healthy_gateway (config : list GatewayConfig.t)
    (h : GatewayHealthService.State) (now : Z) (rnd : Q)
    (g : GatewayConfig.t) :
  snd (GatewayService.getHealthyGatewayConfigs config h now) = [g] ->
  exists reason,
    snd (GatewayService.selectGateway config h now rnd)
    = Ok (GatewaySelectionResult.mk (GatewayConfig.name g) reason).
Proof.
  intros Hone.
  destruct (selectGateway_cases config h now rnd) as [Hres _].
  cbv zeta in Hres. rewrite Hone in Hres. rewrite Hres.
  pose proof (selectAmong_elem
                (JS.round64 (rnd * Spec.totalWeight [g])) g []) as Hin.
  apply list_elem_of_singleton in Hin. rewrite Hin. eauto.
Qed.

(** razorpay and payu disabled by the operator: cashfree is selected,
    here for the draw 1/10. *)
Lemma sole_healthy_gateway_witness :
  let h :=
    Sample.disable
      (Sample.disable
         (GatewayHealthService.init GATEWAY_CONFIG) "razorpay" 30 0)
      "payu" 30 0 in
  exists reason,
    snd (GatewayService.selectGateway GATEWAY_CONFIG h 1000 (1 # 10))
    = Ok (GatewaySelectionResult.mk "cashfree" reason).
Proof.
  intros h.
  apply (sole_healthy_gateway GATEWAY_CONFIG h 1000 (1 # 10)
           (GatewayConfig.mk "cashfree" 20 true)).
  vm_compute. reflexivity.
Defined.

(** * Further properties of the ledger *)

(** ** The successful callback *)

(** A callback for a PENDING transaction, naming its gateway. *)
Lemma processCallback_fields (s : TransactionsService.State)
    (dto : CallbackDto.t) (now : Z) (id : string) (tx : Transaction.t) :
  TransactionsService.orderToTransaction s !! CallbackDto.order_id dto
  = Some id ->
  JS.truthy id = true ->
  TransactionsService.transactions s !! id = Some tx ->
  Transaction.gateway tx = CallbackDto.gateway dto ->
  Transaction.status tx = TransactionStatus.PENDING ->
  let r := TransactionsService.processCallback s dto now in
  let isSuccess :=
    CallbackStatus.eqb (CallbackDto.status dto) CallbackStatus.SUCCESS in
  exists tx',
    snd r = Ok tx'
    /\ TransactionsService.transactions (fst r)
       = <[id := tx']> (TransactionsService.transactions s)
    /\ TransactionsService.orderToTransaction (fst r)
       = TransactionsService.orderToTransaction s
    /\ TransactionsService.gatewayService (fst r)
       = GatewayHealthService.recordTransaction
           (TransactionsService.gatewayService s)
           (Transaction.gateway tx) isSuccess now
    /\ Transaction.status tx'
       = (if isSuccess then TransactionStatus.SUCCESS
          else TransactionStatus.FAILURE)
    /\ Transaction.updated_at tx' = now
    /\ Transaction.failure_reason tx'
       = match CallbackDto.reason dto with
         | Some reason =>
             if negb isSuccess && JS.truthy reason then Some reason
             else Transaction.failure_reason tx
         | None => Transaction.failure_reason tx
         end
    /\ Transaction.id tx' = Transaction.id tx
    /\ Transaction.order_id tx' = Transaction.order_id tx
    /\ Transaction.gateway tx' = Transaction.gateway tx
    /\ Transaction.gateway_selection_reason tx'
       = Transaction.gateway_selection_reason tx
    /\ Transaction.amount tx' = Transaction.amount tx
    /\ Transaction.currency tx' = Transaction.currency tx
    /\ Transaction.payment_instrument tx' = Transaction.payment_instrument tx
    /\ Transaction.created_at tx' = Transaction.created_at tx.
Proof.
  intros Hi Ht Htx Hgw Hst r isSuccess. subst r.
  unfold TransactionsService.processCallback.
  rewrite Hi, Ht, Htx, Hgw, String.eqb_refl, Hst. simpl.
  unfold GatewayService.recordTransactionResult.
  eexists. repeat split; reflexivity.
Qed.

(** Either [processCallback] throws and changes nothing, or it is the
    successful callback of a PENDING transaction. *)
Lemma processCallback_outcome (s : TransactionsService.State)
    (dto : CallbackDto.t) (now : Z) :
  let r := TransactionsService.processCallback s dto now in
  (fst r = s /\ exists e, snd r = Throw e)
  \/ exists id tx,
       TransactionsService.orderToTransaction s !! CallbackDto.order_id dto
       = Some id
       /\ JS.truthy id = true
       /\ TransactionsService.transactions s !! id = Some tx
       /\ Transaction.gateway tx = CallbackDto.gateway dto
       /\ Transaction.status tx = TransactionStatus.PENDING.
Proof.
  intros r.
  pose proof (processCallback_cases s dto now) as Hcases.
  cbv zeta in Hcases. fold r in Hcases.
  destruct Hcases as [[-> _] | (id & Hi & Ht & Hcases)]; [left; eauto|].
  destruct Hcases as [[_ ->] | (tx & Htx & Hcases)]; [left; eauto|].
  destruct Hcases as [[_ ->] | [(_ & _ & ->) | (Hgw & Hst & _)]];
    [left; eauto | left; eauto |].
  right. exists id, tx. auto.
Qed.

(** X15.  The successful callback.  For an order indexed to a PENDING
    transaction, a callback naming the assigned gateway returns the
    stored transaction with status SUCCESS or FAILURE as reported, the
    modification time set, the failure reason taken over only from a
    failure with a non-empty reason, and every other field as it was; it
    replaces the record under its id, leaves the index and all other
    transactions alone, and records exactly this one outcome with the
    health tracker, for the assigned gateway. *)
Theorem callback_completes (s : TransactionsService.State)
    (dto : CallbackDto.t) (now : Z) (id : string) (tx : Transaction.t) :
  TransactionsService.orderToTransaction s !! CallbackDto.order_id dto
  = Some id ->
  id <> "" ->
  TransactionsService.transactions s !! id = Some tx ->
  Transaction.gateway tx = CallbackDto.gateway dto ->
  Transaction.status tx = TransactionStatus.PENDING ->
  let r := TransactionsService.processCallback s dto now in
  let isSuccess :=
    CallbackStatus.eqb (CallbackDto.status dto) CallbackStatus.SUCCESS in
  exists tx',
    snd r = Ok tx'
    /\ TransactionsService.getTransaction (fst r) id = Ok tx'
    /\ (forall other,
          other <> id ->
          TransactionsService.transactions (fst r) !! other
          = TransactionsService.transactions s !! other)
    /\ TransactionsService.orderToTransaction (fst r)
       = TransactionsService.orderToTransaction s
    /\ TransactionsService.gatewayService (fst r)
       = GatewayHealthService.recordTransaction
           (TransactionsService.gatewayService s)
           (Transaction.gateway tx) isSuccess now
    /\ Transaction.status tx'
       = (if isSuccess then TransactionStatus.SUCCESS
          else TransactionStatus.FAILURE)
    /\ Transaction.updated_at tx' = now
    /\ (Transaction.failure_reason tx' <> Transaction.failure_reason tx ->
        isSuccess = false
        /\ exists reason,
             reason <> "" /\ CallbackDto.reason dto = Some reason
             /\ Transaction.failure_reason tx' = Some reason)
    /\ (Transaction.id tx', Transaction.order_id tx', Transaction.gateway tx',
        Transaction.gateway_selection_reason tx', Transaction.amount tx',
        Transaction.currency tx', Transaction.payment_instrument tx',
        Transaction.created_at tx')
       = (Transaction.id tx, Transaction.order_id tx, Transaction.gateway tx,
          Transaction.gateway_selection_reason tx, Transaction.amount tx,
          Transaction.currency tx, Transaction.payment_instrument tx,
          Transaction.created_at tx).
Proof.
  intros Hi Hid Htx Hgw Hst r isSuccess.
  apply truthy_iff in Hid.
  destruct (processCallback_fields s dto now id tx Hi Hid Htx Hgw Hst)
    as (tx' & Hr & Ht & Ho & Hh & Hs & Hu & Hf & H1 & H2 & H3 & H4 & H5 & H6
        & H7 & H8).
  fold r in Hr, Ht, Ho, Hh. fold isSuccess in Hh, Hs, Hf.
  exists tx'. split; [exact Hr|]. split.
  { unfold TransactionsService.getTransaction.
    rewrite Ht, lookup_insert_eq. reflexivity. }
  split.
  { intros other Hne. rewrite Ht. apply lookup_insert_ne. congruence. }
  split; [exact Ho|]. split; [exact Hh|]. split; [exact Hs|].
  split; [exact Hu|]. split.
  - intros Hchanged. rewrite Hf in Hchanged |- *.
    destruct (CallbackDto.reason dto) as [reason|]; [|congruence].
    destruct isSuccess; simpl in *; [congruence|].
    destruct (JS.truthy reason) eqn:Et; [|congruence].
    split; [reflexivity|]. exists reason.
    apply truthy_iff in Et. auto.
  - congruence.
Qed.

(** The PENDING transaction of the samples, completed with a failure
    and a reason by its gateway. *)
Lemma callback_completes_witness :
  let dto :=
    CallbackDto.mk "ORD123" CallbackStatus.FAILURE "razorpay"
                   (Some "Customer Cancelled") in
  exists tx',
    snd (TransactionsService.processCallback Sample.ledger1 dto 1000) = Ok tx'
    /\ Transaction.status tx' = TransactionStatus.FAILURE
    /\ TransactionsService.getTransaction
         (fst (TransactionsService.processCallback Sample.ledger1 dto 1000))
         "txn-1" = Ok tx'.
Proof.
  intros dto.
  destruct (TransactionsService.transactions Sample.ledger1 !! "txn-1")
    as [tx|] eqn:Etx; [|vm_compute in Etx; discriminate].
  destruct (callback_completes Sample.ledger1 dto 1000 "txn-1" tx)
    as (tx' & Hr & Hget & _ & _ & _ & Hs & _).
  - vm_compute. reflexivity.
  - discriminate.
  - exact Etx.
  - vm_compute in Etx. injection Etx as <-. reflexivity.
  - vm_compute in Etx. injection Etx as <-. reflexivity.
  - exists tx'. auto.
Defined.

(** ** Stored transactions *)

(** X16.  Terminal states are final and creation is additive.  No
    callback, for any order and with any content, changes a stored
    transaction whose status is SUCCESS or FAILURE; and
    [initiateTransaction] changes no stored transaction when the
    generated id is not in use. *)
Theorem stored_transactions_keep (config : list GatewayConfig.t)
    (s : TransactionsService.State) (id : string) (tx : Transaction.t) :
  TransactionsService.transactions s !! id = Some tx ->
  (forall dto now,
     Transaction.status tx <> TransactionStatus.PENDING ->
     TransactionsService.transactions
       (fst (TransactionsService.processCallback s dto now)) !! id
     = Some tx)
  /\ (forall dto now rnd uuid,
        TransactionsService.transactions s !! uuid = None ->
        TransactionsService.transactions
          (fst (TransactionsService.initiateTransaction
                  config s dto now rnd uuid)) !! id
        = Some tx).
Proof.
  intros Htx. split.
  - intros dto now Hterminal.
    destruct (processCallback_outcome s dto now)
      as [[-> _] | (id0 & tx0 & Hi & Ht & Htx0 & Hgw & Hst)]; [exact Htx|].
    destruct (processCallback_fields s dto now id0 tx0 Hi Ht Htx0 Hgw Hst)
      as (tx' & _ & -> & _).
    rewrite lookup_insert_ne; [exact Htx|].
    intros ->. congruence.
  - intros dto now rnd uuid Hfresh.
    pose proof (initiateTransaction_cases config s dto now rnd uuid) as Hc.
    cbv zeta in Hc.
    destruct Hc as [[_ ->] | [[_ (e & _ & _ & -> & _)]
                             | [_ (sel & tx' & _ & _ & _ & _ & _ & _ & _ & ->
                                   & _)]]];
      try exact Htx.
    rewrite lookup_insert_ne; [exact Htx|]. intros ->. congruence.
Qed.

(** The completed transaction of the samples survives a second callback
    and the creation of another order. *)
Lemma stored_transactions_keep_witness :
  exists tx,
    TransactionsService.transactions Sample.ledger2 !! "txn-1" = Some tx
    /\ Transaction.status tx = TransactionStatus.SUCCESS
    /\ TransactionsService.transactions
         (fst (TransactionsService.processCallback
                 Sample.ledger2
                 (Sample.callback "razorpay" CallbackStatus.FAILURE) 2000))
         !! "txn-1" = Some tx.
Proof.
  destruct (TransactionsService.transactions Sample.ledger2 !! "txn-1")
    as [tx|] eqn:Etx; [|vm_compute in Etx; discriminate].
  assert (Hs : Transaction.status tx = TransactionStatus.SUCCESS).
  { vm_compute in Etx. injection Etx as <-. reflexivity. }
  exists tx. split; [reflexivity|]. split; [exact Hs|].
  destruct (stored_transactions_keep GATEWAY_CONFIG Sample.ledger2 "txn-1" tx
              Etx) as [Hcb _].
  apply Hcb. rewrite Hs. discriminate.
Defined.

(** ** The ledger invariant *)

Lemma invariant_maps (config : list GatewayConfig.t)
    (s s' : TransactionsService.State) :
  TransactionsService.transactions s' = TransactionsService.transactions s ->
  TransactionsService.orderToTransaction s'
  = TransactionsService.orderToTransaction s ->
  Ledger.invariant config s -> Ledger.invariant config s'.
Proof.
  unfold Ledger.invariant, Ledger.indexed, Ledger.keyed,
    Ledger.pendingIndexed, Ledger.routed.
  intros -> ->. tauto.
Qed.

Lemma invariant_init (config : list GatewayConfig.t) :
  Ledger.invariant config (TransactionsService.init config).
Proof.
  split; [|split; [|split]]; intros a b H; simpl in H;
    rewrite lookup_empty in H; discriminate.
Qed.

Lemma invariant_clear (config : list GatewayConfig.t)
    (s : TransactionsService.State) :
  Ledger.invariant config (TransactionsService.clearTransactions s).
Proof.
  split; [|split; [|split]]; intros a b H; simpl in H;
    rewrite lookup_empty in H; discriminate.
Qed.

Lemma invariant_initiate (config : list GatewayConfig.t)
    (s : TransactionsService.State) (dto : InitiateTransactionDto.t)
    (now : Z) (rnd : Q) (uuid : string) :
  uuid <> "" ->
  TransactionsService.transactions s !! uuid = None ->
  Ledger.invariant config s ->
  Ledger.invariant config
    (fst (TransactionsService.initiateTransaction config s dto now rnd uuid)).
Proof.
  intros Huuid Hfresh Hinv.
  pose proof (initiateTransaction_cases config s dto now rnd uuid) as Hc.
  cbv zeta in Hc.
  destruct Hc as [[_ ->] | [[_ (e & _ & _ & Ht & Ho)]
                           | [Hp (sel & tx & Hsel & _ & Hid & Hord & Hst & Hgw
                                  & _ & Ht & Ho)]]].
  - exact Hinv.
  - exact (invariant_maps config s _ Ht Ho Hinv).
  - destruct Hinv as (Hindexed & Hkeyed & Hpending & Hrouted).
    set (order := InitiateTransactionDto.order_id dto) in *.
    unfold Ledger.invariant, Ledger.indexed, Ledger.keyed,
      Ledger.pendingIndexed, Ledger.routed.
    rewrite Ht, Ho. split; [|split; [|split]].
    + intros order0 id H. destruct (decide (order = order0)) as [<-|Hne].
      * rewrite lookup_insert_eq in H. injection H as <-.
        split; [apply truthy_iff; exact Huuid|].
        exists tx. rewrite lookup_insert_eq. auto.
      * rewrite lookup_insert_ne in H by exact Hne.
        destruct (Hindexed _ _ H) as (Htr & tx0 & Htx0 & Hord0).
        split; [exact Htr|].
        exists tx0. split; [|exact Hord0].
        rewrite lookup_insert_ne; [exact Htx0|]. intros ->. congruence.
    + intros id tx0 H. destruct (decide (uuid = id)) as [<-|Hne].
      * rewrite lookup_insert_eq in H. injection H as <-. exact Hid.
      * rewrite lookup_insert_ne in H by exact Hne. apply (Hkeyed _ _ H).
    + intros id tx0 H Hpend. destruct (decide (uuid = id)) as [<-|Hne].
      * rewrite lookup_insert_eq in H. injection H as <-.
        rewrite Hord. apply lookup_insert_eq.
      * rewrite lookup_insert_ne in H by exact Hne.
        pose proof (Hpending _ _ H Hpend) as Hidx.
        destruct (decide (order = Transaction.order_id tx0)) as [Heq|Hno].
        { exfalso.
          assert (Hhas : TransactionsService.hasPendingTransaction s order
                         = true).
          { apply hasPendingTransaction_iff. exists id, tx0.
            rewrite Heq. auto. }
          congruence. }
        rewrite lookup_insert_ne by exact Hno. exact Hidx.
    + intros id tx0 H. destruct (decide (uuid = id)) as [<-|Hne].
      * rewrite lookup_insert_eq in H. injection H as <-. rewrite Hgw.
        pose proof (selectGateway_result config
                      (TransactionsService.gatewayService s) now rnd) as Hres.
        cbv zeta in Hres. rewrite Hsel in Hres.
        destruct Hres as [_ (c & Hc & Hn & _)].
        apply isValidGateway_iff. rewrite <- Hn.
        apply list_elem_of_In, in_map, list_elem_of_In. exact Hc.
      * rewrite lookup_insert_ne in H by exact Hne. apply (Hrouted _ _ H).
Qed.

Lemma invariant_callback (config : list GatewayConfig.t)
    (s : TransactionsService.State) (dto : CallbackDto.t) (now : Z) :
  Ledger.invariant config s ->
  Ledger.invariant config (fst (TransactionsService.processCallback s dto now)).
Proof.
  intros Hinv.
  destruct (processCallback_outcome s dto now)
    as [[-> _] | (id0 & tx0 & Hi & Htr & Htx0 & Hgw & Hst)]; [exact Hinv|].
  destruct (processCallback_fields s dto now id0 tx0 Hi Htr Htx0 Hgw Hst)
    as (tx' & _ & Ht & Ho & _ & Hs & _ & _ & H1 & H2 & H3 & _).
  destruct Hinv as (Hindexed & Hkeyed & Hpending & Hrouted).
  unfold Ledger.invariant, Ledger.indexed, Ledger.keyed,
    Ledger.pendingIndexed, Ledger.routed.
  rewrite Ht, Ho. split; [|split; [|split]].
  - intros order id H.
    destruct (Hindexed _ _ H) as (Htr1 & tx1 & Htx1 & Hord1).
    split; [exact Htr1|].
    destruct (decide (id0 = id)) as [<-|Hne].
    + exists tx'. rewrite lookup_insert_eq. split; [reflexivity|].
      rewrite H2. congruence.
    + exists tx1. rewrite lookup_insert_ne by exact Hne. auto.
  - intros id tx1 H. destruct (decide (id0 = id)) as [<-|Hne].
    + rewrite lookup_insert_eq in H. injection H as <-.
      rewrite H1. apply (Hkeyed _ _ Htx0).
    + rewrite lookup_insert_ne in H by exact Hne. apply (Hkeyed _ _ H).
  - intros id tx1 H Hpend. destruct (decide (id0 = id)) as [<-|Hne].
    + rewrite lookup_insert_eq in H. injection H as <-. exfalso.
      rewrite Hs in Hpend. exact (callback_status_terminal _ Hpend).
    + rewrite lookup_insert_ne in H by exact Hne.
      apply (Hpending _ _ H Hpend).
  - intros id tx1 H. destruct (decide (id0 = id)) as [<-|Hne].
    + rewrite lookup_insert_eq in H. injection H as <-.
      rewrite H3. apply (Hrouted _ _ Htx0).
    + rewrite lookup_insert_ne in H by exact Hne. apply (Hrouted _ _ H).
Qed.

Lemma reachable_invariant_holds (config : list GatewayConfig.t)
    (s : TransactionsService.State) :
  Ledger.reachable config s -> Ledger.invariant config s.
Proof.
  induction 1 as [|s dto now rnd uuid _ IH Huuid Hfresh|s dto now _ IH
                  |s _ _|s h _ IH].
  - apply invariant_init.
  - apply invariant_initiate; assumption.
  - apply invariant_callback. exact IH.
  - apply invariant_clear.
  - exact (invariant_maps config s _ eq_refl eq_refl IH).
Qed.

(** X17.  The ledger invariant.  In every state the service can reach
    (by creations under generated ids that are non-empty and unused, by
    callbacks, by resets, and whatever the health tracker does), every
    transaction is stored under its own id and is assigned to a
    configured gateway; every indexed order points at a stored
    transaction of that order; and no order has two PENDING
    transactions: a PENDING one is always the one its order is indexed
    to. *)
Theorem ledger_invariant (config : list GatewayConfig.t)
    (s : TransactionsService.State) :
  Ledger.reachable config s ->
  (forall id tx,
     TransactionsService.transactions s !! id = Some tx ->
     Transaction.id tx = id
     /\ GatewayService.isValidGateway config (Transaction.gateway tx) = true)
  /\ (forall order id,
        TransactionsService.orderToTransaction s !! order = Some id ->
        exists tx,
          TransactionsService.transactions s !! id = Some tx
          /\ Transaction.order_id tx = order)
  /\ (forall id1 id2 tx1 tx2,
        TransactionsService.transactions s !! id1 = Some tx1 ->
        TransactionsService.transactions s !! id2 = Some tx2 ->
        Transaction.status tx1 = TransactionStatus.PENDING ->
        Transaction.status tx2 = TransactionStatus.PENDING ->
        Transaction.order_id tx1 = Transaction.order_id tx2 ->
        id1 = id2
        /\ TransactionsService.orderToTransaction s !! Transaction.order_id tx1
           = Some id1).
Proof.
  intros Hreach.
  destruct (reachable_invariant_holds config s Hreach)
    as (Hindexed & Hkeyed & Hpending & Hrouted).
  split; [|split].
  - intros id tx Htx. split; [apply (Hkeyed _ _ Htx) | apply (Hrouted _ _ Htx)].
  - intros order id Hi. apply (Hindexed _ _ Hi).
  - intros id1 id2 tx1 tx2 H1 H2 Hp1 Hp2 Hsame.
    pose proof (Hpending _ _ H1 Hp1) as Hi1.
    pose proof (Hpending _ _ H2 Hp2) as Hi2.
    rewrite <- Hsame in Hi2. split; [congruence | exact Hi1].
Qed.

Lemma sample_ledger2_reachable :
  Ledger.reachable GATEWAY_CONFIG Sample.ledger2.
Proof.
  unfold Sample.ledger2. apply Ledger.reach_callback.
  unfold Sample.ledger1. apply Ledger.reach_initiate.
  - apply Ledger.reach_init.
  - discriminate.
  - reflexivity.
Qed.

(** The sample ledger after one creation and its callback: the order
    index leads to the stored transaction of that order. *)
Lemma ledger_invariant_witness :
  exists tx,
    TransactionsService.transactions Sample.ledger2 !! "txn-1" = Some tx
    /\ Transaction.order_id tx = "ORD123".
Proof.
  destruct (ledger_invariant GATEWAY_CONFIG Sample.ledger2
              sample_ledger2_reachable) as (_ & Hindexed & _).
  apply (Hindexed "ORD123" "txn-1"). vm_compute. reflexivity.
Defined.

(** X18.  Lookups in reachable states.  An indexed order always
    resolves: [getTransactionByOrderId] returns the transaction stored
    under the indexed id, which carries that order id, and
    [getTransaction] returns the same one for the id.  [processCallback]
    never throws "transaction not found" for an id, and throws "not
    found for order" exactly when the order is not indexed. *)
Theorem indexed_orders_resolve (config : list GatewayConfig.t)
    (s : TransactionsService.State) :
  Ledger.reachable config s ->
  (forall order id,
     TransactionsService.orderToTransaction s !! order = Some id ->
     exists tx,
       TransactionsService.getTransactionByOrderId s order = Ok tx
       /\ TransactionsService.getTransaction s id = Ok tx
       /\ Transaction.id tx = id
       /\ Transaction.order_id tx = order)
  /\ (forall order,
        TransactionsService.orderToTransaction s !! order = None ->
        TransactionsService.getTransactionByOrderId s order
        = Throw (OrderNotFound order))
  /\ (forall dto now,
        (forall id,
           snd (TransactionsService.processCallback s dto now)
           <> Throw (TransactionNotFound id))
        /\ ((exists order,
               snd (TransactionsService.processCallback s dto now)
               = Throw (OrderNotFound order))
            <-> TransactionsService.orderToTransaction s
                !! CallbackDto.order_id dto = None)).
Proof.
  intros Hreach.
  destruct (reachable_invariant_holds config s Hreach)
    as (Hindexed & Hkeyed & _ & _).
  split; [|split].
  - intros order id Hi. destruct (Hindexed _ _ Hi) as (Ht & tx & Htx & Hord).
    exists tx. unfold TransactionsService.getTransactionByOrderId,
      TransactionsService.getTransaction.
    rewrite Hi, Ht, Htx. repeat split; [apply (Hkeyed _ _ Htx) | exact Hord].
  - intros order Hnone. unfold TransactionsService.getTransactionByOrderId.
    rewrite Hnone. reflexivity.
  - intros dto now.
    pose proof (processCallback_cases s dto now) as Hc. cbv zeta in Hc.
    destruct Hc as [[Hr Hfalsy] | (id & Hi & Ht & Hc)].
    + assert (Hnone : TransactionsService.orderToTransaction s
                      !! CallbackDto.order_id dto = None).
      { destruct (TransactionsService.orderToTransaction s
                  !! CallbackDto.order_id dto) as [id|] eqn:E; [|reflexivity].
        destruct (Hindexed _ _ E) as [Ht _].
        rewrite (Hfalsy id eq_refl) in Ht. discriminate. }
      rewrite Hr. simpl. split; [discriminate|]. split; eauto.
    + destruct (Hindexed _ _ Hi) as (_ & tx & Htx & _).
      destruct Hc as [[Hnone _] | (tx0 & Htx0 & Hc)]; [congruence|].
      assert (Hres : forall e,
        snd (TransactionsService.processCallback s dto now) = Throw e ->
        (exists a b, e = GatewayMismatch a b)
        \/ exists st, e = AlreadyProcessed st).
      { intros e He.
        destruct Hc as [[_ Hr] | [(_ & _ & Hr) | (_ & _ & tx' & Hr & _)]];
          rewrite Hr in He; simpl in He; try discriminate;
          injection He as <-; eauto. }
      split.
      * intros id' He. destruct (Hres _ He) as [(a & b & [=]) | (st & [=])].
      * rewrite Hi. split; [|discriminate].
        intros (order & He).
        destruct (Hres _ He) as [(a & b & [=]) | (st & [=])].
Qed.

Lemma indexed_orders_resolve_witness :
  exists tx,
    TransactionsService.getTransactionByOrderId Sample.ledger2 "ORD123" = Ok tx
    /\ Transaction.id tx = "txn-1".
Proof.
  destruct (indexed_orders_resolve GATEWAY_CONFIG Sample.ledger2
              sample_ledger2_reachable) as (Hresolve & _).
  destruct (Hresolve "ORD123" "txn-1") as (tx & Hget & _ & Hid & _).
  - vm_compute. reflexivity.
  - exists tx. auto.
Defined.

(** X19.  Creation followed by the callback.  After a successful
    [initiateTransaction] under a non-empty generated id, the order
    resolves to the returned transaction, which is assigned to a
    configured gateway; a callback for the order that names this gateway
    succeeds, whenever it comes and whatever it reports, and hands the
    outcome to the health tracker; a callback that names any other
    gateway is rejected and changes nothing. *)
Theorem create_then_complete (config : list GatewayConfig.t)
    (s s1 : TransactionsService.State) (dto : InitiateTransactionDto.t)
    (now : Z) (rnd : Q) (uuid : string) (tx : Transaction.t)
    (status : CallbackStatus.t) (reason : option string) (now2 : Z) :
  TransactionsService.initiateTransaction config s dto now rnd uuid
  = (s1, Ok tx) ->
  uuid <> "" ->
  let order := InitiateTransactionDto.order_id dto in
  let isSuccess := CallbackStatus.eqb status CallbackStatus.SUCCESS in
  TransactionsService.getTransactionByOrderId s1 order = Ok tx
  /\ GatewayService.isValidGateway config (Transaction.gateway tx) = true
  /\ (exists tx2,
        let r :=
          TransactionsService.processCallback
            s1 (CallbackDto.mk order status (Transaction.gateway tx) reason)
            now2 in
        snd r = Ok tx2
        /\ Transaction.id tx2 = uuid
        /\ Transaction.status tx2
           = (if isSuccess then TransactionStatus.SUCCESS
              else TransactionStatus.FAILURE)
        /\ TransactionsService.gatewayService (fst r)
           = GatewayHealthService.recordTransaction
               (TransactionsService.gatewayService s1)
               (Transaction.gateway tx) isSuccess now2)
  /\ forall other,
       other <> Transaction.gateway tx ->
       TransactionsService.processCallback
         s1 (CallbackDto.mk order status other reason) now2
       = (s1, Throw (GatewayMismatch (Transaction.gateway tx) other)).
Proof.
  intros Hcreate Huuid order isSuccess.
  pose proof (initiateTransaction_cases config s dto now rnd uuid) as Hc.
  cbv zeta in Hc. rewrite Hcreate in Hc. simpl in Hc.
  destruct Hc as [[_ [=]] | [[_ (e & _ & [=] & _)]
                            | [_ (sel & tx' & Hsel & [= <-] & Hid & Hord & Hst
                                  & Hgw & _ & Ht & Ho)]]].
  fold order in Ho, Hord.
  assert (Hi : TransactionsService.orderToTransaction s1 !! order = Some uuid)
    by (rewrite Ho; apply lookup_insert_eq).
  assert (Htx : TransactionsService.transactions s1 !! uuid = Some tx)
    by (rewrite Ht; apply lookup_insert_eq).
  assert (Htr : JS.truthy uuid = true) by (apply truthy_iff; exact Huuid).
  split; [|split; [|split]].
  - unfold TransactionsService.getTransactionByOrderId,
      TransactionsService.getTransaction.
    rewrite Hi, Htr, Htx. reflexivity.
  - rewrite Hgw.
    pose proof (selectGateway_result config
                  (TransactionsService.gatewayService s) now rnd) as Hres.
    cbv zeta in Hres. rewrite Hsel in Hres.
    destruct Hres as [_ (c & Hc & Hn & _)].
    apply isValidGateway_iff. rewrite <- Hn.
    apply list_elem_of_In, in_map, list_elem_of_In. exact Hc.
  - destruct (processCallback_fields s1
                (CallbackDto.mk order status (Transaction.gateway tx) reason)
                now2 uuid tx Hi Htr Htx eq_refl Hst)
      as (tx2 & Hr & _ & _ & Hh & Hs & _ & _ & H1 & _).
    exists tx2. cbv zeta. simpl in Hs, Hh.
    repeat split; try assumption. congruence.
  - intros other Hne.
    pose proof (processCallback_cases s1
                  (CallbackDto.mk order status other reason) now2) as Hc.
    cbv zeta in Hc. simpl in Hc. rewrite Hi in Hc.
    destruct Hc as [[_ Hfalsy] | (id & [= <-] & _ & Hc)].
    { rewrite (Hfalsy uuid eq_refl) in Htr. discriminate. }
    rewrite Htx in Hc.
    destruct Hc as [[[=] _] | (tx0 & [= <-] & Hc)].
    destruct Hc as [[_ Hr] | [(Heq & _) | (Heq & _)]];
      [exact Hr | congruence | congruence].
Qed.

(** The sample order, created on a fresh ledger and then reported as
    failed by razorpay, the gateway it was assigned to. *)
Lemma create_then_complete_witness :
  exists s1 tx tx2,
    TransactionsService.initiateTransaction
      GATEWAY_CONFIG Sample.ledger0 (Sample.order Sample.card) 0 (1 # 2)
      "txn-1" = (s1, Ok tx)
    /\ Transaction.gateway tx = "razorpay"
    /\ snd (TransactionsService.processCallback
              s1 (CallbackDto.mk "ORD123" CallbackStatus.FAILURE
                                 (Transaction.gateway tx) None) 1000)
       = Ok tx2
    /\ Transaction.status tx2 = TransactionStatus.FAILURE.
Proof.
  destruct (TransactionsService.initiateTransaction
              GATEWAY_CONFIG Sample.ledger0 (Sample.order Sample.card) 0
              (1 # 2) "txn-1") as [s1 [tx|e]] eqn:E;
    [|vm_compute in E; discriminate].
  assert (Hgw : Transaction.gateway tx = "razorpay").
  { vm_compute in E. injection E as _ <-. reflexivity. }
  destruct (create_then_complete _ _ _ _ _ _ _ _ CallbackStatus.FAILURE None
              1000 E) as (_ & _ & (tx2 & Hr & _ & Hs & _) & _);
    [discriminate|].
  exists s1, tx, tx2. auto.
Defined.

(** ** Listing and statistics *)

Lemma values_elem (m : gmap string Transaction.t) (tx : Transaction.t) :
  tx ∈ map snd (map_to_list m) <-> exists id, m !! id = Some tx.
Proof.
  rewrite list_elem_of_In, in_map_iff. split.
  - intros ([id tx'] & Heq & Hin). simpl in Heq. subst tx'.
    apply list_elem_of_In, elem_of_map_to_list in Hin. eauto.
  - intros (id & Hid). exists (id, tx). split; [reflexivity|].
    apply list_elem_of_In, elem_of_map_to_list. exact Hid.
Qed.

Lemma all_transactions_facts (s : TransactionsService.State) :
  let l := TransactionsService.getAllTransactions s in
  (forall tx,
     tx ∈ l <-> exists id, TransactionsService.transactions s !! id = Some tx)
  /\ length l = size (TransactionsService.transactions s).
Proof.
  intros l. subst l. unfold TransactionsService.getAllTransactions.
  pose proof (sort_desc_perm Transaction.created_at
                (map snd (map_to_list (TransactionsService.transactions s))))
    as Hp.
  split.
  - intros tx. rewrite Hp. apply values_elem.
  - rewrite Hp, length_map. apply length_map_to_list.
Qed.

(** X20.  [getAllTransactions] lists exactly the stored transactions,
    each stored entry once, with the most recently created first. *)
Theorem all_transactions (s : TransactionsService.State) :
  let l := TransactionsService.getAllTransactions s in
  (forall tx,
     tx ∈ l <-> exists id, TransactionsService.transactions s !! id = Some tx)
  /\ length l = size (TransactionsService.transactions s)
  /\ StronglySorted (Order.descending Transaction.created_at) l.
Proof.
  intros l. destruct (all_transactions_facts s) as [Helem Hlen].
  split; [exact Helem|]. split; [exact Hlen|].
  apply sort_desc_sorted.
Qed.

Lemma countIf_and_le {A : Type} (p q : A -> bool) (l : list A) :
  (Spec.countIf (fun x => p x && q x) l <= Spec.countIf p l)%nat.
Proof.
  induction l as [|x l IH]; simpl; [lia|].
  destruct (p x), (q x); simpl; lia.
Qed.

Lemma countGateway_fold (l : list Transaction.t)
    (m : gmap string GatewayCount.t) (gateway : string) :
  let named t := String.eqb (Transaction.gateway t) gateway in
  let entry := default (GatewayCount.mk 0 0 0) (m !! gateway) in
  foldl TransactionsService.countGateway m l !! gateway
  = match Spec.countIf named l with
    | O => m !! gateway
    | S _ =>
        Some
          {| GatewayCount.total :=
               GatewayCount.total entry + Spec.countIf named l;
             GatewayCount.success :=
               GatewayCount.success entry
               + Spec.countIf
                   (fun t => named t
                             && TransactionStatus.eqb
                                  (Transaction.status t)
                                  TransactionStatus.SUCCESS) l;
             GatewayCount.failure :=
               GatewayCount.failure entry
               + Spec.countIf
                   (fun t => named t
                             && TransactionStatus.eqb
                                  (Transaction.status t)
                                  TransactionStatus.FAILURE) l |}
    end%nat.
Proof.
  intros named. revert m. induction l as [|t l IH]; intros m; [reflexivity|].
  simpl. rewrite IH. clear IH. subst named. simpl.
  unfold TransactionsService.countGateway at 1 2 3 4.
  destruct (String.eqb_spec (Transaction.gateway t) gateway) as [->|Hne].
  - rewrite lookup_insert_eq. simpl.
    pose proof (countIf_and_le
                  (fun t => String.eqb (Transaction.gateway t) gateway)
                  (fun t => TransactionStatus.eqb (Transaction.status t)
                                                  TransactionStatus.SUCCESS)
                  l) as Hs.
    pose proof (countIf_and_le
                  (fun t => String.eqb (Transaction.gateway t) gateway)
                  (fun t => TransactionStatus.eqb (Transaction.status t)
                                                  TransactionStatus.FAILURE)
                  l) as Hf.
    simpl in Hs, Hf.
    destruct (m !! gateway) as [[t0 s0 f0]|]; simpl;
      destruct (Transaction.status t); simpl;
      destruct (Spec.countIf
                  (fun t => String.eqb (Transaction.gateway t) gateway) l);
      f_equal; f_equal; lia.
  - rewrite lookup_insert_ne by exact Hne. simpl. reflexivity.
Qed.

(** X21.  [getStats].  The total is the number of stored transactions
    and splits into the pending, the successful and the failed ones.
    [byGateway] has an entry exactly for the gateways that some stored
    transaction is assigned to; the entry counts the transactions of
    that gateway, and among them the successful and the failed ones. *)
Theorem stats_count (s : TransactionsService.State) (gateway : string) :
  let stats := TransactionsService.getStats s in
  let l := TransactionsService.getAllTransactions s in
  let named t := String.eqb (Transaction.gateway t) gateway in
  let has status t := TransactionStatus.eqb (Transaction.status t) status in
  TransactionStats.total stats = size (TransactionsService.transactions s)
  /\ TransactionStats.total stats
     = (TransactionStats.pending stats + TransactionStats.success stats
        + TransactionStats.failure stats)%nat
  /\ (TransactionStats.byGateway stats !! gateway = None
      <-> forall id tx,
            TransactionsService.transactions s !! id = Some tx ->
            Transaction.gateway tx <> gateway)
  /\ forall count,
       TransactionStats.byGateway stats !! gateway = Some count ->
       GatewayCount.total count = Spec.countIf named l
       /\ GatewayCount.success count
          = Spec.countIf
              (fun t => named t && has TransactionStatus.SUCCESS t) l
       /\ GatewayCount.failure count
          = Spec.countIf
              (fun t => named t && has TransactionStatus.FAILURE t) l
       /\ (0 < GatewayCount.total count)%nat
       /\ (GatewayCount.success count + GatewayCount.failure count
           <= GatewayCount.total count)%nat.
Proof.
  intros stats l named has.
  destruct (all_transactions_facts s) as (Helem & Hlen).
  fold l in Helem, Hlen.
  pose proof (countGateway_fold l ∅ gateway) as Hfold.
  cbv zeta in Hfold. rewrite lookup_empty in Hfold. simpl in Hfold.
  fold named in Hfold.
  assert (Hby : TransactionStats.byGateway stats
                = foldl TransactionsService.countGateway ∅ l) by reflexivity.
  split; [exact Hlen|]. split; [|split].
  - subst stats. unfold TransactionsService.getStats. cbv zeta. fold l.
    cbn [TransactionStats.total TransactionStats.pending
         TransactionStats.success TransactionStats.failure].
    rewrite !length_filter_countIf. clear.
    induction l as [|t l IH]; simpl; [reflexivity|].
    destruct (Transaction.status t); simpl; lia.
  - rewrite Hby, Hfold. split.
    + intros Hnone id tx Htx Hgw.
      assert (Hin : tx ∈ l) by (apply Helem; eauto).
      assert (Hpos : (0 < Spec.countIf named l)%nat).
      { clear - Hin Hgw. induction Hin as [tx l|tx t l Hin IH]; simpl.
        - subst named. simpl. rewrite Hgw, String.eqb_refl. lia.
        - destruct (named t); [lia | exact (IH Hgw)]. }
      destruct (Spec.countIf named l); [lia | discriminate].
    + intros Hnone.
      destruct (Spec.countIf named l) eqn:E; [reflexivity|]. exfalso.
      assert (Hex : exists tx, tx ∈ l /\ named tx = true).
      { clear - E. induction l as [|t l IH]; simpl in E; [discriminate|].
        destruct (named t) eqn:En.
        - exists t. split; [left | exact En].
        - destruct (IH E) as (tx & Hin & Hn). exists tx.
          split; [right; exact Hin | exact Hn]. }
      destruct Hex as (tx & Hin & Hn). apply Helem in Hin as (id & Hid).
      apply (Hnone id tx Hid). apply String.eqb_eq. exact Hn.
  - intros count. rewrite Hby, Hfold.
    destruct (Spec.countIf named l) eqn:E; [discriminate|].
    intros [= <-]. simpl. rewrite <- E.
    repeat split; try lia.
    subst named. clear. induction l as [|t l IH]; simpl; [lia|].
    destruct (String.eqb (Transaction.gateway t) gateway),
      (Transaction.status t); simpl; lia.
Qed.

(** X22.  [clearTransactions] empties the ledger and leaves the health
    tracker alone: afterwards nothing is listed, the statistics are all
    zero, every callback is rejected with "not found for order" without
    effect, and no creation is rejected as a duplicate. *)
Theorem clear_transactions (config : list GatewayConfig.t)
    (s : TransactionsService.State) :
  let s1 := TransactionsService.clearTransactions s in
  TransactionsService.gatewayService s1 = TransactionsService.gatewayService s
  /\ TransactionsService.getAllTransactions s1 = []
  /\ TransactionsService.getStats s1 = TransactionStats.mk 0 0 0 0 ∅
  /\ (forall id,
        TransactionsService.getTransaction s1 id
        = Throw (TransactionNotFound id))
  /\ (forall dto now,
        TransactionsService.processCallback s1 dto now
        = (s1, Throw (OrderNotFound (CallbackDto.order_id dto))))
  /\ (forall dto now rnd uuid order,
        snd (TransactionsService.initiateTransaction config s1 dto now rnd uuid)
        <> Throw (DuplicatePendingOrder order)).
Proof.
  intros s1.
  assert (Hall : TransactionsService.getAllTransactions s1 = []).
  { unfold TransactionsService.getAllTransactions. subst s1. simpl.
    rewrite map_to_list_empty. reflexivity. }
  split; [reflexivity|]. split; [exact Hall|]. split; [|split; [|split]].
  - unfold TransactionsService.getStats. rewrite Hall. reflexivity.
  - intros id. unfold TransactionsService.getTransaction. subst s1. simpl.
    rewrite lookup_empty. reflexivity.
  - intros dto now. unfold TransactionsService.processCallback. subst s1.
    simpl. rewrite lookup_empty. reflexivity.
  - intros dto now rnd uuid order.
    pose proof (initiateTransaction_cases config s1 dto now rnd uuid) as Hc.
    cbv zeta in Hc.
    destruct Hc as [[Hp _] | [[_ (e & He & Hr & _)]
                             | [_ (sel & tx & _ & Hr & _)]]].
    + unfold TransactionsService.hasPendingTransaction in Hp. subst s1.
      simpl in Hp. rewrite lookup_empty in Hp. discriminate.
    + rewrite Hr. intros [= ->].
      pose proof (selectGateway_result config
                    (TransactionsService.gatewayService s1) now rnd) as Hres.
      cbv zeta in Hres. rewrite He in Hres. destruct Hres as [[=] _].
    + rewrite Hr. discriminate.
Qed.

(** * Further properties of sanitization *)

Lemma length_append (a b : string) :
  String.length (a +:+ b) = (String.length a + String.length b)%nat.
Proof. induction a as [|c a IH]; simpl; [reflexivity | rewrite IH; reflexivity]. Qed.

Lemma list_ascii_append (a b : string) :
  list_ascii_of_string (a +:+ b)
  = list_ascii_of_string a ++ list_ascii_of_string b.
Proof. induction a as [|c a IH]; simpl; [reflexivity | rewrite IH; reflexivity]. Qed.

Lemma slice_last_prefixed (prefix last : string) :
  JS.slice_last (String.length last) (prefix +:+ last) = last.
Proof.
  unfold JS.slice_last. rewrite length_append.
  replace (String.length prefix + String.length last - String.length last)%nat
    with (String.length prefix) by lia.
  induction prefix as [|c prefix IH]; simpl.
  - apply substring_whole. lia.
  - exact IH.
Qed.

(** X23.  A card number that passes the DTO's pattern (13 to 19 digits)
    is stored as exactly eight characters: the mask "****" and the last
    four digits of the number; the 9 to 15 digits before them are not
    kept.  Sanitizing an instrument that was already sanitized this way
    changes nothing. *)
Theorem validated_card_masked (instrument : PaymentInstrument.t)
    (n : string) :
  PaymentInstrument.card_number instrument = Some n ->
  PaymentInstrumentDto.card_number_matches n = true ->
  let stored := TransactionsService.sanitizePaymentInstrument instrument in
  exists masked last4,
    n = masked +:+ last4
    /\ (9 <= String.length masked <= 15)%nat
    /\ String.length last4 = 4%nat
    /\ forallb PaymentInstrumentDto.isDigit (list_ascii_of_string last4) = true
    /\ PaymentInstrument.card_number stored = Some ("****" +:+ last4)
    /\ String.length ("****" +:+ last4) = 8%nat
    /\ PaymentInstrument.cvv stored = None
    /\ TransactionsService.sanitizePaymentInstrument stored = stored.
Proof.
  intros Hcard Hmatch stored.
  unfold PaymentInstrumentDto.card_number_matches in Hmatch.
  apply andb_true_iff in Hmatch as [Hdigits Hlen].
  apply andb_true_iff in Hlen as [Hmin Hmax].
  apply Nat.leb_le in Hmin, Hmax.
  destruct (slice_last_suffix 4 n) as (masked & Hsplit & Hmasked).
  set (last4 := JS.slice_last 4 n) in *.
  assert (Hl4 : String.length last4 = 4%nat).
  { pose proof (length_append masked last4) as Hl. rewrite <- Hsplit in Hl.
    lia. }
  assert (Htruthy : JS.truthy n = true).
  { apply truthy_iff. intros ->. simpl in Hmin. lia. }
  assert (Hstored : PaymentInstrument.card_number stored
                    = Some ("****" +:+ last4)).
  { subst stored. unfold TransactionsService.sanitizePaymentInstrument.
    simpl. rewrite Hcard, Htruthy. reflexivity. }
  exists masked, last4. split; [exact Hsplit|]. split; [lia|].
  split; [exact Hl4|]. split.
  { rewrite Hsplit, list_ascii_append, forallb_app in Hdigits.
    apply andb_true_iff in Hdigits. apply Hdigits. }
  split; [exact Hstored|]. split.
  { rewrite length_append, Hl4. reflexivity. }
  split; [reflexivity|].
  unfold TransactionsService.sanitizePaymentInstrument at 1.
  rewrite Hstored.
  replace (JS.truthy ("****" +:+ last4)) with true by reflexivity.
  pose proof (slice_last_prefixed "****" last4) as Hslice.
  rewrite Hl4 in Hslice. rewrite Hslice, <- Hstored.
  subst stored. unfold TransactionsService.sanitizePaymentInstrument.
  reflexivity.
Qed.

(** The card number of the service's tests. *)
Lemma validated_card_masked_witness :
  PaymentInstrumentDto.card_number_matches "4111111111111111" = true
  /\ exists masked,
       "4111111111111111" = masked +:+ "1111"
       /\ PaymentInstrument.card_number
            (TransactionsService.sanitizePaymentInstrument Sample.card)
          = Some "****1111".
Proof.
  split; [reflexivity|].
  destruct (validated_card_masked Sample.card "4111111111111111"
              eq_refl eq_refl)
    as (masked & last4 & Hsplit & _ & Hl4 & _ & Hstored & _).
  assert (Hlast : last4 = "1111").
  { vm_compute in Hstored. injection Hstored as <-. reflexivity. }
  rewrite Hlast in Hsplit, Hstored. eauto.
Defined.

(** * Properties of the gateway controller *)

(** The report of a gateway whose entry in the disabled map is known,
    against the report of a state with the same histories. *)
Lemma getGatewayHealth_over (s s' : GatewayHealthService.State)
    (name : string) (now : Z) (entry : option Z) :
  GatewayHealthService.gatewayTransactions s'
  = GatewayHealthService.gatewayTransactions s ->
  GatewayHealthService.disabledGateways s' !! name = entry ->
  let before := snd (GatewayHealthService.getGatewayHealth s name now) in
  snd (GatewayHealthService.getGatewayHealth s' name now)
  = {| GatewayHealth.name := GatewayHealth.name before;
       GatewayHealth.isHealthy :=
         match entry with Some d => negb (now <=? d) | None => true end;
       GatewayHealth.successRate := GatewayHealth.successRate before;
       GatewayHealth.totalRequests := GatewayHealth.totalRequests before;
       GatewayHealth.successCount := GatewayHealth.successCount before;
       GatewayHealth.failureCount := GatewayHealth.failureCount before;
       GatewayHealth.disabledUntil := entry |}.
Proof.
  intros Ht Hd before. subst before.
  assert (Hstats : GatewayHealthService.getGatewayStats s' name now
                   = GatewayHealthService.getGatewayStats s name now).
  { apply getGatewayStats_history. unfold Spec.history. rewrite Ht.
    reflexivity. }
  unfold GatewayHealthService.getGatewayHealth.
  rewrite Hstats, Hd, !isGatewayHealthy_cases, Hd.
  destruct (GatewayHealthService.disabledGateways s !! name) as [d0|];
    [destruct (now <=? d0)|];
    (destruct entry as [d|]; [destruct (now <=? d)|]); reflexivity.
Qed.

(** X24.  The disable endpoint, for a body that is an object.  The
    service is called with [body.minutes], 30 when the member is
    absent.  With a valid Date [disabledUntil] the handler answers with
    the gateway's report read after the change, at an instant [later]:
    its statistics and rate are those of the report that the state
    before the call gives at that instant, its disabledUntil is the
    stored Date, and the gateway is reported unhealthy exactly when
    [later] has not passed that Date; in the other case the read has
    already removed the entry again.  With an Invalid Date the handler
    fails as the service does. *)
Theorem disable_endpoint (s : GatewayHealthService.State) (name : string)
    (body : GatewayController.DisableBody.t) (now later : Z) :
  let minutes :=
    default (JS.Finite 30) (GatewayController.DisableBody.minutes body) in
  let before := snd (GatewayHealthService.getGatewayHealth s name later) in
  match GatewayHealthService.disabledUntilAfter minutes now with
  | Some disabledUntil =>
      GatewayController.disableGateway s name (Some body) now later
      = GatewayController.Answered
          (if later <=? disabledUntil
           then GatewayHealthService.with_disabled s
                  (<[name := disabledUntil]>
                     (GatewayHealthService.disabledGateways s))
           else GatewayHealthService.enableGateway s name)
          {| GatewayController.HealthResponse.success := true;
             GatewayController.HealthResponse.message :=
               "Gateway " +:+ name +:+ " has been disabled";
             GatewayController.HealthResponse.health :=
               {| GatewayHealth.name := name;
                  GatewayHealth.isHealthy := negb (later <=? disabledUntil);
                  GatewayHealth.successRate :=
                    GatewayHealth.successRate before;
                  GatewayHealth.totalRequests :=
                    GatewayHealth.totalRequests before;
                  GatewayHealth.successCount :=
                    GatewayHealth.successCount before;
                  GatewayHealth.failureCount :=
                    GatewayHealth.failureCount before;
                  GatewayHealth.disabledUntil := Some disabledUntil |} |}
  | None =>
      GatewayController.disableGateway s name (Some body) now later
      = GatewayController.InvalidDate
  end.
Proof.
  intros minutes before.
  unfold GatewayController.disableGateway,
    GatewayHealthService.disableGateway.
  change (default (JS.Finite (inject_Z UNHEALTHY_COOLDOWN_MINUTES))
                  (GatewayController.DisableBody.minutes body))
    with minutes.
  cbv zeta.
  destruct (GatewayHealthService.disabledUntilAfter minutes now)
    as [d|]; [|reflexivity].
  set (s1 := GatewayHealthService.with_disabled s
               (<[name := d]> (GatewayHealthService.disabledGateways s))).
  assert (Hd : GatewayHealthService.disabledGateways s1 !! name = Some d)
    by apply lookup_insert_eq.
  pose proof (getGatewayHealth_over s s1 name later (Some d) eq_refl Hd)
    as Hreport.
  pose proof (getGatewayHealth_state s1 name later) as Hstate.
  rewrite isGatewayHealthy_cases, Hd in Hstate.
  destruct (GatewayHealthService.getGatewayHealth s1 name later)
    as [s2 health].
  simpl in Hreport, Hstate. subst s2 health. fold before.
  assert (Hname : GatewayHealth.name before = name).
  { subst before. unfold GatewayHealthService.getGatewayHealth.
    destruct (GatewayHealthService.isGatewayHealthy s name later).
    reflexivity. }
  rewrite Hname.
  destruct (later <=? d); simpl; [reflexivity|].
  f_equal. unfold GatewayHealthService.enableGateway, s1,
    GatewayHealthService.with_disabled. simpl.
  rewrite delete_insert_eq. reflexivity.
Qed.

(** The handler called with the body of the repository's test, 0.001
    minutes, at the instant 1700000000000, the report being read one
    millisecond later: the gateway is reported unhealthy until
    1700000000060.  With -200000000000 minutes it fails. *)
Lemma disable_endpoint_witness :
  let s := GatewayHealthService.init GATEWAY_CONFIG in
  let milli := JS.Finite (1152921504606847 # 1152921504606846976) in
  (exists s1 response,
     GatewayController.disableGateway
       s "razorpay" (Some (GatewayController.DisableBody.mk (Some milli)))
       1700000000000 1700000000001
     = GatewayController.Answered s1 response
     /\ GatewayHealth.isHealthy
          (GatewayController.HealthResponse.health response) = false
     /\ GatewayHealth.disabledUntil
          (GatewayController.HealthResponse.health response)
        = Some 1700000000060)
  /\ GatewayController.disableGateway
       s "razorpay"
       (Some (GatewayController.DisableBody.mk
                (Some (JS.Finite (-200000000000)))))
       1700000000000 1700000000001
     = GatewayController.InvalidDate.
Proof.
  intros s milli. split.
  - pose proof (disable_endpoint
                  s "razorpay"
                  (GatewayController.DisableBody.mk (Some milli))
                  1700000000000 1700000000001) as H.
    cbv zeta in H.
    assert (E : GatewayHealthService.disabledUntilAfter
                  (default (JS.Finite 30)
                     (GatewayController.DisableBody.minutes
                        (GatewayController.DisableBody.mk (Some milli))))
                  1700000000000
                = Some 1700000000060) by (vm_compute; reflexivity).
    rewrite E in H. eexists _, _. split; [exact H|].
    split; reflexivity.
  - pose proof (disable_endpoint
                  s "razorpay"
                  (GatewayController.DisableBody.mk
                     (Some (JS.Finite (-200000000000))))
                  1700000000000 1700000000001) as H.
    cbv zeta in H.
    assert (E : GatewayHealthService.disabledUntilAfter
                  (default (JS.Finite 30)
                     (GatewayController.DisableBody.minutes
                        (GatewayController.DisableBody.mk
                           (Some (JS.Finite (-200000000000))))))
                  1700000000000
                = None) by (vm_compute; reflexivity).
    rewrite E in H. exact H.
Defined.

(** X25.  The enable endpoint answers with the report that the state
    before the call gives at that instant, but for isHealthy, which is
    true, and disabledUntil, which is absent: name, rate and the three
    counts are unchanged.  The state it leaves is that of
    [enableGateway]. *)
Theorem enable_endpoint (s : GatewayHealthService.State) (name : string)
    (now : Z) :
  let before := snd (GatewayHealthService.getGatewayHealth s name now) in
  GatewayController.enableGateway s name now
  = (GatewayHealthService.enableGateway s name,
     {| GatewayController.HealthResponse.success := true;
        GatewayController.HealthResponse.message :=
          "Gateway " +:+ name +:+ " has been enabled";
        GatewayController.HealthResponse.health :=
          {| GatewayHealth.name := name;
             GatewayHealth.isHealthy := true;
             GatewayHealth.successRate := GatewayHealth.successRate before;
             GatewayHealth.totalRequests :=
               GatewayHealth.totalRequests before;
             GatewayHealth.successCount := GatewayHealth.successCount before;
             GatewayHealth.failureCount := GatewayHealth.failureCount before;
             GatewayHealth.disabledUntil := None |} |}).
Proof.
  intros before.
  unfold GatewayController.enableGateway.
  set (s1 := GatewayHealthService.enableGateway s name).
  assert (Hd : GatewayHealthService.disabledGateways s1 !! name = None)
    by apply lookup_delete_eq.
  pose proof (getGatewayHealth_over s s1 name now None eq_refl Hd)
    as Hreport.
  pose proof (getGatewayHealth_state s1 name now) as Hstate.
  rewrite isGatewayHealthy_cases, Hd in Hstate.
  destruct (GatewayHealthService.getGatewayHealth s1 name now)
    as [s2 health].
  simpl in Hreport, Hstate. subst s2 health. fold before.
  assert (Hname : GatewayHealth.name before = name).
  { subst before. unfold GatewayHealthService.getGatewayHealth.
    destruct (GatewayHealthService.isGatewayHealthy s name now).
    reflexivity. }
  rewrite Hname. reflexivity.
Qed.

Lemma find_report (cs : list GatewayConfig.t) (c : GatewayConfig.t)
    (report : GatewayConfig.t -> GatewayHealth.t) :
  (forall c', GatewayHealth.name (report c') = GatewayConfig.name c') ->
  NoDup (map GatewayConfig.name cs) ->
  c ∈ cs ->
  List.find
    (fun h => String.eqb (GatewayHealth.name h) (GatewayConfig.name c))
    (map report cs)
  = Some (report c).
Proof.
  intros Hname. induction cs as [|c0 cs IH]; intros Hnodup Hin;
    [inversion Hin|].
  simpl in Hnodup. apply NoDup_cons in Hnodup as [Hfresh Hnodup]. simpl.
  rewrite Hname.
  destruct (String.eqb_spec (GatewayConfig.name c0) (GatewayConfig.name c))
    as [Heq|Hne].
  - apply elem_of_cons in Hin as [->|Hin]; [reflexivity|].
    exfalso. apply Hfresh. rewrite Heq.
    apply list_elem_of_In, in_map, list_elem_of_In. exact Hin.
  - apply elem_of_cons in Hin as [->|Hin]; [congruence|].
    apply IH; assumption.
Qed.

(** X26.  [GET /gateways].  With pairwise different configured names,
    the answer lists every descriptor, in configured order, together
    with the report that [getGatewayHealth] gives for its name on the
    state before the call; no descriptor comes without a report. *)
Theorem gateways_endpoint (config : list GatewayConfig.t)
    (s : GatewayHealthService.State) (now : Z) :
  NoDup (map GatewayConfig.name config) ->
  snd (GatewayController.getAllGateways config s now)
  = map (fun c =>
           GatewayController.GatewayWithHealth.mk c
             (Some (snd (GatewayHealthService.getGatewayHealth
                           s (GatewayConfig.name c) now))))
        config.
Proof.
  intros Hnodup. unfold GatewayController.getAllGateways.
  pose proof (mapHealth_spec config s s now Hnodup eq_refl
                (fun c _ => eq_refl)) as Hreports.
  unfold GatewayHealthService.getAllGatewayHealth.
  destruct (GatewayHealthService.mapHealth config s now) as [s1 reports].
  simpl in *. subst reports. unfold GatewayService.getAllGateways.
  apply map_ext_in. intros c Hc. f_equal.
  apply (find_report config c
           (fun c => snd (GatewayHealthService.getGatewayHealth
                            s (GatewayConfig.name c) now))).
  - intros c'. unfold GatewayHealthService.getGatewayHealth.
    destruct (GatewayHealthService.isGatewayHealthy s (GatewayConfig.name c')
                                                    now).
    reflexivity.
  - exact Hnodup.
  - apply list_elem_of_In. exact Hc.
Qed.

(** The shipped descriptors on a fresh tracker. *)
Lemma gateways_endpoint_witness :
  let s := GatewayHealthService.init GATEWAY_CONFIG in
  map GatewayController.GatewayWithHealth.config
      (snd (GatewayController.getAllGateways GATEWAY_CONFIG s 0))
  = GATEWAY_CONFIG.
Proof.
  intros s.
  rewrite (gateways_endpoint GATEWAY_CONFIG s 0).
  - reflexivity.
  - apply (bool_decide_unpack _). vm_compute. exact I.
Defined.

(** * Further properties of reports and rationales *)

Lemma ratio_unit (successes total : nat) :
  (0 < total)%nat -> (successes <= total)%nat ->
  (0 <= JS.ratio successes total <= 1)%Q.
Proof.
  intros Hpos Hle. unfold JS.ratio.
  assert (Ht : (0 < inject_Z (Z.of_nat total))%Q).
  { change 0%Q with (inject_Z 0). rewrite <- Zlt_Qlt. lia. }
  split.
  - apply Qle_shift_div_l; [exact Ht|].
    rewrite Qmult_0_l. change 0%Q with (inject_Z 0). rewrite <- Zle_Qle. lia.
  - apply Qle_shift_div_r; [exact Ht|].
    rewrite Qmult_1_l, <- Zle_Qle. lia.
Qed.

(** X27.  The health report.  Its success rate lies between 0 and 1.
    It shows the disabled-until that was stored before the read; the
    gateway is reported unhealthy exactly when that timestamp is present
    and [now] has not passed it.  A timestamp that has elapsed is thus
    shown once more, beside [isHealthy = true], and is gone from the
    next report. *)
Theorem health_report (s : GatewayHealthService.State) (gateway : string)
    (now : Z) :
  let r := GatewayHealthService.getGatewayHealth s gateway now in
  let report := snd r in
  (0 <= GatewayHealth.successRate report <= 1)%Q
  /\ GatewayHealth.disabledUntil report
     = GatewayHealthService.disabledGateways s !! gateway
  /\ (GatewayHealth.isHealthy report = false
      <-> exists d, GatewayHealth.disabledUntil report = Some d /\ now <= d)
  /\ (GatewayHealth.isHealthy report = true ->
      GatewayHealth.disabledUntil
        (snd (GatewayHealthService.getGatewayHealth (fst r) gateway now))
      = None).
Proof.
  intros r report.
  assert (Hrep : report =
    {| GatewayHealth.name := gateway;
       GatewayHealth.isHealthy :=
         snd (GatewayHealthService.isGatewayHealthy s gateway now);
       GatewayHealth.successRate :=
         if (0 <? GatewayStats.totalRequests
                    (GatewayHealthService.getGatewayStats s gateway now))%nat
         then JS.ratio
                (GatewayStats.successCount
                   (GatewayHealthService.getGatewayStats s gateway now))
                (GatewayStats.totalRequests
                   (GatewayHealthService.getGatewayStats s gateway now))
         else 1%Q;
       GatewayHealth.totalRequests :=
         GatewayStats.totalRequests
           (GatewayHealthService.getGatewayStats s gateway now);
       GatewayHealth.successCount :=
         GatewayStats.successCount
           (GatewayHealthService.getGatewayStats s gateway now);
       GatewayHealth.failureCount :=
         GatewayStats.failureCount
           (GatewayHealthService.getGatewayStats s gateway now);
       GatewayHealth.disabledUntil :=
         GatewayHealthService.disabledGateways s !! gateway |}).
  { subst report r. unfold GatewayHealthService.getGatewayHealth.
    destruct (GatewayHealthService.isGatewayHealthy s gateway now).
    reflexivity. }
  split; [|split; [|split]].
  - rewrite Hrep. cbn [GatewayHealth.successRate].
    destruct (getGatewayStats_counts s gateway now) as (Ht & Hs & _).
    cbv zeta in Ht, Hs.
    destruct (Nat.ltb_spec 0 (GatewayStats.totalRequests
                (GatewayHealthService.getGatewayStats s gateway now)))
      as [Hpos|_]; [|split; discriminate].
    apply ratio_unit; [exact Hpos|].
    rewrite Ht, Hs. apply countIf_and_le.
  - rewrite Hrep. reflexivity.
  - rewrite Hrep. cbn [GatewayHealth.isHealthy GatewayHealth.disabledUntil].
    rewrite isGatewayHealthy_cases.
    destruct (GatewayHealthService.disabledGateways s !! gateway) as [d|].
    + destruct (Z.leb_spec now d); simpl; split; try discriminate; eauto.
      intros (d' & [= <-] & Hle). lia.
    + simpl. split; [discriminate | intros (d' & [=] & _)].
  - rewrite Hrep. cbn [GatewayHealth.isHealthy]. intros Hhealthy.
    subst r. rewrite getGatewayHealth_state.
    unfold GatewayHealthService.getGatewayHealth.
    destruct (GatewayHealthService.isGatewayHealthy
                (fst (GatewayHealthService.isGatewayHealthy s gateway now))
                gateway now) as [s2 ok] eqn:E2.
    cbn [snd GatewayHealth.disabledUntil]. clear E2.
    rewrite isGatewayHealthy_cases in Hhealthy |- *.
    destruct (GatewayHealthService.disabledGateways s !! gateway)
      as [d|] eqn:E; [|exact E].
    destruct (now <=? d); simpl in *; [discriminate|].
    apply lookup_delete_eq.
Qed.

Lemma append_assoc_r (a b c : string) : (a +:+ b) +:+ c = a +:+ (b +:+ c).
Proof.
  induction a as [|x a IH]; [reflexivity|].
  change (String x ((a +:+ b) +:+ c) = String x (a +:+ (b +:+ c))).
  rewrite IH. reflexivity.
Qed.

Lemma append_nil_r (a : string) : a +:+ "" = a.
Proof.
  induction a as [|c a IH]; [reflexivity|].
  change (String c (a +:+ "") = String c a).
  rewrite IH. reflexivity.
Qed.

(** X28.  The rationale.  The text returned with a selected gateway is
    "Selected <name> via weighted routing (<share>% effective
    probability)", the share being that of the selected descriptor's
    weight in the total healthy weight; when some configured descriptor
    is outside the healthy set, and only then, it continues with
    ". Excluded unhealthy gateways: " and the names of exactly those
    descriptors, in configured order, separated by ", ". *)
Theorem rationale_excluded (config : list GatewayConfig.t)
    (h : GatewayHealthService.State) (now : Z) (rnd : Q)
    (selection : GatewaySelectionResult.t) :
  snd (GatewayService.selectGateway config h now rnd) = Ok selection ->
  let healthy := snd (GatewayService.getHealthyGatewayConfigs config h now) in
  let excluded :=
    List.filter
      (fun c => bool_decide (GatewayConfig.name c ∉ Spec.healthySet config h now))
      config in
  exists c,
    c ∈ config
    /\ GatewayConfig.name c = GatewaySelectionResult.gateway selection
    /\ GatewaySelectionResult.reason selection
       = "Selected " +:+ GatewayConfig.name c +:+ " via weighted routing ("
           +:+ JS.percent (GatewayConfig.weight c) (Spec.totalWeight healthy)
           +:+ "% effective probability)"
           +:+ match excluded with
               | [] => ""
               | _ :: _ =>
                   ". Excluded unhealthy gateways: "
                     +:+ JS.join ", " (map GatewayConfig.name excluded)
               end.
Proof.
  intros Hsel healthy excluded.
  pose proof (selectGateway_result config h now rnd) as Hres.
  cbv zeta in Hres. rewrite Hsel in Hres. fold healthy in Hres.
  destruct Hres as [_ (c & Hc & Hn & Hreason)].
  exists c. split; [exact Hc|]. split; [exact Hn|]. rewrite Hreason.
  unfold GatewayService.buildSelectionReason.
  assert (Hsame :
    List.filter
      (fun g =>
         negb (existsb
                 (fun hg => String.eqb (GatewayConfig.name hg)
                                       (GatewayConfig.name g))
                 healthy))
      config
    = excluded).
  { subst excluded. apply filter_ext_in. intros g Hg.
    destruct (existsb _ healthy) eqn:Ex; simpl; symmetry.
    - apply bool_decide_eq_false. intros Hout. apply Hout.
      apply existsb_exists in Ex as (hg & Hhg & Heq).
      apply String.eqb_eq in Heq. rewrite <- Heq.
      apply list_elem_of_In in Hhg. subst healthy.
      apply healthy_configs_elem in Hhg. apply Hhg.
    - apply bool_decide_eq_true. intros Hin.
      assert (Hex : existsb
                      (fun hg => String.eqb (GatewayConfig.name hg)
                                            (GatewayConfig.name g))
                      healthy = true).
      { apply existsb_exists. exists g. split; [|apply String.eqb_refl].
        apply list_elem_of_In. subst healthy.
        apply healthy_configs_elem. split; [apply list_elem_of_In|]; assumption. }
      congruence. }
  cbv zeta. rewrite Hsame.
  destruct excluded as [|e rest]; cbn [length Nat.ltb Nat.leb].
  - rewrite append_nil_r. reflexivity.
  - rewrite !append_assoc_r. reflexivity.
Qed.

(** razorpay disabled by the operator: the draw 1/2 selects payu, with
    a share of 60.0% and razorpay named as excluded. *)
Lemma rationale_excluded_witness :
  let h :=
    Sample.disable
      (GatewayHealthService.init GATEWAY_CONFIG) "razorpay" 30 0 in
  exists selection,
    snd (GatewayService.selectGateway GATEWAY_CONFIG h 1000 (1 # 2))
    = Ok selection
    /\ GatewaySelectionResult.reason selection
       = "Selected payu via weighted routing (60.0% effective probability). Excluded unhealthy gateways: razorpay".
Proof.
  intros h.
  destruct (snd (GatewayService.selectGateway GATEWAY_CONFIG h 1000 (1 # 2)))
    as [selection|e] eqn:E; [|vm_compute in E; discriminate].
  exists selection. split; [reflexivity|].
  destruct (rationale_excluded GATEWAY_CONFIG h 1000 (1 # 2) selection E)
    as (c & _ & _ & Hreason).
  vm_compute in E. injection E as <-. reflexivity.
Defined.
